(** * Support-ticket bot: ticket relay and moderation state machine

    A shallow embedding of the moderation core of [src/main.py]: the user
    table of [DatabaseManager], the duration parser [parse_time] and its
    printer [format_timedelta], the [GuardMiddleware] ban filter, ticket
    opening ([init_ticket]), the staff commands [adm_warn], [adm_ban],
    [adm_unban], and the fan-out loop of [confirm_broadcast].

    Modelling conventions.
    - A Python [str] is a list of Unicode code points ([pystr]); texts the
      bot only prints are kept as structured notices ([Notice]).
    - [datetime] and [timedelta] values are integers counting microseconds,
      with the range checks of the Python types written out.
    - The SQLite [users] table is a finite map keyed by [user_id]; the
      [UNIQUE] constraints of the schema are checked by the writes.
    - The outside world is an [Env] of oracles: the k-th reading of
      [datetime.now()], the outcome of the k-th Bot API request, the k-th
      random anonymous id.  Handlers are computations in a state and
      exception monad [M] over [World].
    - Handlers run one at a time, and a statement on the local database
      fails only by violating a constraint of the schema.
    - The optional Supabase mirror is not modelled: every mirror call in the
      source is wrapped in [try/except] or guarded by [USE_SUPABASE] and
      never feeds back into the local tables. *)

From Stdlib Require Import ZArith NArith Lia.
From Stdlib Require Import Ascii String.
From Stdlib Require Import QArith Qcanon Qround.
From stdpp Require Import base option list gmap strings pretty sorting.

Local Open Scope Z_scope.

(** ** Python values *)

(** A character is a Unicode code point. *)
Definition char : Type := N.
Definition pystr : Type := list char.

(** ASCII literals of the development, as code points. *)
Definition of_ascii (s : string) : pystr :=
  map N_of_ascii (list_ascii_of_string s).

(** Exceptions the modelled code raises or receives. *)
Inductive exn : Type :=
| OverflowError
| TypeError
| AttributeError
| IndexError
| IntegrityError
| TelegramForbiddenError
| TelegramRetryAfter (retry_after : Z)
| TelegramBadRequest
| TelegramNetworkError
| OtherError.

Inductive py_result (A : Type) : Type :=
| Return (a : A)
| Raise (e : exn).
Arguments Return {A} a.
Arguments Raise {A} e.

(** ** Text: [str.lower], [str.isdigit], [int], [str.split] *)

Module Text.

(** [char.isdigit()].  The model recognises the ASCII digits [0]-[9];
    Python also accepts other Unicode decimal digits. *)
Definition isdigit (c : char) : bool :=
  ((48 <=? c) && (c <=? 57))%N.

(** [str.lower()] for one code point: Latin [A]-[Z] and the Cyrillic
    capitals (U+0400-U+042F), the alphabets of the command syntax. *)
Definition lower_char (c : char) : char :=
  if ((65 <=? c) && (c <=? 90))%N then (c + 32)%N
  else if ((1040 <=? c) && (c <=? 1071))%N then (c + 32)%N
  else if ((1024 <=? c) && (c <=? 1039))%N then (c + 80)%N
  else c.

Definition lower (s : pystr) : pystr := map lower_char s.

Definition digit_value (c : char) : Z := Z.of_N c - 48.

(** [int(num)] for a string of decimal digits ([int] is only applied to
    strings collected under [isdigit]).  The limit some Python versions put
    on the number of digits is not modelled. *)
Definition int (num : pystr) : Z :=
  fold_left (fun acc c => 10 * acc + digit_value c) num 0.

(** [char.isspace()], the separators of [str.split()]: the ASCII white
    space (U+0009-U+000D, U+001C-U+001F, U+0020) and the Unicode one
    (U+0085, U+00A0, U+1680, U+2000-U+200A, U+2028, U+2029, U+202F, U+205F,
    U+3000). *)
Definition isspace (c : char) : bool :=
  ((c =? 32) || ((9 <=? c) && (c <=? 13)) || ((28 <=? c) && (c <=? 31)) ||
   (c =? 133) || (c =? 160) || (c =? 5760) ||
   ((8192 <=? c) && (c <=? 8202)) || (c =? 8232) || (c =? 8233) ||
   (c =? 8239) || (c =? 8287) || (c =? 12288))%N.

Fixpoint lstrip (s : pystr) : pystr :=
  match s with
  | c :: s' => if isspace c then lstrip s' else s
  | [] => []
  end.

(** The leading run of non-space characters and what follows it. *)
Fixpoint word (s : pystr) : pystr * pystr :=
  match s with
  | c :: s' =>
      if isspace c then ([], s)
      else let '(w, r) := word s' in (c :: w, r)
  | [] => ([], [])
  end.

(** [s.split(maxsplit=n)]: fields separated by runs of white space; after
    [n] splits the remainder is kept as it is, leading space removed. *)
Fixpoint split (maxsplit : nat) (s : pystr) : list pystr :=
  match lstrip s with
  | [] => []
  | c :: r =>
      match maxsplit with
      | O => [c :: r]
      | S n => let '(w, rest) := word (c :: r) in w :: split n rest
      end
  end.

End Text.

(** ** Numbers: [float] *)

(** A finite [float] is the rational it denotes; every arithmetic result is
    rounded to the nearest rational with a 53-bit significand, ties to the
    even one ([round]).  The exponent range of the format is left out: the
    floats of the program are counts of seconds between 1e-6 and 1e12 in
    magnitude, or zero, and the sign of a zero is never observed. *)
Module Float.

Definition float : Type := Qc.

(** The integer nearest to [n / d], ties to even ([0 <= n], [0 < d]). *)
Definition half_even (n d : Z) : Z :=
  let q := n / d in
  let r := n mod d in
  if 2 * r <? d then q
  else if d <? 2 * r then q + 1
  else if Z.even q then q else q + 1.

(** Rounding to the format: the significand [m] satisfies
    [2^52 <= m <= 2^53] at the exponent [e], and the result is
    [m * 2^e]. *)
Definition round (q : Qc) : float :=
  let n := Z.abs (Qnum q) in
  let d := Z.pos (Qden q) in
  if n =? 0 then Q2Qc 0
  else
    let e0 := Z.log2 n - Z.log2 d - 52 in
    let e :=
      if n * 2 ^ Z.max 0 (- e0) <? 2 ^ 52 * (d * 2 ^ Z.max 0 e0)
      then e0 - 1 else e0 in
    let m := half_even (n * 2 ^ Z.max 0 (- e)) (d * 2 ^ Z.max 0 e) in
    Q2Qc (Qmake (Z.sgn (Qnum q) * m * 2 ^ Z.max 0 e)
            (Z.to_pos (2 ^ Z.max 0 (- e)))).

(** [float(z)], the conversion of an [int] operand. *)
Definition of_Z (z : Z) : float := round (Qc_of_Z z).

(** [a / b] on two [int]s, correctly rounded. *)
Definition truediv (a b : Z) : float := round (Qc_of_Z a / Qc_of_Z b)%Qc.

Definition add (x y : float) : float := round (x + y)%Qc.
Definition sub (x y : float) : float := round (x - y)%Qc.
Definition div (x y : float) : float := round (x / y)%Qc.

(** Truncation toward zero. *)
Definition trunc (x : Qc) : Z := Z.quot (Qnum x) (Z.pos (Qden x)).

Definition floor (x : float) : float := Qc_of_Z (Qfloor x).

(** C [fmod]: exact, with the sign of [x]. *)
Definition fmod (x y : float) : float :=
  (x - y * Qc_of_Z (trunc (x / y)))%Qc.

(** [_float_div_mod] of CPython's [floatobject.c]: the quotient snapped to
    an integer and the remainder with the sign of the divisor.  The
    divisors of the program are 3600 and 60: the [ZeroDivisionError] of a
    zero divisor does not arise. *)
Definition div_mod (vx wx : float) : float * float :=
  let mod_ := fmod vx wx in
  let div_ := div (sub vx mod_) wx in
  let '(mod_, div_) :=
    if decide (mod_ = Q2Qc 0) then (Q2Qc 0, div_)
    else if xorb (bool_decide (wx < Q2Qc 0)%Qc)
                 (bool_decide (mod_ < Q2Qc 0)%Qc)
         then (add mod_ wx, sub div_ (Q2Qc 1))
         else (mod_, div_) in
  let floordiv :=
    if decide (div_ = Q2Qc 0) then Q2Qc 0
    else
      let f := floor div_ in
      if bool_decide (Q2Qc (1 # 2) < sub div_ f)%Qc
      then add f (Q2Qc 1) else f in
  (floordiv, mod_).

(** [vx // wx] *)
Definition floordiv (vx wx : float) : float := fst (div_mod vx wx).

(** [vx % wx] ([float_rem]) *)
Definition rem (vx wx : float) : float :=
  let mod_ := fmod vx wx in
  if decide (mod_ = Q2Qc 0) then Q2Qc 0
  else if xorb (bool_decide (wx < Q2Qc 0)%Qc)
               (bool_decide (mod_ < Q2Qc 0)%Qc)
       then add mod_ wx else mod_.

(** [int(x)] *)
Definition int (x : float) : Z := trunc x.

End Float.

(** ** Time: [datetime] and [timedelta] *)

Module Datetime.

(** A duration in microseconds. *)
Definition timedelta : Type := Z.
(** A naive local time: microseconds since 0001-01-01T00:00:00. *)
Definition datetime : Type := Z.

Definition us_per_second : Z := 1000000.

(** [timedelta.max] is 999999999 days, 23:59:59.999999. *)
Definition timedelta_max : Z := 1000000000 * 86400 * us_per_second - 1.
(** [datetime.max] is 9999-12-31T23:59:59.999999, day 3652059. *)
Definition datetime_max : Z := 3652059 * 86400 * us_per_second - 1.

(** [timedelta.min] is -999999999 days. *)
Definition timedelta_min : Z := - (999999999 * 86400 * us_per_second).

(** [timedelta(seconds=n)] *)
Definition timedelta_of_seconds (n : Z) : py_result timedelta :=
  let us := n * us_per_second in
  if (timedelta_min <=? us) && (us <=? timedelta_max)
  then Return us else Raise OverflowError.

(** [d + td] *)
Definition datetime_add (d : datetime) (td : timedelta) : py_result datetime :=
  let r := d + td in
  if (0 <=? r) && (r <=? datetime_max) then Return r else Raise OverflowError.

(** [td.total_seconds()]: the count of microseconds divided by [10**6],
    as a float. *)
Definition total_seconds (td : timedelta) : Float.float :=
  Float.truediv td us_per_second.

(** [int(td.total_seconds())]: truncation of the seconds. *)
Definition total_seconds_int (td : timedelta) : Z :=
  Float.int (total_seconds td).

End Datetime.
Export Datetime.

(** ** Duration tokens *)

(** The literal of a permanent ban, [перманентно]. *)
Definition permanent_token : pystr :=
  [1087; 1077; 1088; 1084; 1072; 1085; 1077; 1085; 1090; 1085; 1086]%N.

(** The [multipliers] dictionary: [d], [h], [m], [s]. *)
Definition multipliers (c : char) : option Z :=
  if (c =? 100)%N then Some 86400
  else if (c =? 104)%N then Some 3600
  else if (c =? 109)%N then Some 60
  else if (c =? 115)%N then Some 1
  else None.

(** The [for char in time_str] loop of [parse_time]; [None] is the early
    [return None] of its [else] branch, [Some total] the value of
    [total_seconds] when the loop runs to its end. *)
Fixpoint parse_loop (time_str : pystr) (total_seconds : Z) (num : pystr)
  : option Z :=
  match time_str with
  | [] => Some total_seconds
  | c :: rest =>
      if Text.isdigit c then parse_loop rest total_seconds (num ++ [c])
      else
        match multipliers c with
        | Some mult =>
            match num with
            | [] => parse_loop rest total_seconds num
            | _ :: _ => parse_loop rest (total_seconds + Text.int num * mult) []
            end
        | None => None
        end
  end.

(** [parse_time(time_str) -> Optional[timedelta]] *)
Definition parse_time (time_str : pystr) : py_result (option timedelta) :=
  let time_str := Text.lower time_str in
  if decide (time_str = permanent_token) then Return None
  else
    match parse_loop time_str 0 [] with
    | None => Return None
    | Some total_seconds =>
        match timedelta_of_seconds total_seconds with
        | Return td => Return (Some td)
        | Raise e => Raise e
        end
    end.

(** [format_timedelta(td) -> str] *)
Definition format_timedelta (td : option timedelta) : string :=
  match td with
  | None => "навсегда"
  | Some td =>
      let total_seconds := total_seconds_int td in
      let days := total_seconds / 86400 in
      let hours := (total_seconds mod 86400) / 3600 in
      let minutes := (total_seconds mod 3600) / 60 in
      let parts :=
        (if 0 <? days then [pretty days +:+ "д"] else []) ++
        (if 0 <? hours then [pretty hours +:+ "ч"] else []) ++
        (if 0 <? minutes then [pretty minutes +:+ "м"] else []) in
      match parts with
      | [] => "0м"
      | _ => String.concat " " parts
      end
  end.

(** ** The local database *)

(** A row of the [users] table. *)
Record User : Type := mkUser {
  user_id : Z;
  anon_id : pystr;
  topic_id : option Z;
  referrer_id : option Z;
  warns : Z;
  is_banned : bool;
  ban_until : option datetime;
  ban_reason : option pystr;
  is_active : bool;
  msg_count : Z;
  created_at : datetime;
  last_seen : datetime
}.

Definition set_topic_id (t : option Z) (u : User) : User :=
  mkUser (user_id u) (anon_id u) t (referrer_id u) (warns u) (is_banned u)
    (ban_until u) (ban_reason u) (is_active u) (msg_count u) (created_at u)
    (last_seen u).

Definition set_warns (w : Z) (u : User) : User :=
  mkUser (user_id u) (anon_id u) (topic_id u) (referrer_id u) w (is_banned u)
    (ban_until u) (ban_reason u) (is_active u) (msg_count u) (created_at u)
    (last_seen u).

Definition set_ban (b : bool) (until : option datetime) (reason : option pystr)
    (u : User) : User :=
  mkUser (user_id u) (anon_id u) (topic_id u) (referrer_id u) (warns u) b
    until reason (is_active u) (msg_count u) (created_at u) (last_seen u).

Definition set_is_active (a : bool) (u : User) : User :=
  mkUser (user_id u) (anon_id u) (topic_id u) (referrer_id u) (warns u)
    (is_banned u) (ban_until u) (ban_reason u) a (msg_count u) (created_at u)
    (last_seen u).

Definition set_last_seen (t : datetime) (u : User) : User :=
  mkUser (user_id u) (anon_id u) (topic_id u) (referrer_id u) (warns u)
    (is_banned u) (ban_until u) (ban_reason u) (is_active u) (msg_count u)
    (created_at u) t.

Definition bump_msg_count (t : datetime) (u : User) : User :=
  mkUser (user_id u) (anon_id u) (topic_id u) (referrer_id u) (warns u)
    (is_banned u) (ban_until u) (ban_reason u) (is_active u) (msg_count u + 1)
    (created_at u) t.

(** A row of [warns_history]. *)
Record WarnRecord : Type := mkWarn {
  warn_user : Z;
  warn_admin : Z;
  warn_reason : option pystr;
  warn_created_at : datetime
}.

(** A row of [broadcast_messages]. *)
Record BroadcastRun : Type := mkRun {
  run_admin : Z;
  run_sent : Z;
  run_failed : Z;
  run_created_at : datetime
}.

Record DB : Type := mkDB {
  users : gmap Z User;
  warns_history : list WarnRecord;
  referrals : list (Z * Z);
  broadcast_messages : list BroadcastRun
}.

Definition empty_db : DB := mkDB ∅ [] [] [].

Definition with_users (f : gmap Z User -> gmap Z User) (d : DB) : DB :=
  mkDB (f (users d)) (warns_history d) (referrals d) (broadcast_messages d).

(** The order of the primary key. *)
Definition key_le (a b : Z * User) : Prop := a.1 <= b.1.

#[global] Instance key_le_dec : RelDecision key_le :=
  fun a b => decide (a.1 <= b.1).

(** The rows of [users] in the order of the primary key, the order in
    which a scan of the table meets them. *)
Definition rows (d : DB) : list User :=
  (merge_sort key_le (map_to_list (users d))).*2.

(** Python truthiness of an optional integer argument ([if uid:]). *)
Definition truthy (z : option Z) : bool :=
  match z with
  | Some z => negb (z =? 0)
  | None => false
  end.

Module Db.

(** A row the day it is inserted by [register]; the other columns take
    the defaults of the schema. *)
Definition new_user (uid : Z) (aid : pystr) (rid : option Z) (now : datetime)
  : User :=
  mkUser uid aid None rid 0 false None None true 0 now now.

Definition anon_taken (aid : pystr) (d : DB) : bool :=
  existsb (fun u => bool_decide (anon_id u = aid)) (rows d).

(** [INSERT OR IGNORE INTO referrals], under [UNIQUE(referrer_id, referred_id)]. *)
Definition add_referral (rid : option Z) (uid : Z) (l : list (Z * Z))
  : list (Z * Z) :=
  match rid with
  | Some r =>
      if truthy rid then
        (if bool_decide ((r, uid) ∈ l) then l else l ++ [(r, uid)])
      else l
  | None => l
  end.

(** The [INSERT INTO users] of [register]; [anon_id] is [UNIQUE]. *)
Definition insert_user (uid : Z) (rid : option Z) (aid : pystr)
    (now : datetime) (d : DB) : py_result DB :=
  if anon_taken aid d then Raise IntegrityError
  else Return (mkDB (<[uid := new_user uid aid rid now]> (users d))
                 (warns_history d)
                 (add_referral rid uid (referrals d))
                 (broadcast_messages d)).

(** [UPDATE users SET last_seen = ? WHERE user_id = ?] *)
Definition touch (uid : Z) (now : datetime) (d : DB) : DB :=
  with_users (alter (set_last_seen now) uid) d.

(** [get_user(uid=..., tid=...)] *)
Definition get_user (uid tid : option Z) (d : DB) : option User :=
  if truthy uid then uid ≫= fun k => users d !! k
  else if truthy tid then
    head (filter (fun u => topic_id u = tid) (rows d))
  else None.

(** The two statements [UPDATE users SET warns = warns + 1] and
    [INSERT INTO warns_history] of [add_warn], committed together. *)
Definition add_warn (uid admin_id : Z) (reason : option pystr)
    (now : datetime) (u : User) (d : DB) : DB :=
  mkDB (<[uid := set_warns (warns u + 1) u]> (users d))
    (warns_history d ++ [mkWarn uid admin_id reason now])
    (referrals d) (broadcast_messages d).

(** [UPDATE users SET topic_id = NULL WHERE user_id = ?] *)
Definition close_ticket (uid : Z) (d : DB) : DB :=
  with_users (alter (set_topic_id None) uid) d.

(** Another row already holds this [topic_id]. *)
Definition topic_taken (uid tid : Z) (d : DB) : bool :=
  existsb (fun u => bool_decide (topic_id u = Some tid ∧ user_id u ≠ uid))
    (rows d).

(** [UPDATE users SET topic_id = ? WHERE user_id = ?]; [topic_id] is
    [UNIQUE], so the statement fails when the row exists and another row
    holds the value. *)
Definition set_topic (uid tid : Z) (d : DB) : py_result DB :=
  match users d !! uid with
  | None => Return d
  | Some _ =>
      if topic_taken uid tid d then Raise IntegrityError
      else Return (with_users (alter (set_topic_id (Some tid)) uid) d)
  end.

(** [update_user_ban(user_id, is_banned, ban_until, ban_reason)] *)
Definition update_user_ban (uid : Z) (banned : bool)
    (until : option datetime) (reason : option pystr) (d : DB) : DB :=
  with_users (alter (set_ban banned until reason) uid) d.

(** [UPDATE users SET is_active = 0 WHERE user_id = ?] *)
Definition deactivate (uid : Z) (d : DB) : DB :=
  with_users (alter (set_is_active false) uid) d.

(** [increment_message_count(user_id)] *)
Definition increment_message_count (uid : Z) (now : datetime) (d : DB) : DB :=
  with_users (alter (bump_msg_count now) uid) d.

(** [get_all_active_users()] *)
Definition get_all_active_users (d : DB) : list Z :=
  user_id <$> filter (fun u => is_active u = true ∧ is_banned u = false) (rows d).

(** [save_broadcast_stats(...)] *)
Definition save_broadcast_stats (admin sent failed : Z) (now : datetime)
    (d : DB) : DB :=
  mkDB (users d) (warns_history d) (referrals d)
    (broadcast_messages d ++ [mkRun admin sent failed now]).

End Db.

(** ** Events, requests and the outside world *)

Inductive ChatType : Type := Private | Group | Supergroup | Channel.

(** The fields of an incoming [Message] the handlers read. *)
Record Message : Type := mkMessage {
  message_id : Z;
  from_user : option Z;
  chat_id : Z;
  chat_type : ChatType;
  message_thread_id : option Z;
  is_topic_message : bool;
  text : option pystr
}.

Record CallbackQuery : Type := mkCallback {
  cq_from_user : Z;
  cq_message : Message;
  cq_data : pystr
}.

(** The states of [BotStates]. *)
Inductive BotStates : Type :=
| choosing_category | writing_issue | rev_adm | rev_rate | rev_msg
| broadcasting | broadcast_confirm.

(** The texts the bot sends, by the f-string that builds them. *)
Inductive Notice : Type :=
| GuardTimed (hours minutes : Z) (reason : option pystr)
| GuardForever
| TicketClosed (anon : pystr) (uid : Z) (at_time : datetime)
| TicketCard (category anon : pystr) (uid msgs warn_count : Z)
| CategoryChosen (category : pystr)
| AwaitingIssue
| TicketFailed
| WarnUsage
| UserNotFound
| WarnIssued (anon : pystr) (w_count : Z) (reason : pystr)
| WarnNotify (w_count : Z) (reason : pystr)
| WarnLimitReached
| WarnBanNotify
| BanUsage
| BanIssued (anon : pystr) (duration_text : string) (reason : pystr)
| BanNotifyTimed (duration_text : string) (reason : pystr)
| BanNotifyForever (reason : pystr)
| UnbanIssued (anon : pystr)
| UnbanNotify
| BroadcastStarting
| Progress (index total success failed : Z)
| BroadcastDone (total success failed : Z).

(** Requests to the Bot API. *)
Inductive Request : Type :=
| SendMessage (chat : Z) (thread : option Z) (body : Notice)
| EditMessageText (chat : Z) (body : Notice)
| DeleteMessage (chat : Z)
| CreateForumTopic (chat : Z) (category anon : pystr)
| CopyMessage (chat : Z) (m : Message)
| SendChatAction (chat : Z)
| AnswerCallbackQuery.

(** The argument of [asyncio.sleep]: a duration, or the delay that
    [send_with_typing] computes from the length of its text. *)
Inductive Pause : Type :=
| Seconds (milliseconds : Z)
| TypingDelay (body : Notice).

(** What an observer of the bot sees, in order. *)
Inductive Event : Type :=
| Api (r : Request)
| Sleep (p : Pause).

(** Configuration and oracles: the two identifiers read from the
    environment, the value of the k-th call of [datetime.now()], the outcome
    of the k-th request to the Bot API (the identifier of the message or
    topic it creates, or the exception it raises), and the k-th result of
    [random.choices]. *)
Record Env : Type := mkEnv {
  ADMIN_GROUP_ID : Z;
  OWNER_ID : Z;
  clock : nat -> datetime;
  bot_api : nat -> Request -> py_result Z;
  random_choices : nat -> pystr
}.

(** The state handlers run in: the database, the finite-state storage of
    the dispatcher, the events so far, and how far each oracle was read. *)
Record World : Type := mkWorld {
  db : DB;
  fsm : gmap (Z * Z) BotStates;
  trace : list Event;
  n_clock : nat;
  n_api : nat;
  n_rand : nat
}.

Definition initial_world : World := mkWorld empty_db ∅ [] 0 0 0.

(** ** The handler monad *)

Definition M (A : Type) : Type := World -> py_result A * World.

Definition ret {A} (a : A) : M A := fun w => (Return a, w).

Definition bind {A B} (m : M A) (f : A -> M B) : M B :=
  fun w =>
    match m w with
    | (Return a, w') => f a w'
    | (Raise e, w') => (Raise e, w')
    end.

Definition raise {A} (e : exn) : M A := fun w => (Raise e, w).

(** [try: m  except Exception as e: h e] *)
Definition try_except {A} (m : M A) (h : exn -> M A) : M A :=
  fun w =>
    match m w with
    | (Return a, w') => (Return a, w')
    | (Raise e, w') => h e w'
    end.

Notation "'let*' x := m 'in' k" := (bind m (fun x => k))
  (at level 10, x name, m at level 100, k at level 200,
   format "'[v' 'let*'  x  :=  m  'in' '/' k ']'").

Definition lift {A} (r : py_result A) : M A := fun w => (r, w).

Definition get_db : M DB := fun w => (Return (db w), w).

Definition put_db (d : DB) : M unit :=
  fun w => (Return tt, mkWorld d (fsm w) (trace w) (n_clock w) (n_api w) (n_rand w)).

Definition modify_db (f : DB -> DB) : M unit := let* d := get_db in put_db (f d).

(** A statement that may violate a constraint: nothing is written then. *)
Definition db_try (f : DB -> py_result DB) : M unit :=
  let* d := get_db in let* d' := lift (f d) in put_db d'.

Definition set_state (key : Z * Z) (s : option BotStates) : M unit :=
  fun w => (Return tt,
            mkWorld (db w)
              (match s with
               | Some s => <[key := s]> (fsm w)
               | None => delete key (fsm w)
               end)
              (trace w) (n_clock w) (n_api w) (n_rand w)).

Definition sleep (p : Pause) : M unit :=
  fun w =>
    (Return tt,
     mkWorld (db w) (fsm w) (trace w ++ [Sleep p]) (n_clock w) (n_api w)
       (n_rand w)).

Section Program.

Variable env : Env.

(** [datetime.now()] *)
Definition now : M datetime :=
  fun w => (Return (clock env (n_clock w)),
            mkWorld (db w) (fsm w) (trace w) (S (n_clock w)) (n_api w) (n_rand w)).

(** One request to the Bot API: it is recorded, and succeeds or raises. *)
Definition api (r : Request) : M Z :=
  fun w =>
    (bot_api env (n_api w) r,
     mkWorld (db w) (fsm w) (trace w ++ [Api r]) (n_clock w) (S (n_api w))
       (n_rand w)).

(** ["".join(random.choices(string.ascii_uppercase + string.digits, k=5))] *)
Definition random_suffix : M pystr :=
  fun w => (Return (random_choices env (n_rand w)),
            mkWorld (db w) (fsm w) (trace w) (n_clock w) (n_api w) (S (n_rand w))).

(** [message.answer(text)]: a message into the chat, and the topic, of [m]. *)
Definition answer (m : Message) (body : Notice) : M Z :=
  api (SendMessage (chat_id m)
         (if is_topic_message m then message_thread_id m else None) body).

(** *** [DatabaseManager] *)

(** [register(uid, rid)] *)
Definition register (uid : Z) (rid : option Z) : M unit :=
  let* d := get_db in
  match users d !! uid with
  | None =>
      let* suffix := random_suffix in
      let* t := now in
      db_try (Db.insert_user uid rid (of_ascii "USER-" ++ suffix) t)
  | Some _ =>
      let* t := now in
      modify_db (Db.touch uid t)
  end.

Definition get_user (uid tid : option Z) : M (option User) :=
  let* d := get_db in ret (Db.get_user uid tid d).

(** [add_warn(uid, admin_id, reason) -> int]; [fetchone()] yields [None]
    for an unknown user and indexing it raises. *)
Definition add_warn (uid admin_id : Z) (reason : option pystr) : M Z :=
  let* d := get_db in
  match users d !! uid with
  | None => raise TypeError
  | Some u =>
      let* t := now in
      let* _ := put_db (Db.add_warn uid admin_id reason t u d) in
      ret (warns u + 1)
  end.

Definition update_user_ban (uid : Z) (banned : bool)
    (until : option datetime) (reason : option pystr) : M unit :=
  modify_db (Db.update_user_ban uid banned until reason).

Definition close_ticket (uid : Z) : M unit := modify_db (Db.close_ticket uid).

(** *** [GuardMiddleware.__call__] *)

(** [f"\nПричина: {u['ban_reason']}" if u['ban_reason'] else ""] *)
Definition reason_text (r : option pystr) : option pystr :=
  match r with
  | Some (c :: s) => Some (c :: s)
  | _ => None
  end.

Definition hour_us : Z := 3600 * us_per_second.
Definition minute_us : Z := 60 * us_per_second.

(** [int(remaining.total_seconds() // 3600)] *)
Definition hours_of (remaining : timedelta) : Z :=
  Float.int (Float.floordiv (total_seconds remaining) (Float.of_Z 3600)).

(** [int((remaining.total_seconds() % 3600) // 60)] *)
Definition minutes_of (remaining : timedelta) : Z :=
  Float.int
    (Float.floordiv
       (Float.rem (total_seconds remaining) (Float.of_Z 3600))
       (Float.of_Z 60)).

(** The result is [None] when the middleware returns without calling
    [handler], and [Some r] when it returns what [handler] returned. *)
Definition GuardMiddleware {R} (handler : Message -> M R) (event : Message)
  : M (option R) :=
  match from_user event, chat_type event with
  | Some uid, Private =>
      let* _ := register uid None in
      let* u := get_user (Some uid) None in
      match u with
      | Some u =>
          if is_banned u then
            match ban_until u with
            | Some ban_time =>
                let* t := now in
                if ban_time <? t then
                  let* _ := update_user_ban uid false None None in
                  let* r := handler event in ret (Some r)
                else
                  let* t' := now in
                  let remaining := ban_time - t' in
                  let hours := hours_of remaining in
                  let minutes := minutes_of remaining in
                  let* _ := answer event
                              (GuardTimed hours minutes
                                 (reason_text (ban_reason u))) in
                  ret None
            | None =>
                let* _ := answer event GuardForever in
                ret None
            end
          else let* r := handler event in ret (Some r)
      | None => let* r := handler event in ret (Some r)
      end
  | _, _ => let* r := handler event in ret (Some r)
  end.

(** *** [init_ticket] *)

Definition init_ticket (uid : Z) (category : pystr) : M (option Z) :=
  let* user := get_user (Some uid) None in
  match user with
  | None => ret None
  | Some user =>
      let* _ :=
        if truthy (topic_id user) then
          let* _ :=
            try_except
              (let* t := now in
               let* _ := api (SendMessage (ADMIN_GROUP_ID env) (topic_id user)
                                (TicketClosed (anon_id user) uid t)) in
               ret tt)
              (fun _ => ret tt) in
          close_ticket uid
        else ret tt in
      try_except
        (let* thread := api (CreateForumTopic (ADMIN_GROUP_ID env) category
                               (anon_id user)) in
         let* _ := db_try (Db.set_topic uid thread) in
         let* _ := api (SendMessage (ADMIN_GROUP_ID env) (Some thread)
                          (TicketCard category (anon_id user) uid
                             (msg_count user) (warns user))) in
         ret (Some thread))
        (fun _ => ret None)
  end.

(** *** Sending helpers *)

(** [send_with_typing(chat_id, text, bot, ...)] *)
Definition send_with_typing (chat : Z) (body : Notice) : M Z :=
  try_except
    (let* _ := api (SendChatAction chat) in
     let* _ := sleep (TypingDelay body) in
     api (SendMessage chat None body))
    (fun _ => api (SendMessage chat None body)).

(** [copy_message_to_user(bot, user_id, message)]: one [send_*] request
    chosen by the content type; both [except] clauses re-raise. *)
Definition copy_message_to_user (uid : Z) (m : Message) : M Z :=
  try_except (api (CopyMessage uid m)) (fun e => raise e).

(** *** Ticket creation from the category keyboard *)

(** [call.data.split("_", 1)[1]] *)
Fixpoint after_underscore (data : pystr) : py_result pystr :=
  match data with
  | [] => Raise IndexError
  | c :: rest => if (c =? 95)%N then Return rest else after_underscore rest
  end.

Definition process_cat_callback (call : CallbackQuery) : M unit :=
  let* category := lift (after_underscore (cq_data call)) in
  let chat := chat_id (cq_message call) in
  let* _ := api (SendChatAction chat) in
  let* _ := sleep (Seconds 1000) in
  let* tid := init_ticket (cq_from_user call) category in
  let* _ :=
    if truthy tid then
      let* _ := set_state (chat, cq_from_user call) (Some writing_issue) in
      let* _ := api (EditMessageText chat (CategoryChosen category)) in
      let* _ := send_with_typing chat AwaitingIssue in
      ret tt
    else
      let* _ := api (EditMessageText chat TicketFailed) in
      ret tt in
  let* _ := api AnswerCallbackQuery in
  ret tt.

(** *** Moderation commands *)

(** [message.from_user.id] *)
Definition sender (m : Message) : M Z :=
  match from_user m with
  | Some uid => ret uid
  | None => raise AttributeError
  end.

(** [(command.args or "").split(maxsplit=2)] *)
Definition split_args (args : option pystr) : list pystr :=
  Text.split 2 (default [] args).

(** The reason written by the automatic ban, [3 предупреждения]. *)
Definition three_warnings : pystr :=
  [51; 32; 1087; 1088; 1077; 1076; 1091; 1087; 1088; 1077; 1078; 1076;
   1077; 1085; 1080; 1103]%N.

(** The default reason of [/ban], [Нарушение правил]. *)
Definition rule_violation : pystr :=
  [1053; 1072; 1088; 1091; 1096; 1077; 1085; 1080; 1077; 32; 1087; 1088;
   1072; 1074; 1080; 1083]%N.

Definition adm_warn (message : Message) (args : option pystr) : M unit :=
  let* admin := sender message in
  if negb (admin =? OWNER_ID env) then ret tt
  else
    match split_args args with
    | time_str :: reason :: _ =>
        let* u := get_user None (message_thread_id message) in
        match u with
        | None => let* _ := answer message UserNotFound in ret tt
        | Some u =>
            let* w_count := add_warn (user_id u) admin (Some reason) in
            let* _ := answer message (WarnIssued (anon_id u) w_count reason) in
            let* _ := api (SendMessage (user_id u) None (WarnNotify w_count reason)) in
            if 3 <=? w_count then
              let* _ := update_user_ban (user_id u) true None (Some three_warnings) in
              let* _ := answer message WarnLimitReached in
              let* _ := api (SendMessage (user_id u) None WarnBanNotify) in
              ret tt
            else ret tt
        end
    | _ => let* _ := answer message WarnUsage in ret tt
    end.

Definition adm_ban (message : Message) (args : option pystr) : M unit :=
  let* admin := sender message in
  if negb (admin =? OWNER_ID env) then ret tt
  else
    match split_args args with
    | [] => let* _ := answer message BanUsage in ret tt
    | time_str :: more =>
        let reason := match more with r :: _ => r | [] => rule_violation end in
        let* u := get_user None (message_thread_id message) in
        match u with
        | None => let* _ := answer message UserNotFound in ret tt
        | Some u =>
            let* ban_duration := lift (parse_time time_str) in
            let* ban_until :=
              match ban_duration with
              | None => ret None
              | Some td =>
                  let* t := now in
                  let* until := lift (datetime_add t td) in
                  ret (Some until)
              end in
            let ban_duration_text := format_timedelta ban_duration in
            let* _ := update_user_ban (user_id u) true ban_until (Some reason) in
            let* _ := answer message
                        (BanIssued (anon_id u) ban_duration_text reason) in
            let* _ := api (SendMessage (user_id u) None
                             (match ban_until with
                              | Some _ => BanNotifyTimed ban_duration_text reason
                              | None => BanNotifyForever reason
                              end)) in
            ret tt
        end
    end.

Definition adm_unban (message : Message) : M unit :=
  let* admin := sender message in
  if negb (admin =? OWNER_ID env) then ret tt
  else
    let* u := get_user None (message_thread_id message) in
    match u with
    | None => let* _ := answer message UserNotFound in ret tt
    | Some u =>
        let* _ := update_user_ban (user_id u) false None None in
        let* _ := answer message (UnbanIssued (anon_id u)) in
        let* _ := api (SendMessage (user_id u) None UnbanNotify) in
        ret tt
    end.

(** *** The fan-out loop of [confirm_broadcast] *)

(** The local variables [success] and [failed]. *)
Record Counters : Type := mkCounters { success : Z; failed : Z }.

(** The three [except] clauses of the loop body, entered with the
    counters as they are when the exception is raised.  The assignment
    [index -= 1] of the second clause changes a variable that the [for]
    statement binds again at the next iteration, so nothing of it
    remains. *)
Definition on_error (uid : Z) (c : Counters) (e : exn) : M Counters :=
  match e with
  | TelegramForbiddenError =>
      let* _ := modify_db (Db.deactivate uid) in
      ret (mkCounters (success c) (failed c + 1))
  | TelegramRetryAfter retry_after =>
      let* _ := sleep (Seconds (1000 * retry_after)) in
      ret c
  | _ => ret (mkCounters (success c) (failed c + 1))
  end.

(** One iteration: the [try] block is the copy, [success += 1], and at every
    tenth index the edit of the progress message and a pause. *)
Definition broadcast_iteration (m : Message) (progress_chat total index uid : Z)
    (c : Counters) : M Counters :=
  let* delivered :=
    try_except
      (let* _ := copy_message_to_user uid m in ret (inl tt))
      (fun e => let* c' := on_error uid c e in ret (inr c')) in
  match delivered with
  | inr c' => ret c'
  | inl _ =>
      let c1 := mkCounters (success c + 1) (failed c) in
      if index mod 10 =? 0 then
        try_except
          (let* _ := api (EditMessageText progress_chat
                            (Progress index total (success c1) (failed c1))) in
           let* _ := sleep (Seconds 50) in
           ret c1)
          (on_error uid c1)
      else ret c1
  end.

(** [for index, user_id in enumerate(user_ids, 1)], from [index] on. *)
Fixpoint broadcast_loop (m : Message) (progress_chat total index : Z)
    (user_ids : list Z) (c : Counters) : M Counters :=
  match user_ids with
  | [] => ret c
  | uid :: rest =>
      let* c' := broadcast_iteration m progress_chat total index uid c in
      broadcast_loop m progress_chat total (index + 1) rest c'
  end.

(** [confirm_broadcast(call, state)]; [message_to_send] is the message
    kept in the state data by [process_broadcast_content].  The model
    returns the two counters the handler reports. *)
Definition confirm_broadcast (call : CallbackQuery) (message_to_send : Message)
  : M Counters :=
  let chat := chat_id (cq_message call) in
  let* _ := api (EditMessageText chat BroadcastStarting) in
  let* d := get_db in
  let user_ids := Db.get_all_active_users d in
  let total := Z.of_nat (length user_ids) in
  let* _ := answer (cq_message call) (Progress 0 total 0 0) in
  let* c := broadcast_loop message_to_send chat total 1 user_ids (mkCounters 0 0) in
  let* t := now in
  let* _ := modify_db (Db.save_broadcast_stats (cq_from_user call)
                         (success c) (failed c) t) in
  let* _ := api (DeleteMessage chat) in
  let* _ := answer (cq_message call)
              (BroadcastDone total (success c) (failed c)) in
  let* _ := set_state (chat, cq_from_user call) None in
  ret c.

(** *** Dispatch *)

Inductive Update : Type :=
| OnMessage (m : Message)
| OnCallback (call : CallbackQuery).

(** [dp.message.middleware(GuardMiddleware())] wraps the handler selected
    for a message; no middleware is registered on [dp.callback_query].
    [on_message] and [on_callback] stand for the selected handlers. *)
Definition feed_update {R} (on_message : Message -> M R)
    (on_callback : CallbackQuery -> M R) (u : Update) : M (option R) :=
  match u with
  | OnMessage m => GuardMiddleware on_message m
  | OnCallback call => let* r := on_callback call in ret (Some r)
  end.

End Program.

(** ** Runs of the bot *)

(** What the bot does, one entry per handler run or database call made by
    a handler outside this model ([cmd_start] registers, [process_cancel]
    closes the ticket, the gateways count messages and deactivate users). *)
Inductive Action : Type :=
| DoRegister (uid : Z) (rid : option Z)
| DoCloseTicket (uid : Z)
| DoCountMessage (uid : Z)
| DoDeactivate (uid : Z)
| DoCategory (call : CallbackQuery)
| DoWarn (m : Message) (args : option pystr)
| DoBan (m : Message) (args : option pystr)
| DoUnban (m : Message)
| DoBroadcast (call : CallbackQuery) (content : Message)
| Guarded (m : Message) (a : Action).

Fixpoint perform (env : Env) (a : Action) : M unit :=
  match a with
  | DoRegister uid rid => register env uid rid
  | DoCloseTicket uid => close_ticket uid
  | DoCountMessage uid =>
      let* t := now env in modify_db (Db.increment_message_count uid t)
  | DoDeactivate uid => modify_db (Db.deactivate uid)
  | DoCategory call => process_cat_callback env call
  | DoWarn m args => adm_warn env m args
  | DoBan m args => adm_ban env m args
  | DoUnban m => adm_unban env m
  | DoBroadcast call content =>
      let* _ := confirm_broadcast env call content in ret tt
  | Guarded m a =>
      let* _ := GuardMiddleware env (fun _ => perform env a) m in ret tt
  end.

(** The world after a sequence of actions; an action that raises leaves the
    world as it is when the exception leaves the handler. *)
Definition run (env : Env) (actions : list Action) (w : World) : World :=
  fold_left (fun w a => snd (perform env a w)) actions w.

(** ** Invariants of the [users] table *)

(** Every row is stored under its own [user_id]. *)
Definition keyed (d : DB) : Prop :=
  forall k u, users d !! k = Some u -> user_id u = k.

(** [thread_id] is unique among users. *)
Definition topic_unique (d : DB) : Prop :=
  forall k1 k2 u1 u2 t,
    users d !! k1 = Some u1 -> users d !! k2 = Some u2 ->
    topic_id u1 = Some t -> topic_id u2 = Some t -> k1 = k2.

Definition consistent (d : DB) : Prop := keyed d /\ topic_unique d.

(** A computation keeps a property of the database, however it ends. *)
Definition preserves {A} (P : DB -> Prop) (m : M A) : Prop :=
  forall w, P (db w) -> P (db (snd (m w))).

(** The recipients of the copy requests of a trace, in order. *)
Fixpoint copies (tr : list Event) : list Z :=
  match tr with
  | Api (CopyMessage uid _) :: tr' => uid :: copies tr'
  | _ :: tr' => copies tr'
  | [] => []
  end.


(** ** Outcomes of the ban command *)

(** The reason [/ban] records: the second field of the arguments, or the
    default. *)
Definition ban_reason_of (more : list pystr) : pystr :=
  match more with r :: _ => r | [] => rule_violation end.

(** The requests of [/ban], once the ban is written. *)
Definition ban_issued (message : Message) (u : User) (text : string)
    (reason : pystr) : Request :=
  SendMessage (chat_id message)
    (if is_topic_message message then message_thread_id message else None)
    (BanIssued (anon_id u) text reason).

(** How [/ban] ends once the ban is written to [d], after [reads] readings
    of the clock: the notice to the staff thread, then the notice to the
    user; the first that is refused ends the handler with its exception. *)
Definition ban_outcome (env : Env) (w : World) (d : DB) (reads : nat)
    (issued notify : Request) : py_result unit * World :=
  match bot_api env (n_api w) issued with
  | Raise e =>
      (Raise e,
       mkWorld d (fsm w) (trace w ++ [Api issued]) (reads + n_clock w)
         (S (n_api w)) (n_rand w))
  | Return _ =>
      (match bot_api env (S (n_api w)) notify with
       | Return _ => Return tt
       | Raise e => Raise e
       end,
       mkWorld d (fsm w) (trace w ++ [Api issued; Api notify]) (reads + n_clock w)
         (S (S (n_api w))) (n_rand w))
  end.

(** ** Outcomes of the warn command *)

(** A transport that delivers every request. *)
Definition reliable (env : Env) : Prop :=
  forall k r, exists z, bot_api env k r = Return z.

(** The row of a user after one more warning: the count grows, and from
    the third warning on the automatic ban is written. *)
Definition warned_row (u : User) : User :=
  let w_count := warns u + 1 in
  if 3 <=? w_count then
    set_ban true None (Some three_warnings) (set_warns w_count u)
  else set_warns w_count u.

(** The requests of one [/warn], all delivered. *)
Definition warn_requests (message : Message) (u : User) (reason : pystr)
  : list Event :=
  let w_count := warns u + 1 in
  let thread :=
    if is_topic_message message then message_thread_id message else None in
  [Api (SendMessage (chat_id message) thread
          (WarnIssued (anon_id u) w_count reason));
   Api (SendMessage (user_id u) None (WarnNotify w_count reason))] ++
  (if 3 <=? w_count then
     [Api (SendMessage (chat_id message) thread WarnLimitReached);
      Api (SendMessage (user_id u) None WarnBanNotify)]
   else []).

(** The database after one [/warn] by [admin]. *)
Definition warned_db (admin : Z) (reason : pystr) (t : datetime) (u : User)
    (d : DB) : DB :=
  let d1 := Db.add_warn (user_id u) admin (Some reason) t u d in
  if 3 <=? warns u + 1 then
    Db.update_user_ban (user_id u) true None (Some three_warnings) d1
  else d1.

(** How many times a trace tells a user of the automatic ban. *)
Fixpoint ban_notices (tr : list Event) : nat :=
  match tr with
  | Api (SendMessage _ _ WarnBanNotify) :: tr' => S (ban_notices tr')
  | _ :: tr' => ban_notices tr'
  | [] => O
  end.

(** The copies and the pauses of a trace: [inl uid] for a copy sent to
    [uid], [inr ms] for a pause of [ms] milliseconds. *)
Fixpoint deliveries (tr : list Event) : list (Z + Z) :=
  match tr with
  | Api (CopyMessage uid _) :: tr' => inl uid :: deliveries tr'
  | Sleep (Seconds ms) :: tr' => inr ms :: deliveries tr'
  | _ :: tr' => deliveries tr'
  | [] => []
  end.

(** A ban that the guard does not lift at time [t]: the user is banned, and
    the test [ban_time < datetime.now()] of the middleware fails or there is
    no [ban_until]. *)
Definition ban_running (u : User) (t : datetime) : bool :=
  is_banned u &&
  match ban_until u with
  | Some ban_time => negb (ban_time <? t)
  | None => true
  end.

(** ** A concrete deployment, for evaluation *)

Module Scenario.

Definition seconds (n : Z) : Z := n * us_per_second.

(** The clock advances one second per reading. *)
Definition clock_1s (k : nat) : datetime := seconds (63000000000 + Z.of_nat k).

(** The n-th character of [string.ascii_uppercase + string.digits]. *)
Definition alnum (n : N) : char :=
  (if n <? 26 then 65 + n else 48 + (n - 26))%N.

(** The k-th random suffix: [k] written with those 36 characters. *)
Definition suffixes (k : nat) : pystr :=
  let n := N.of_nat k in
  of_ascii "AA" ++
  [alnum ((n / 1296) mod 36); alnum ((n / 36) mod 36); alnum (n mod 36)]%N.

(** The owner is user 1 and the staff group is chat -100; every request
    is delivered, the k-th returning the identifier 1000 + k. *)
Definition env_ok : Env :=
  mkEnv (-100) 1 clock_1s (fun k _ => Return (1000 + Z.of_nat k)) suffixes.

Definition private_message (uid : Z) : Message :=
  mkMessage 1 (Some uid) uid Private None false None.

Definition staff_message (thread : Z) : Message :=
  mkMessage 2 (Some 1) (-100) Supergroup (Some thread) true None.

Definition category_click (uid : Z) : CallbackQuery :=
  mkCallback uid (private_message uid) (of_ascii "cat_Tech").

(** User 5 has registered and opened a ticket; its thread is 1001. *)
Definition opened : World :=
  run env_ok [DoRegister 5 None; DoCategory (category_click 5)] initial_world.

(** [/ban перманентно] in the thread of user 5. *)
Definition banned_forever : World :=
  run env_ok [DoBan (staff_message 1001) (Some permanent_token)] opened.

(** [/ban 1h spam] in the thread of user 5. *)
Definition banned_1h : World :=
  run env_ok [DoBan (staff_message 1001) (Some (of_ascii "1h spam"))] opened.

(** Users 5 and 6 have each opened a ticket: threads 1001 and 1008. *)
Definition two_tickets : list Action :=
  [DoRegister 5 None; DoCategory (category_click 5);
   DoRegister 6 None; DoCategory (category_click 6)].

(** The row of user 5 in [opened]. *)
Definition row5 : User :=
  mkUser 5 (of_ascii "USER-AAAAA") (Some 1001) None 0 false None None true 0
    (seconds 63000000000) (seconds 63000000000).

(** [/warn 1h spam] in the thread of user 5. *)
Definition warn5 : Action := DoWarn (staff_message 1001) (Some (of_ascii "1h spam")).

(** Three warnings for user 5. *)
Definition warned3 : World := run env_ok [warn5; warn5; warn5] opened.

(** A transport on which user 5 has blocked the bot: every request to the
    private chat of user 5 is refused. *)
Definition env_blocked : Env :=
  mkEnv (-100) 1 clock_1s
    (fun k r =>
       match r with
       | SendMessage 5 _ _ => Raise TelegramForbiddenError
       | _ => Return (1000 + Z.of_nat k)
       end)
    suffixes.

(** The message the owner broadcasts. *)
Definition announcement : Message :=
  mkMessage 77 (Some 1) 1 Private None false (Some (of_ascii "news")).

(** The broadcast is confirmed by the owner in the private chat. *)
Definition confirm_click : CallbackQuery :=
  mkCallback 1 (private_message 1) (of_ascii "confirm_broadcast").

(** Users 1 to [n] have registered. *)
Definition crowd (n : nat) : World :=
  run env_ok (map (fun k => DoRegister (Z.of_nat k) None) (seq 1 n)) initial_world.

(** Every request is delivered, except that user 42 has blocked the bot. *)
Definition env_42 : Env :=
  mkEnv (-100) 1 clock_1s
    (fun k r =>
       match r with
       | CopyMessage uid _ =>
           if uid =? 42 then Raise TelegramForbiddenError
           else Return (1000 + Z.of_nat k)
       | _ => Return (1000 + Z.of_nat k)
       end)
    suffixes.

(** Every request is delivered, except that the request number 8, if it is
    a copy for user 7, is answered with a rate limit of 2 seconds; a copy
    for user 7 asked for at any other moment is delivered. *)
Definition env_rate_limited : Env :=
  mkEnv (-100) 1 clock_1s
    (fun k r =>
       match r with
       | CopyMessage uid _ =>
           if (uid =? 7) && (k =? 8)%nat then Raise (TelegramRetryAfter 2)
           else Return (1000 + Z.of_nat k)
       | _ => Return (1000 + Z.of_nat k)
       end)
    suffixes.

(** Every request is delivered, except that the progress message cannot be
    edited. *)
Definition env_no_progress : Env :=
  mkEnv (-100) 1 clock_1s
    (fun k r =>
       match r with
       | EditMessageText _ (Progress _ _ _ _) => Raise TelegramBadRequest
       | _ => Return (1000 + Z.of_nat k)
       end)
    suffixes.

(** The recipients 1 to [n], in order. *)
Definition recipients (n : nat) : list Z := map Z.of_nat (seq 1 n).

(** [/ban 1s spam] in the thread of user 5. *)
Definition banned_1s : World :=
  run env_ok [DoBan (staff_message 1001) (Some (of_ascii "1s spam"))] opened.


(** The clock advances twenty minutes and one microsecond per reading. *)
Definition clock_20min (k : nat) : datetime :=
  seconds 63000000000 + Z.of_nat k * 1200000001.

Definition env_20min : Env :=
  mkEnv (-100) 1 clock_20min (fun k _ => Return (1000 + Z.of_nat k)) suffixes.

(** [/ban 2900000d spam] in the thread of user 5, on that clock. *)
Definition banned_2900000d : World :=
  run env_20min
    [DoBan (staff_message 1001) (Some (of_ascii "2900000d spam"))] opened.

End Scenario.

(** * Further definitions *)

(** ** Well-formed duration tokens *)

(** A token written field by field: each field is a run of digits and the
    character that follows it. *)
Definition fields_token (fields : list (pystr * char)) : pystr :=
  concat (map (fun f : pystr * char => f.1 ++ [f.2]) fields).

(** The seconds such a token stands for: the value of every run times the
    seconds of its unit. *)
Definition fields_seconds (fields : list (pystr * char)) : Z :=
  fold_right
    (fun (f : pystr * char) acc =>
       Text.int f.1 * default 0 (multipliers (Text.lower_char f.2)) + acc)
    0 fields.

(** A field of the grammar: digits (possibly none) and a unit letter of
    either case. *)
Definition unit_field (f : pystr * char) : bool :=
  forallb Text.isdigit f.1 &&
  bool_decide (is_Some (multipliers (Text.lower_char f.2))).

(** ** Properties kept by every write *)

(** A property of the database that each statement writing the tables
    [users], [warns_history], [referrals] and [broadcast_messages] keeps.
    The statements are those of [register] (the insertion, made when the
    user is not in the table, and the refreshed [last_seen]), [add_warn],
    [close_ticket], [init_ticket], [update_user_ban], the deactivation of
    [confirm_broadcast] and [gateway_a2u], [increment_message_count] and
    [save_broadcast_stats]. *)
Record closed_under_writes (P : DB -> Prop) : Prop := mkClosed {
  closed_insert_user : forall uid rid aid t d d',
    users d !! uid = None -> P d ->
    Db.insert_user uid rid aid t d = Return d' -> P d';
  closed_touch : forall uid t d, P d -> P (Db.touch uid t d);
  closed_add_warn : forall uid admin reason t u d,
    users d !! uid = Some u -> P d -> P (Db.add_warn uid admin reason t u d);
  closed_close_ticket : forall uid d, P d -> P (Db.close_ticket uid d);
  closed_set_topic : forall uid tid d d',
    P d -> Db.set_topic uid tid d = Return d' -> P d';
  closed_update_user_ban : forall uid banned until reason d,
    P d -> P (Db.update_user_ban uid banned until reason d);
  closed_deactivate : forall uid d, P d -> P (Db.deactivate uid d);
  closed_increment_message_count : forall uid t d,
    P d -> P (Db.increment_message_count uid t d);
  closed_save_broadcast_stats : forall admin sent failed t d,
    P d -> P (Db.save_broadcast_stats admin sent failed t d)
}.

(** The number of rows of [warns_history] about a user. *)
Definition warn_records (uid : Z) (d : DB) : Z :=
  Z.of_nat (length (filter (fun r => warn_user r = uid) (warns_history d))).

(** The column [warns] of a user; zero for a user the table does not have. *)
Definition warns_of (uid : Z) (d : DB) : Z :=
  default 0 (warns <$> users d !! uid).

(** The counter of every user is the number of the warnings on record. *)
Definition ledger (d : DB) : Prop :=
  forall uid, warns_of uid d = warn_records uid d.

(** What may become of a row: the columns written at registration stay,
    the two counters do not go down, and a row that was deactivated is not
    activated again. *)
Record evolves (u0 u : User) : Prop := mkEvolves {
  same_user_id : user_id u = user_id u0;
  same_anon_id : anon_id u = anon_id u0;
  same_referrer_id : referrer_id u = referrer_id u0;
  same_created_at : created_at u = created_at u0;
  warns_grow : warns u0 <= warns u;
  msg_count_grows : msg_count u0 <= msg_count u;
  stays_inactive : is_active u0 = false -> is_active u = false
}.

(** The row of [uid] descends from [u0]. *)
Definition descends (uid : Z) (u0 : User) (d : DB) : Prop :=
  exists u, users d !! uid = Some u /\ evolves u0 u.

(** [anon_id] is unique among users. *)
Definition anon_unique (d : DB) : Prop :=
  forall k1 k2 u1 u2,
    users d !! k1 = Some u1 -> users d !! k2 = Some u2 ->
    anon_id u1 = anon_id u2 -> k1 = k2.

(** The database after the insertion of [register] for a new user. *)
Definition registered (env : Env) (uid : Z) (rid : option Z) (w : World) : DB :=
  mkDB (<[uid := Db.new_user uid (of_ascii "USER-" ++ random_choices env (n_rand w))
                   rid (clock env (n_clock w))]> (users (db w)))
    (warns_history (db w)) (Db.add_referral rid uid (referrals (db w)))
    (broadcast_messages (db w)).

(** The row under [k] is a given one. *)
Definition row_is (k : Z) (row : option User) (d : DB) : Prop :=
  users d !! k = row.

(** The tables that the commands do not write. *)
Definition other_tables (l : list (Z * Z)) (b : list BroadcastRun) (d : DB)
  : Prop :=
  referrals d = l /\ broadcast_messages d = b.

(** The row of a user once the ticket held before, if any, is closed. *)
Definition ticket_closed (user : User) : User :=
  if truthy (topic_id user) then set_topic_id None user else user.

(** ** More deployments *)

Module Cases.

(** A deployment whose [random.choices] gives the same five characters at
    every call. *)
Definition env_same_suffix : Env :=
  mkEnv (-100) 1 Scenario.clock_1s (fun k _ => Return (1000 + Z.of_nat k))
    (fun _ => of_ascii "AAAAA").

(** User 5 has registered there. *)
Definition one_user : World := run env_same_suffix [DoRegister 5 None] initial_world.

(** A deployment where no forum topic can be created; every other request
    is delivered. *)
Definition env_no_topics : Env :=
  mkEnv (-100) 1 Scenario.clock_1s
    (fun k r =>
       match r with
       | CreateForumTopic _ _ _ => Raise TelegramBadRequest
       | _ => Return (1000 + Z.of_nat k)
       end)
    Scenario.suffixes.

End Cases.

(** ** The three moderation commands *)

Inductive Moderation : Type :=
| Warn (args : option pystr)
| Ban (args : option pystr)
| Unban.

(** The handler a command of the staff thread selects. *)
Definition moderate (env : Env) (message : Message) (c : Moderation) : M unit :=
  match c with
  | Warn args => adm_warn env message args
  | Ban args => adm_ban env message args
  | Unban => adm_unban env message
  end.

(** ** What a broadcast may change *)



(** A single word: not empty and without white space. *)
Definition one_word (r : pystr) : Prop :=
  r <> [] /\ Forall (fun c => Text.isspace c = false) r.

(** What a reason read from the fields [parts] of a command can be: the
    second field, one word, followed by one more field at most. *)
Definition reason_field (parts : list pystr) (reason : pystr) : Prop :=
  exists time_str rest,
    parts = time_str :: reason :: rest /\ one_word reason /\
    (length rest <= 1)%nat.

(** Every warning on record is one of [old] or carries a reason read from
    [parts]. *)
Definition warned (parts : list pystr) (old : list WarnRecord) (d : DB) : Prop :=
  forall rec, rec ∈ warns_history d ->
    rec ∈ old \/ exists reason, warn_reason rec = Some reason /\
                              reason_field parts reason.

(** Every row is one of [old] or carries a reason read from [parts], or
    the default reason when [parts] has no second field. *)
Definition banned (parts : list pystr) (old : gmap Z User) (d : DB) : Prop :=
  forall k row, users d !! k = Some row ->
    old !! k = Some row \/
    (ban_reason row = Some rule_violation /\ exists time_str, parts = [time_str]) \/
    exists reason, ban_reason row = Some reason /\ reason_field parts reason.

(** The characters of the command syntax: ASCII and the Russian letters
    U+0400-U+045F.  On them [Text.lower_char] is [str.lower] and
    [Text.isdigit] is [str.isdigit]. *)
Definition command_char (c : char) : bool :=
  ((c <? 128) || ((1024 <=? c) && (c <=? 1119)))%N.

(** The longest run of digits [int] converts under the default limit of
    [sys.set_int_max_str_digits]. *)
Definition max_str_digits : nat := 4300.

(** * The relay between users and staff *)

(** ** Messages with their content *)

(** What [copy_message_to_admin] and the gateways read of a message beyond
    the fields of [Message]: the caption, which of the media fields are set
    (an animation sets [document] too), and whether [content_type] is one
    of the six service types of forum topics. *)
Record Content : Type := mkContent {
  caption : option pystr;
  photo : bool;
  video : bool;
  document : bool;
  audio : bool;
  voice : bool;
  sticker : bool;
  animation : bool;
  video_note : bool;
  location : bool;
  contact : bool;
  poll : bool;
  forum_service : bool
}.

Record Incoming : Type := mkIncoming {
  envelope : Message;
  content : Content
}.

(** [if message.text:] *)
Definition has_text (m : Message) : bool :=
  match text m with
  | Some (_ :: _) => true
  | _ => false
  end.

(** [message.text and message.text.startswith("/")] *)
Definition is_command (m : Message) : bool :=
  match text m with
  | Some (c :: _) => (c =? 47)%N
  | _ => false
  end.

(** The labels of the reply keyboard that [gateway_u2a] does not answer. *)
Definition protected_buttons : list pystr :=
  [ [127384; 32; 1057; 1086; 1079; 1076; 1072; 1090; 1100; 32; 1086; 1073;
     1088; 1072; 1097; 1077; 1085; 1080; 1077];
    [11088; 65039; 32; 1054; 1089; 1090; 1072; 1074; 1080; 1090; 1100; 32;
     1086; 1090; 1079; 1099; 1074];
    [128202; 32; 1057; 1090; 1077; 1085; 1072; 32; 1086; 1090; 1079; 1099;
     1074; 1086; 1074];
    [128100; 32; 1052; 1086; 1081; 32; 1087; 1088; 1086; 1092; 1080; 1083;
     1100];
    [10060; 32; 1054; 1090; 1084; 1077; 1085; 1072] ]%N.

(** ** Reactions *)

Definition thumbs_up : pystr := [128077]%N.
Definition thumbs_down : pystr := [128078]%N.
Definition check_mark : pystr := [9989]%N.
Definition cross_mark : pystr := [10060]%N.
Definition envelope_sign : pystr := [128232]%N.
Definition bust_sign : pystr := [128100]%N.
Definition no_entry_sign : pystr := [128683]%N.

(** The list [supported_emojis] of [safe_set_reaction]. *)
Definition supported_emojis : list pystr :=
  [ [128077]; [128078]; [10084]; [128293]; [129392]; [128079]; [128513];
    [129300]; [129327]; [128561]; [129324]; [128546]; [127881]; [129321];
    [129326]; [128169]; [128591]; [128076]; [128330]; [129313]; [129393];
    [129396]; [128525]; [128051]; [10084; 8205; 128293]; [127770]; [127789];
    [128175]; [129315]; [9889]; [127820]; [127942]; [128148]; [129320];
    [128528]; [127827]; [127870]; [128139]; [128405]; [128520]; [128564];
    [128557]; [129299]; [128123]; [128104; 8205; 128187]; [128064];
    [127875]; [128584]; [128519]; [128552]; [129309]; [9997]; [129303];
    [129761]; [127877]; [127876]; [9731]; [128133]; [129322]; [128511];
    [127378]; [128152]; [128585]; [129412]; [128536]; [128138]; [128586];
    [128526]; [128126]; [129335; 8205; 9794]; [129335]; [129335; 8205; 9792];
    [128545] ]%N.

(** The emoji [safe_set_reaction] asks for when it is given [emoji]. *)
Definition reaction_for (emoji : pystr) : pystr :=
  if bool_decide (emoji ∈ supported_emojis) then emoji
  else if bool_decide (emoji ∈ [check_mark; envelope_sign; bust_sign]) then thumbs_up
  else if bool_decide (emoji ∈ [cross_mark; no_entry_sign]) then thumbs_down
  else thumbs_up.

(** ** Requests and texts of the relay *)

(** The texts of the handlers below, by the literal that builds them. *)
Inductive Leaflet : Type :=
| MenuFirst
| TicketFirst
| Welcome
| AdminPanel
| ChooseCategory
| MainMenu
| ClosedByUser (anon : pystr) (uid : Z) (at_time : datetime)
| AccessDenied
| BroadcastMode
| BroadcastCancelled
| BroadcastPreview (content : Message).

(** The [send_*] methods of the Bot API. *)
Inductive Method : Type :=
| send_message | send_photo | send_video | send_document | send_audio
| send_voice | send_sticker | send_animation | send_video_note.

(** Requests to the Bot API that the handlers above do not make.
    [StaffCopy] is a request into a thread of the staff group about a
    message of a user; [header] is the anonymous identifier when the
    request carries the header line. *)
Inductive Call : Type :=
| SendLeaflet (chat : Z) (thread : option Z) (body : Leaflet)
| SendPhotoUrl (chat : Z) (body : Leaflet)
| UploadPhotoAction (chat : Z)
| StaffCopy (method : Method) (thread : Z) (header : option pystr)
    (message : Incoming)
| SetMessageReaction (chat message : Z) (emoji : pystr)
| EditLeaflet (chat : Z) (body : Leaflet)
| AnswerAlert (body : Leaflet).

(** What an observer sees of these handlers: a request, with its rank among
    all the requests of the bot, or the pause of [send_with_typing]. *)
Inductive Entry : Type :=
| Asked (rank : nat) (c : Call)
| Typed (body : Leaflet).

(** The state of the bot with the record of these requests. *)
Record Session : Type := mkSession {
  core : World;
  log : list Entry
}.

(** ** The handler monad, over sessions *)

Definition Act (A : Type) : Type := Session -> py_result A * Session.

Definition pure {A} (a : A) : Act A := fun s => (Return a, s).

Definition and_then {A B} (m : Act A) (f : A -> Act B) : Act B :=
  fun s =>
    match m s with
    | (Return a, s') => f a s'
    | (Raise e, s') => (Raise e, s')
    end.

(** [try: m  except Exception as e: h e] *)
Definition attempt {A} (m : Act A) (h : exn -> Act A) : Act A :=
  fun s =>
    match m s with
    | (Return a, s') => (Return a, s')
    | (Raise e, s') => h e s'
    end.

Notation "'let+' x := m 'in' k" := (and_then m (fun x => k))
  (at level 10, x name, m at level 100, k at level 200,
   format "'[v' 'let+'  x  :=  m  'in' '/' k ']'").

(** A computation of the handlers above, run on the state of the bot. *)
Definition lift_core {A} (m : M A) : Act A :=
  fun s => let '(r, w) := m (core s) in (r, mkSession w (log s)).

(** [try: m  except: pass] *)
Definition quietly {A} (m : Act A) : Act unit :=
  attempt (let+ _ := m in pure tt) (fun _ => pure tt).

#[global] Instance BotStates_eq_dec : EqDecision BotStates.
Proof. solve_decision. Defined.

(** [state.get_state()] *)
Definition get_state (key : Z * Z) : M (option BotStates) :=
  fun w => (Return (fsm w !! key), w).

(** ** The handlers of the relay *)

Section Relay.

Variable env : Env.

(** The outcome of the request of rank [k], for the requests of [Call]. *)
Variable relay_api : nat -> Call -> py_result Z.

(** One request to the Bot API: it takes the next rank, is recorded, and
    succeeds or raises. *)
Definition call (c : Call) : Act Z :=
  fun s =>
    let w := core s in
    (relay_api (n_api w) c,
     mkSession
       (mkWorld (db w) (fsm w) (trace w) (n_clock w) (S (n_api w)) (n_rand w))
       (log s ++ [Asked (n_api w) c])).

(** [asyncio.sleep(min(len(text) * 0.03, 2.0))] *)
Definition typing (body : Leaflet) : Act unit :=
  fun s => (Return tt, mkSession (core s) (log s ++ [Typed body])).

(** [message.answer(text)] *)
Definition reply (m : Message) (body : Leaflet) : Act Z :=
  call (SendLeaflet (chat_id m)
          (if is_topic_message m then message_thread_id m else None) body).

(** [message.react([ReactionTypeEmoji(emoji=...)])] *)
Definition react (m : Message) (emoji : pystr) : Act Z :=
  call (SetMessageReaction (chat_id m) (message_id m) emoji).

(** [send_with_typing(chat_id, text, bot, ...)], for the texts of the
    relay. *)
Definition send_leaflet_with_typing (chat : Z) (body : Leaflet) : Act Z :=
  attempt
    (let+ _ := lift_core (api env (SendChatAction chat)) in
     let+ _ := typing body in
     call (SendLeaflet chat None body))
    (fun _ => call (SendLeaflet chat None body)).

(** [send_photo_with_typing(chat_id, photo_url, caption, bot, ...)] *)
Definition send_photo_with_typing (chat : Z) (body : Leaflet) : Act Z :=
  attempt
    (let+ _ := call (UploadPhotoAction chat) in
     let+ _ := lift_core (sleep (Seconds 1000)) in
     call (SendPhotoUrl chat body))
    (fun _ => send_leaflet_with_typing chat body).

(** [safe_set_reaction(bot, chat_id, message_id, emoji) -> bool] *)
Definition safe_set_reaction (chat message : Z) (emoji : pystr) : Act bool :=
  attempt
    (let+ _ := call (SetMessageReaction chat message (reaction_for emoji)) in
     pure true)
    (fun _ => pure false).

(** The requests of the branch of [copy_message_to_admin] that the message
    selects, in order: the branches are tried in the order of the source,
    and those of a sticker and of a video note send the header first. *)
Definition staff_requests (topic : Z) (anon : pystr) (message : Incoming)
  : list Call :=
  let c := content message in
  let headed method := StaffCopy method topic (Some anon) message in
  let bare method := StaffCopy method topic None message in
  if has_text (envelope message) then [headed send_message]
  else if photo c then [headed send_photo]
  else if video c then [headed send_video]
  else if document c then [headed send_document]
  else if audio c then [headed send_audio]
  else if voice c then [headed send_voice]
  else if sticker c then [headed send_message; bare send_sticker]
  else if animation c then [headed send_animation]
  else if video_note c then [headed send_message; bare send_video_note]
  else if location c then [headed send_message]
  else if contact c then [headed send_message]
  else if poll c then [headed send_message]
  else [headed send_message].

(** The requests of a branch, one after the other; the result is that of
    the last one. *)
Fixpoint send_each (calls : list Call) (sent_msg : option Z) : Act (option Z) :=
  match calls with
  | [] => pure sent_msg
  | c :: rest => let+ z := call c in send_each rest (Some z)
  end.

(** [copy_message_to_admin(bot, user_id, message, topic_id)]: the message
    sent, or [None]. *)
Definition copy_message_to_admin (uid : Z) (message : Incoming) (topic : Z)
  : Act (option Z) :=
  attempt
    (let+ user := lift_core (get_user (Some uid) None) in
     match user with
     | None => pure None
     | Some user => send_each (staff_requests topic (anon_id user) message) None
     end)
    (fun _ => pure None).

(** [increment_message_count(user_id)] *)
Definition increment_message_count (uid : Z) : M unit :=
  let* t := now env in modify_db (Db.increment_message_count uid t).

(** [gateway_u2a(message, state)]; [state] is the key of the dialogue
    state of the sender in the chat. *)
Definition gateway_u2a (message : Incoming) (state : Z * Z) : Act unit :=
  let m := envelope message in
  if forum_service (content message) then pure tt
  else
    let+ current_state := lift_core (get_state state) in
    match current_state with
    | Some writing_issue =>
        let+ uid := lift_core (sender m) in
        let+ u := lift_core (get_user (Some uid) None) in
        match u with
        | Some u =>
            match topic_id u with
            | Some topic =>
                if truthy (Some topic) then
                  attempt
                    (let+ copied := copy_message_to_admin uid message topic in
                     match copied with
                     | Some _ =>
                         let+ _ := lift_core (increment_message_count uid) in
                         quietly (react m check_mark)
                     | None => quietly (react m cross_mark)
                     end)
                    (fun _ => quietly (react m cross_mark))
                else let+ _ := reply m MenuFirst in pure tt
            | None => let+ _ := reply m MenuFirst in pure tt
            end
        | None => let+ _ := reply m MenuFirst in pure tt
        end
    | _ =>
        if has_text m &&
           (is_command m || bool_decide (default [] (text m) ∈ protected_buttons))
        then pure tt
        else let+ _ := reply m TicketFirst in pure tt
    end.

(** [gateway_a2u(message)] *)
Definition gateway_a2u (message : Incoming) : Act unit :=
  let m := envelope message in
  if is_command m then pure tt
  else if forum_service (content message) then pure tt
  else
    let+ u := lift_core (get_user None (message_thread_id m)) in
    match u with
    | None => pure tt
    | Some u =>
        attempt
          (let+ _ := lift_core (copy_message_to_user env (user_id u) m) in
           let+ _ := safe_set_reaction (ADMIN_GROUP_ID env) (message_id m)
                       check_mark in
           pure tt)
          (fun e =>
             match e with
             | TelegramForbiddenError =>
                 let+ _ := safe_set_reaction (ADMIN_GROUP_ID env) (message_id m)
                             cross_mark in
                 lift_core (modify_db (Db.deactivate (user_id u)))
             | _ =>
                 let+ _ := safe_set_reaction (ADMIN_GROUP_ID env) (message_id m)
                             cross_mark in
                 pure tt
             end)
    end.

(** [process_cat_selection(message, state)] *)
Definition process_cat_selection (message : Incoming) (state : Z * Z)
  : Act unit :=
  let+ _ := lift_core (set_state state (Some choosing_category)) in
  let+ _ := send_leaflet_with_typing (chat_id (envelope message)) ChooseCategory in
  pure tt.

(** [process_cancel(message, state)] *)
Definition process_cancel (message : Incoming) (state : Z * Z) : Act unit :=
  let m := envelope message in
  let+ current_state := lift_core (get_state state) in
  let+ _ :=
    match current_state with
    | Some writing_issue | Some choosing_category =>
        let+ uid := lift_core (sender m) in
        let+ u := lift_core (get_user (Some uid) None) in
        match u with
        | Some u =>
            if truthy (topic_id u) then
              let+ _ :=
                quietly
                  (let+ t := lift_core (now env) in
                   call (SendLeaflet (ADMIN_GROUP_ID env) (topic_id u)
                           (ClosedByUser (anon_id u) uid t))) in
              lift_core (close_ticket uid)
            else pure tt
        | None => pure tt
        end
    | _ => pure tt
    end in
  let+ _ := lift_core (set_state state None) in
  let+ _ := send_leaflet_with_typing (chat_id m) MainMenu in
  pure tt.

(** [int(command.args) if command.args and command.args.isdigit() else None] *)
Definition referral_of (args : option pystr) : option Z :=
  match args with
  | Some (c :: rest) =>
      if forallb Text.isdigit (c :: rest) then Some (Text.int (c :: rest))
      else None
  | _ => None
  end.

(** [cmd_start(message, command, state)] *)
Definition cmd_start (message : Incoming) (args : option pystr)
    (state : Z * Z) : Act unit :=
  let m := envelope message in
  let+ _ := lift_core (set_state state None) in
  let ref := referral_of args in
  let+ uid := lift_core (sender m) in
  let+ _ := lift_core (register env uid ref) in
  let+ _ :=
    attempt (send_photo_with_typing (chat_id m) Welcome)
      (fun _ => send_leaflet_with_typing (chat_id m) Welcome) in
  if uid =? OWNER_ID env then
    let+ _ := lift_core (sleep (Seconds 1000)) in
    let+ _ := send_leaflet_with_typing (chat_id m) AdminPanel in
    pure tt
  else pure tt.

(** *** The dialogue of a broadcast *)

(** [start_broadcast(call, state)]; the dialogue state of a callback is
    kept under the chat of its message and its sender, as in
    [process_cat_callback]. *)
Definition start_broadcast (click : CallbackQuery) : Act unit :=
  let chat := chat_id (cq_message click) in
  if negb (cq_from_user click =? OWNER_ID env) then
    let+ _ := call (AnswerAlert AccessDenied) in pure tt
  else
    let+ _ := lift_core (set_state (chat, cq_from_user click) (Some broadcasting)) in
    let+ _ := call (EditLeaflet chat BroadcastMode) in
    let+ _ := lift_core (api env AnswerCallbackQuery) in
    pure tt.

(** [cancel_broadcast(message, state)] *)
Definition cancel_broadcast (message : Incoming) (state : Z * Z) : Act unit :=
  let+ _ := lift_core (set_state state None) in
  let+ _ := reply (envelope message) BroadcastCancelled in
  pure tt.

(** [process_broadcast_content(message, state)]; the message is kept in
    the data of the state, from which [confirm_broadcast] takes it. *)
Definition process_broadcast_content (message : Incoming) (state : Z * Z)
  : Act unit :=
  let+ _ := lift_core (set_state state (Some broadcast_confirm)) in
  let+ _ := reply (envelope message) (BroadcastPreview (envelope message)) in
  pure tt.

(** [cancel_broadcast_callback(call, state)] *)
Definition cancel_broadcast_callback (click : CallbackQuery) : Act unit :=
  let chat := chat_id (cq_message click) in
  let+ _ := lift_core (set_state (chat, cq_from_user click) None) in
  let+ _ := call (EditLeaflet chat BroadcastCancelled) in
  pure tt.

(** A handler registered with a state filter is selected only for an
    event whose dialogue state is that state. *)
Definition in_state {A} (state : Z * Z) (required : BotStates) (handler : Act A)
  : Act (option A) :=
  let+ current_state := lift_core (get_state state) in
  if bool_decide (current_state = Some required)
  then let+ r := handler in pure (Some r)
  else pure None.

(** The guard around a handler of the relay: [GuardMiddleware] calls the
    handler last in every branch that calls it, so it is the guard with a
    handler that does nothing, followed by the handler when the guard
    called it. *)
Definition guarded {R} (handler : Act R) (event : Message) : Act (option R) :=
  let+ pass := lift_core (GuardMiddleware env (fun _ => ret tt) event) in
  match pass with
  | Some _ => let+ r := handler in pure (Some r)
  | None => pure None
  end.

End Relay.

(** ** Runs of the relay *)

(** An event and a handler the dispatcher offers it to; [Shielded] is a
    message that passes the guard first.  The handlers of the broadcast
    dialogue that are registered with a state filter run only when the
    filter holds; [Other] runs a handler of the first part as it is.  The
    dispatcher of the bot offers an event to the handlers in the order of
    their registration until one is selected: an event that a state filter
    turns down is a further [Delivery] to a later handler, so the runs of
    the bot are among the sequences of deliveries. *)
Inductive Delivery : Type :=
| Start (message : Incoming) (args : option pystr) (state : Z * Z)
| Category (message : Incoming) (state : Z * Z)
| Cancel (message : Incoming) (state : Z * Z)
| FromUser (message : Incoming) (state : Z * Z)
| FromStaff (message : Incoming)
| StartBroadcast (click : CallbackQuery)
| CancelBroadcast (message : Incoming) (state : Z * Z)
| BroadcastContent (message : Incoming) (state : Z * Z)
| CancelBroadcastClick (click : CallbackQuery)
| ConfirmBroadcast (click : CallbackQuery) (content : Message)
| Other (a : Action)
| Shielded (event : Message) (d : Delivery).

Fixpoint deliver (env : Env) (relay_api : nat -> Call -> py_result Z)
    (d : Delivery) : Act unit :=
  match d with
  | Start message args state => cmd_start env relay_api message args state
  | Category message state => process_cat_selection env relay_api message state
  | Cancel message state => process_cancel env relay_api message state
  | FromUser message state => gateway_u2a env relay_api message state
  | FromStaff message => gateway_a2u env relay_api message
  | StartBroadcast click => start_broadcast env relay_api click
  | CancelBroadcast message state =>
      let+ _ := in_state state broadcasting
                  (cancel_broadcast relay_api message state) in
      pure tt
  | BroadcastContent message state =>
      let+ _ := in_state state broadcasting
                  (process_broadcast_content relay_api message state) in
      pure tt
  | CancelBroadcastClick click =>
      let+ _ := in_state (chat_id (cq_message click), cq_from_user click)
                  broadcast_confirm (cancel_broadcast_callback relay_api click) in
      pure tt
  | ConfirmBroadcast click content =>
      let+ _ := in_state (chat_id (cq_message click), cq_from_user click)
                  broadcast_confirm
                  (lift_core (confirm_broadcast env click content)) in
      pure tt
  | Other a => lift_core (perform env a)
  | Shielded event d =>
      let+ _ := guarded env (deliver env relay_api d) event in pure tt
  end.

(** The session after a sequence of deliveries. *)
Definition relay_run (env : Env) (relay_api : nat -> Call -> py_result Z)
    (ds : list Delivery) (s : Session) : Session :=
  fold_left (fun s d => snd (deliver env relay_api d s)) ds s.

(** A computation of the relay keeps a property of the database. *)
Definition relay_preserves {A} (P : DB -> Prop) (m : Act A) : Prop :=
  forall s, P (db (core s)) -> P (db (core (snd (m s)))).

(** ** Outcomes of the relay *)

(** The user a message of a staff thread is relayed to: none for a
    command, for a service message of the forum and for a thread that no
    user holds. *)
Definition addressee (message : Incoming) (d : DB) : option User :=
  if is_command (envelope message) then None
  else if forum_service (content message) then None
  else Db.get_user None (message_thread_id (envelope message)) d.

(** Every request of a list is delivered, the first having rank [k]. *)
Fixpoint all_delivered (relay_api : nat -> Call -> py_result Z) (k : nat)
    (calls : list Call) : bool :=
  match calls with
  | [] => true
  | c :: rest =>
      match relay_api k c with
      | Return _ => all_delivered relay_api (S k) rest
      | Raise _ => false
      end
  end.

(** The requests of a list that are made when each is made only after the
    one before was delivered. *)
Fixpoint attempts (relay_api : nat -> Call -> py_result Z) (k : nat)
    (calls : list Call) : list Entry :=
  match calls with
  | [] => []
  | c :: rest =>
      Asked k c ::
      match relay_api k c with
      | Return _ => attempts relay_api (S k) rest
      | Raise _ => []
      end
  end.

(** A private message that [gateway_u2a] leaves without any answer when
    the sender is not writing an issue. *)
Definition unanswered (message : Incoming) : bool :=
  forum_service (content message) ||
  (has_text (envelope message) &&
   (is_command (envelope message) ||
    bool_decide (default [] (text (envelope message)) ∈ protected_buttons))).

(** The requests of a log that go into a thread of the staff group. *)
Fixpoint staff_copies (l : list Entry) : list Call :=
  match l with
  | Asked _ (StaffCopy method thread header message) :: l' =>
      StaffCopy method thread header message :: staff_copies l'
  | _ :: l' => staff_copies l'
  | [] => []
  end.

(** ** Referrals *)

(** The user is in the table, without referrer if new since [d0], and the
    referrals are those of [d0]. *)
Definition enrolled (uid : Z) (d0 : DB) (d : DB) : Prop :=
  referrals d = referrals d0 /\
  exists u, users d !! uid = Some u /\
            (users d0 !! uid = None -> referrer_id u = None).

(** The referrals are those of [d0], and the user has no referrer if new
    since [d0]. *)
Definition unreferred (uid : Z) (d0 : DB) (d : DB) : Prop :=
  referrals d = referrals d0 /\
  (users d0 !! uid = None ->
   forall u, users d !! uid = Some u -> referrer_id u = None).

(** ** Deployments of the relay *)

Module RelayCases.

(** Every request of the relay is delivered. *)
Definition delivers : nat -> Call -> py_result Z :=
  fun k _ => Return (2000 + Z.of_nat k).

(** Every request is delivered but [send_sticker]. *)
Definition no_stickers : nat -> Call -> py_result Z :=
  fun k c =>
    match c with
    | StaffCopy send_sticker _ _ _ => Raise TelegramBadRequest
    | _ => Return (2000 + Z.of_nat k)
    end.

Definition plain : Content :=
  mkContent None false false false false false false false false false false
    false false.

Definition a_sticker : Content :=
  mkContent None false false false false false true false false false false
    false false.

(** A sticker sent by a user in the private chat. *)
Definition sticker_from (uid : Z) : Incoming :=
  mkIncoming (Scenario.private_message uid) a_sticker.

(** [/start] sent by a user in the private chat. *)
Definition start_from (uid : Z) : Incoming :=
  mkIncoming
    (mkMessage 1 (Some uid) uid Private None false (Some (of_ascii "/start 7")))
    plain.

(** The same in a group, where the guard lets every message through. *)
Definition start_in_group (uid : Z) : Incoming :=
  mkIncoming
    (mkMessage 1 (Some uid) (-200) Group None false (Some (of_ascii "/start 7")))
    plain.

(** Nothing has happened yet. *)
Definition fresh : Session := mkSession initial_world [].

(** User 5 has opened a ticket and is writing the issue. *)
Definition writing : Session := mkSession Scenario.opened [].

(** A day of user 5: start, ticket (its thread is 1005), a sticker, a
    reply of the staff, a warning, and the end of the dialogue. *)
Definition a_day : list Delivery :=
  [Shielded (Scenario.private_message 5) (Start (start_from 5) (Some (of_ascii "7")) (5, 5));
   Shielded (Scenario.private_message 5) (Category (sticker_from 5) (5, 5));
   Other (DoCategory (Scenario.category_click 5));
   Shielded (Scenario.private_message 5) (FromUser (sticker_from 5) (5, 5));
   FromStaff (mkIncoming (Scenario.staff_message 1005) plain);
   Other (DoWarn (Scenario.staff_message 1005) (Some (of_ascii "1h spam")));
   Shielded (Scenario.private_message 5) (Cancel (sticker_from 5) (5, 5))].

End RelayCases.

(** ** Who may broadcast *)

(** The two states of the broadcast dialogue. *)
Definition broadcast_state (st : BotStates) : bool :=
  match st with
  | broadcasting | broadcast_confirm => true
  | _ => false
  end.

(** Only the owner is in a state of the broadcast dialogue. *)
Definition owner_only (env : Env) (f : gmap (Z * Z) BotStates) : Prop :=
  forall chat uid st,
    f !! (chat, uid) = Some st -> broadcast_state st = true ->
    uid = OWNER_ID env.

(** A computation keeps a property of the dialogue states. *)
Definition fsm_keeps {A : Type} (R : gmap (Z * Z) BotStates -> Prop) (m : M A) : Prop :=
  forall w, R (fsm w) -> R (fsm (snd (m w))).

Definition relay_fsm_keeps {A : Type} (R : gmap (Z * Z) BotStates -> Prop) (m : Act A)
  : Prop :=
  forall s, R (fsm (core s)) -> R (fsm (core (snd (m s)))).

(** ** An attempt to broadcast *)

Module BroadcastCases.

(** The button of the administrator keyboard, pressed by a user. *)
Definition start_click (uid : Z) : CallbackQuery :=
  mkCallback uid (Scenario.private_message uid) (of_ascii "admin_broadcast").

(** The confirmation button, pressed by a user. *)
Definition confirm_by (uid : Z) : CallbackQuery :=
  mkCallback uid (Scenario.private_message uid) (of_ascii "confirm_broadcast").

(** A text sent by a user in the private chat. *)
Definition text_from (uid : Z) : Incoming :=
  mkIncoming
    (mkMessage 3 (Some uid) uid Private None false (Some (of_ascii "news")))
    RelayCases.plain.

(** Ten users are registered. *)
Definition ten : Session := mkSession (Scenario.crowd 10) [].

(** User 5, who is not the owner, goes through the dialogue. *)
Definition by_user_5 : list Delivery :=
  [StartBroadcast (start_click 5);
   BroadcastContent (text_from 5) (5, 5);
   ConfirmBroadcast (confirm_by 5) (envelope (text_from 5))].

(** The owner, user 1, goes through it. *)
Definition by_owner : list Delivery :=
  [StartBroadcast (start_click 1);
   BroadcastContent (text_from 1) (1, 1);
   ConfirmBroadcast (confirm_by 1) (envelope (text_from 1))].

End BroadcastCases.

(** * Properties *)

(** ** Duration tokens *)

Example parse_1h30m : parse_time (of_ascii "1h30m") = Return (Some (5400 * 1000000)).
Proof. reflexivity. Qed.
Example parse_2d : parse_time (of_ascii "2D") = Return (Some (172800 * 1000000)).
Proof. reflexivity. Qed.
Example parse_permanent : parse_time permanent_token = Return None.
Proof. reflexivity. Qed.
Example parse_soon : parse_time (of_ascii "soon") = Return None.
Proof. reflexivity. Qed.
Example format_1d12h : format_timedelta (Some (129600 * 1000000)) = "1д 12ч"%string.
Proof. vm_compute. reflexivity. Qed.
Example split_ban_args :
  Text.split 2 (of_ascii "  1h  spam and  more ") =
  [of_ascii "1h"; of_ascii "spam"; of_ascii "and  more "].
Proof. reflexivity. Qed.

Lemma isdigit_lower (c : char) : Text.isdigit c = true -> Text.lower_char c = c.
Proof.
  unfold Text.isdigit, Text.lower_char. intros H.
  apply andb_true_iff in H as [H1 H2].
  apply N.leb_le in H1. apply N.leb_le in H2.
  replace (c <=? 90)%N with true by (symmetry; apply N.leb_le; lia).
  replace (65 <=? c)%N with false by (symmetry; apply N.leb_gt; lia).
  replace (1040 <=? c)%N with false by (symmetry; apply N.leb_gt; lia).
  replace (1024 <=? c)%N with false by (symmetry; apply N.leb_gt; lia).
  reflexivity.
Qed.

Lemma digits_lower (ds : pystr) :
  forallb Text.isdigit ds = true -> Text.lower ds = ds.
Proof.
  induction ds as [|c ds IH]; simpl; [reflexivity|].
  intros [Hc Hds]%andb_true_iff.
  unfold Text.lower in *. simpl. rewrite isdigit_lower by assumption.
  f_equal. auto.
Qed.

(** Digits only extend [num]; with no unit after them they are dropped. *)
Lemma parse_loop_digits (ds : pystr) (total : Z) (num : pystr) :
  forallb Text.isdigit ds = true -> parse_loop ds total num = Some total.
Proof.
  revert num. induction ds as [|c ds IH]; intros num; simpl; [reflexivity|].
  intros [Hc Hds]%andb_true_iff. rewrite Hc. auto.
Qed.

Lemma parse_loop_tail (s ds : pystr) (total : Z) (num : pystr) :
  forallb Text.isdigit ds = true ->
  parse_loop (s ++ ds) total num = parse_loop s total num.
Proof.
  intros Hds. revert total num.
  induction s as [|c s IH]; intros total num; simpl.
  - apply parse_loop_digits; assumption.
  - destruct (Text.isdigit c); [apply IH|].
    destruct (multipliers c); [|reflexivity].
    destruct num; apply IH.
Qed.

Lemma digits_not_permanent (ds : pystr) :
  forallb Text.isdigit ds = true -> ds <> permanent_token.
Proof. intros H ->. vm_compute in H. discriminate. Qed.

Lemma parse_time_digits (ds : pystr) :
  forallb Text.isdigit ds = true -> parse_time ds = Return (Some 0).
Proof.
  intros H. unfold parse_time. rewrite digits_lower by assumption.
  destruct (decide (ds = permanent_token)) as [E|_].
  - exfalso. exact (digits_not_permanent ds H E).
  - rewrite parse_loop_digits by assumption. reflexivity.
Qed.

(** A token and the same token followed by digits parse alike. *)
Lemma parse_time_tail (s ds : pystr) :
  forallb Text.isdigit ds = true -> parse_time (s ++ ds) = parse_time s.
Proof.
  intros H. destruct ds as [|d ds]; [rewrite app_nil_r; reflexivity|].
  unfold parse_time, Text.lower. rewrite map_app.
  fold (Text.lower s). fold (Text.lower (d :: ds)).
  rewrite (digits_lower (d :: ds)) by assumption.
  case_decide as E.
  - exfalso.
    assert (L : last (Text.lower s ++ d :: ds) = last (d :: ds)).
    { rewrite last_app. destruct (last (d :: ds)) eqn:El; [reflexivity|].
      apply last_None in El. discriminate. }
    rewrite E in L.
    change (last permanent_token) with (Some 1086%N) in L.
    symmetry in L.
    apply last_Some in L as [l' El]. rewrite El in H.
    rewrite forallb_app in H. apply andb_true_iff in H as [_ H].
    vm_compute in H. discriminate.
  - rewrite parse_loop_tail by assumption.
    case_decide as E'; [|reflexivity].
    rewrite E'. reflexivity.
Qed.

(** A character that is neither a digit nor a unit ends the loop with
    [None], wherever it stands. *)
Lemma parse_loop_invalid (s : pystr) (c : char) (total : Z) (num : pystr) :
  c ∈ s -> Text.isdigit c = false -> multipliers c = None ->
  parse_loop s total num = None.
Proof.
  intros Hin Hd Hm. revert total num.
  induction s as [|c0 s IH]; intros total num; [inversion Hin|].
  simpl. apply elem_of_cons in Hin as [<-|Hin].
  - rewrite Hd, Hm. reflexivity.
  - destruct (Text.isdigit c0); [apply IH; assumption|].
    destruct (multipliers c0); [|reflexivity].
    destruct num; apply IH; assumption.
Qed.

(** [parse_time] answers a token with such a character as it answers the
    permanent literal. *)
Lemma parse_time_invalid (s : pystr) (c : char) :
  c ∈ Text.lower s -> Text.isdigit c = false -> multipliers c = None ->
  parse_time s = Return None.
Proof.
  intros Hin Hd Hm. unfold parse_time.
  case_decide; [reflexivity|].
  rewrite (parse_loop_invalid _ c) by assumption. reflexivity.
Qed.

(** ** The [users] table *)

Lemma elem_of_rows (d : DB) (u : User) :
  u ∈ rows d <-> exists k, users d !! k = Some u.
Proof.
  unfold rows. rewrite list_elem_of_fmap. split.
  - intros [[k u'] [-> H]]. exists k.
    rewrite merge_sort_Permutation in H.
    apply elem_of_map_to_list in H. exact H.
  - intros [k H]. exists (k, u). split; [reflexivity|].
    rewrite merge_sort_Permutation.
    apply elem_of_map_to_list. exact H.
Qed.

Lemma get_user_by_id (d : DB) (uid : Z) (tid : option Z) :
  uid <> 0 -> Db.get_user (Some uid) tid d = users d !! uid.
Proof.
  intros H. unfold Db.get_user, truthy.
  destruct (Z.eqb_spec uid 0); [contradiction|reflexivity].
Qed.

Lemma get_user_by_topic_elem (d : DB) (tid : option Z) (u : User) :
  Db.get_user None tid d = Some u ->
  truthy tid = true /\ topic_id u = tid /\ exists k, users d !! k = Some u.
Proof.
  unfold Db.get_user. simpl. destruct (truthy tid); [|discriminate].
  intros H. apply head_Some_elem_of in H.
  apply list_elem_of_filter in H as [Ht Hu].
  apply elem_of_rows in Hu. auto.
Qed.

(** Under uniqueness the lookup by thread finds the holder of the thread. *)
Lemma get_user_by_topic (d : DB) (k t : Z) (u : User) :
  topic_unique d -> users d !! k = Some u -> topic_id u = Some t -> t <> 0 ->
  Db.get_user None (Some t) d = Some u.
Proof.
  intros Huniq Hk Ht Hnz. unfold Db.get_user. simpl.
  destruct (Z.eqb_spec t 0) as [|_]; [contradiction|]. simpl.
  destruct (head _) as [u'|] eqn:Hhead.
  - assert (Hin := Hhead). apply head_Some_elem_of in Hin.
    apply list_elem_of_filter in Hin as [Ht' Hu'].
    apply elem_of_rows in Hu' as [k' Hk'].
    assert (k' = k) by (eapply Huniq; eauto). subst k'. congruence.
  - apply head_None in Hhead.
    assert (Hin : u ∈ filter (fun u => topic_id u = Some t) (rows d)).
    { apply list_elem_of_filter. split; [assumption|].
      apply elem_of_rows. eauto. }
    rewrite Hhead in Hin. inversion Hin.
Qed.

Lemma get_user_by_topic_none (d : DB) (tid : option Z) :
  (forall k u, users d !! k = Some u -> topic_id u <> tid) ->
  Db.get_user None tid d = None.
Proof.
  intros H. destruct (Db.get_user None tid d) as [u|] eqn:E; [|reflexivity].
  apply get_user_by_topic_elem in E as (_ & Ht & k & Hk).
  exfalso. eapply H; eauto.
Qed.

Lemma topic_taken_false (d : DB) (uid tid : Z) :
  Db.topic_taken uid tid d = false ->
  forall k u, users d !! k = Some u -> topic_id u = Some tid -> user_id u = uid.
Proof.
  unfold Db.topic_taken. intros H k u Hk Ht.
  destruct (decide (user_id u = uid)) as [|Hne]; [assumption|].
  assert (Hex : existsb
    (fun u => bool_decide (topic_id u = Some tid /\ user_id u <> uid)) (rows d) = true).
  { apply existsb_exists. exists u. split.
    - apply list_elem_of_In, elem_of_rows. eauto.
    - apply bool_decide_eq_true. auto. }
  congruence.
Qed.

(** *** Each write keeps the table consistent *)

Lemma consistent_empty : consistent empty_db.
Proof.
  split; intros k; intros; simpl in *; rewrite lookup_empty in *; discriminate.
Qed.

(** An update that leaves [user_id] and [topic_id] alone. *)
Lemma consistent_alter (f : User -> User) (uid : Z) (d : DB) :
  (forall u, user_id (f u) = user_id u) ->
  (forall u, topic_id (f u) = topic_id u) ->
  consistent d -> consistent (with_users (alter f uid) d).
Proof.
  intros Hid Htop [Hkey Huniq]. split.
  - intros k u. simpl. rewrite lookup_alter. case_decide.
    + subst k. destruct (users d !! uid) as [u0|] eqn:E; simpl; [|discriminate].
      intros [= <-]. rewrite Hid. eauto.
    + apply Hkey.
  - intros k1 k2 u1 u2 t. simpl. rewrite !lookup_alter.
    intros H1 H2 T1 T2.
    assert (exists v1, users d !! k1 = Some v1 /\ topic_id v1 = Some t) as (v1 & ? & ?).
    { destruct (decide (uid = k1)) as [<-|N1]; [|eauto].
      destruct (users d !! uid) as [u0|]; simpl in H1; [|discriminate].
      injection H1 as <-. rewrite Htop in T1. eauto. }
    assert (exists v2, users d !! k2 = Some v2 /\ topic_id v2 = Some t) as (v2 & ? & ?).
    { destruct (decide (uid = k2)) as [<-|N2]; [|eauto].
      destruct (users d !! uid) as [u0|]; simpl in H2; [|discriminate].
      injection H2 as <-. rewrite Htop in T2. eauto. }
    eapply Huniq; eauto.
Qed.

Lemma consistent_close_ticket (uid : Z) (d : DB) :
  consistent d -> consistent (Db.close_ticket uid d).
Proof.
  intros [Hkey Huniq]. split.
  - intros k u. simpl. rewrite lookup_alter. case_decide.
    + subst k. destruct (users d !! uid) as [u0|] eqn:E; simpl; [|discriminate].
      intros [= <-]. simpl. eauto.
    + apply Hkey.
  - intros k1 k2 u1 u2 t. simpl. rewrite !lookup_alter.
    intros H1 H2 T1 T2.
    destruct (decide (uid = k1)) as [<-|N1].
    { destruct (users d !! uid); simpl in H1; [|discriminate].
      injection H1 as <-. discriminate. }
    destruct (decide (uid = k2)) as [<-|N2].
    { destruct (users d !! uid); simpl in H2; [|discriminate].
      injection H2 as <-. discriminate. }
    eapply Huniq; eauto.
Qed.

Lemma consistent_set_topic (uid tid : Z) (d d' : DB) :
  consistent d -> Db.set_topic uid tid d = Return d' -> consistent d'.
Proof.
  intros [Hkey Huniq]. unfold Db.set_topic.
  destruct (users d !! uid) as [u0|] eqn:E; [|intros [= <-]; split; assumption].
  destruct (Db.topic_taken uid tid d) eqn:Htaken; [discriminate|].
  intros [= <-].
  assert (Hfree := topic_taken_false d uid tid Htaken).
  split.
  - intros k u. simpl. rewrite lookup_alter. case_decide.
    + subst k. rewrite E. simpl. intros [= <-]. simpl. eauto.
    + apply Hkey.
  - intros k1 k2 u1 u2 t. simpl. rewrite !lookup_alter.
    intros H1 H2 T1 T2.
    destruct (decide (uid = k1)) as [<-|N1]; destruct (decide (uid = k2)) as [<-|N2];
      [reflexivity| | |eapply Huniq; eauto].
    + rewrite E in H1. simpl in H1. injection H1 as <-. simpl in T1.
      injection T1 as <-.
      rewrite <- (Hkey _ _ H2). symmetry. eapply Hfree; eauto.
    + rewrite E in H2. simpl in H2. injection H2 as <-. simpl in T2.
      injection T2 as <-.
      rewrite <- (Hkey _ _ H1). eapply Hfree; eauto.
Qed.

Lemma consistent_insert_user (uid : Z) (rid : option Z) (aid : pystr)
    (t : datetime) (d d' : DB) :
  consistent d -> Db.insert_user uid rid aid t d = Return d' -> consistent d'.
Proof.
  intros [Hkey Huniq]. unfold Db.insert_user.
  destruct (Db.anon_taken aid d); [discriminate|]. intros [= <-]. split.
  - intros k u. simpl. rewrite lookup_insert. case_decide.
    + subst k. intros [= <-]. reflexivity.
    + apply Hkey.
  - intros k1 k2 u1 u2 tid. simpl. rewrite !lookup_insert.
    intros H1 H2 T1 T2.
    destruct (decide (uid = k1)) as [<-|N1]. { injection H1 as <-. discriminate. }
    destruct (decide (uid = k2)) as [<-|N2]. { injection H2 as <-. discriminate. }
    eapply Huniq; eauto.
Qed.

Lemma consistent_add_warn (uid admin : Z) (reason : option pystr)
    (t : datetime) (u : User) (d : DB) :
  users d !! uid = Some u ->
  consistent d -> consistent (Db.add_warn uid admin reason t u d).
Proof.
  intros Hu [Hkey Huniq]. split.
  - intros k v. simpl. rewrite lookup_insert. case_decide.
    + subst k. intros [= <-]. simpl. eauto.
    + apply Hkey.
  - intros k1 k2 u1 u2 tid. simpl. rewrite !lookup_insert.
    intros H1 H2 T1 T2.
    assert (exists v1, users d !! k1 = Some v1 /\ topic_id v1 = Some tid) as (v1 & ? & ?).
    { destruct (decide (uid = k1)) as [<-|N1]; [|eauto].
      injection H1 as <-. simpl in T1. eauto. }
    assert (exists v2, users d !! k2 = Some v2 /\ topic_id v2 = Some tid) as (v2 & ? & ?).
    { destruct (decide (uid = k2)) as [<-|N2]; [|eauto].
      injection H2 as <-. simpl in T2. eauto. }
    eapply Huniq; eauto.
Qed.

(** ** Handlers keep the table consistent *)

Section Preservation.

Context {P : DB -> Prop}.

Lemma preserves_ret {A} (a : A) : preserves P (ret a).
Proof. intros w H. exact H. Qed.

Lemma preserves_raise {A} (e : exn) : preserves P (raise (A := A) e).
Proof. intros w H. exact H. Qed.

Lemma preserves_lift {A} (r : py_result A) : preserves P (lift r).
Proof. intros w H. exact H. Qed.

Lemma preserves_bind {A B} (m : M A) (f : A -> M B) :
  preserves P m -> (forall a, preserves P (f a)) -> preserves P (bind m f).
Proof.
  intros Hm Hf w H. unfold bind. specialize (Hm w H).
  destruct (m w) as [[a|e] w']; simpl in *; [apply Hf|]; assumption.
Qed.

Lemma preserves_try_except {A} (m : M A) (h : exn -> M A) :
  preserves P m -> (forall e, preserves P (h e)) -> preserves P (try_except m h).
Proof.
  intros Hm Hh w H. unfold try_except. specialize (Hm w H).
  destruct (m w) as [[a|e] w']; simpl in *; [|apply Hh]; assumption.
Qed.

Lemma preserves_get_db : preserves P get_db.
Proof. intros w H. exact H. Qed.

Lemma preserves_sleep (p : Pause) : preserves P (sleep p).
Proof. intros w H. exact H. Qed.

Lemma preserves_set_state (key : Z * Z) (s : option BotStates) :
  preserves P (set_state key s).
Proof. intros w H. exact H. Qed.

Lemma preserves_modify_db (f : DB -> DB) :
  (forall d, P d -> P (f d)) -> preserves P (modify_db f).
Proof. intros Hf w H. simpl. auto. Qed.

Lemma preserves_db_try (f : DB -> py_result DB) :
  (forall d d', P d -> f d = Return d' -> P d') -> preserves P (db_try f).
Proof.
  intros Hf w H. unfold db_try, bind, get_db, lift, put_db.
  destruct (f (db w)) as [d'|e] eqn:E; simpl; eauto.
Qed.

Variable env : Env.

Lemma preserves_now : preserves P (now env).
Proof. intros w H. exact H. Qed.

Lemma preserves_api (r : Request) : preserves P (api env r).
Proof. intros w H. exact H. Qed.

Lemma preserves_random_suffix : preserves P (random_suffix env).
Proof. intros w H. exact H. Qed.

Lemma preserves_answer (m : Message) (body : Notice) :
  preserves P (answer env m body).
Proof. intros w H. exact H. Qed.

Lemma preserves_get_user (uid tid : option Z) : preserves P (get_user uid tid).
Proof. intros w H. exact H. Qed.

Lemma preserves_sender (m : Message) : preserves P (sender m).
Proof. intros w H. unfold sender. destruct (from_user m); exact H. Qed.

End Preservation.

Ltac preserves_step :=
  lazymatch goal with
  | |- preserves _ (bind _ _) => apply preserves_bind; [|intros ?]
  | |- preserves _ (try_except _ _) => apply preserves_try_except; [|intros ?]
  | |- preserves _ (ret _) => apply preserves_ret
  | |- preserves _ (raise _) => apply preserves_raise
  | |- preserves _ (lift _) => apply preserves_lift
  | |- preserves _ get_db => apply preserves_get_db
  | |- preserves _ (sleep _) => apply preserves_sleep
  | |- preserves _ (set_state _ _) => apply preserves_set_state
  | |- preserves _ (now _) => apply preserves_now
  | |- preserves _ (api _ _) => apply preserves_api
  | |- preserves _ (random_suffix _) => apply preserves_random_suffix
  | |- preserves _ (answer _ _ _) => apply preserves_answer
  | |- preserves _ (get_user _ _) => apply preserves_get_user
  | |- preserves _ (sender _) => apply preserves_sender
  | |- preserves _ (match ?x with _ => _ end) => destruct x
  end.

Section Consistency.

Variable env : Env.

Lemma consistent_update_user_ban uid banned until reason :
  preserves consistent (update_user_ban uid banned until reason).
Proof.
  apply preserves_modify_db. intros d. apply consistent_alter; reflexivity.
Qed.

Lemma consistent_deactivate uid :
  preserves consistent (modify_db (Db.deactivate uid)).
Proof.
  apply preserves_modify_db. intros d. apply consistent_alter; reflexivity.
Qed.

Lemma consistent_count_message uid t :
  preserves consistent (modify_db (Db.increment_message_count uid t)).
Proof.
  apply preserves_modify_db. intros d. apply consistent_alter; reflexivity.
Qed.

Lemma consistent_close uid : preserves consistent (close_ticket uid).
Proof. apply preserves_modify_db. intros d. apply consistent_close_ticket. Qed.

Lemma consistent_register uid rid : preserves consistent (register env uid rid).
Proof.
  intros w H. unfold register, bind, get_db.
  destruct (users (db w) !! uid) eqn:E.
  - simpl. apply consistent_alter; [reflexivity|reflexivity|exact H].
  - unfold random_suffix, now, db_try, bind, get_db, lift, put_db. simpl.
    destruct (Db.insert_user _ _ _ _ _) as [d'|e] eqn:Hins; simpl; [|exact H].
    eapply consistent_insert_user; eauto.
Qed.

Lemma consistent_add_warn_call uid admin reason :
  preserves consistent (add_warn env uid admin reason).
Proof.
  intros w H. unfold add_warn, bind, get_db.
  destruct (users (db w) !! uid) eqn:E; simpl; [|exact H].
  apply consistent_add_warn; assumption.
Qed.

Lemma consistent_init_ticket uid category :
  preserves consistent (init_ticket env uid category).
Proof.
  unfold init_ticket. repeat preserves_step;
    try apply consistent_close.
  apply preserves_db_try. intros d d'. apply consistent_set_topic.
Qed.

Lemma consistent_send_with_typing chat body :
  preserves consistent (send_with_typing env chat body).
Proof. unfold send_with_typing. repeat preserves_step. Qed.

Lemma consistent_process_cat_callback call :
  preserves consistent (process_cat_callback env call).
Proof.
  unfold process_cat_callback. repeat preserves_step;
    try apply consistent_init_ticket; try apply consistent_send_with_typing.
Qed.

Lemma consistent_adm_warn m args : preserves consistent (adm_warn env m args).
Proof.
  unfold adm_warn. repeat preserves_step;
    try apply consistent_add_warn_call; try apply consistent_update_user_ban.
Qed.

Lemma consistent_adm_ban m args : preserves consistent (adm_ban env m args).
Proof.
  unfold adm_ban. repeat preserves_step; try apply consistent_update_user_ban.
Qed.

Lemma consistent_adm_unban m : preserves consistent (adm_unban env m).
Proof.
  unfold adm_unban. repeat preserves_step; try apply consistent_update_user_ban.
Qed.

Lemma consistent_on_error uid c e : preserves consistent (on_error uid c e).
Proof.
  unfold on_error. repeat preserves_step; apply consistent_deactivate.
Qed.

Lemma consistent_broadcast_iteration m chat total index uid c :
  preserves consistent (broadcast_iteration env m chat total index uid c).
Proof.
  unfold broadcast_iteration, copy_message_to_user.
  repeat preserves_step; try apply consistent_on_error.
Qed.

Lemma consistent_broadcast_loop m chat total ids :
  forall index c,
    preserves consistent (broadcast_loop env m chat total index ids c).
Proof.
  induction ids as [|uid ids IH]; intros index c; simpl.
  - apply preserves_ret.
  - apply preserves_bind; [apply consistent_broadcast_iteration|].
    intros c'. apply IH.
Qed.

Lemma consistent_confirm_broadcast call content :
  preserves consistent (confirm_broadcast env call content).
Proof.
  unfold confirm_broadcast. cbv zeta. repeat preserves_step;
    try apply consistent_broadcast_loop.
  apply preserves_modify_db. intros d [Hk Hu]. split; assumption.
Qed.

Lemma consistent_guard {R} (handler : Message -> M R) event :
  (forall m, preserves consistent (handler m)) ->
  preserves consistent (GuardMiddleware env handler event).
Proof.
  intros Hh. unfold GuardMiddleware. cbv zeta.
  repeat preserves_step;
    try apply consistent_register; try apply consistent_update_user_ban;
    try apply Hh.
Qed.

Lemma consistent_perform a : preserves consistent (perform env a).
Proof.
  induction a; simpl.
  - apply consistent_register.
  - apply consistent_close.
  - repeat preserves_step. apply consistent_count_message.
  - apply consistent_deactivate.
  - apply consistent_process_cat_callback.
  - apply consistent_adm_warn.
  - apply consistent_adm_ban.
  - apply consistent_adm_unban.
  - repeat preserves_step. apply consistent_confirm_broadcast.
  - repeat preserves_step. apply consistent_guard. intros _. exact IHa.
Qed.

Lemma consistent_run actions :
  forall w, consistent (db w) -> consistent (db (run env actions w)).
Proof.
  induction actions as [|a actions IH]; intros w H; simpl; [exact H|].
  apply IH. apply consistent_perform. exact H.
Qed.

End Consistency.

(** ** Float arithmetic *)

(** The floats of the program are counts of seconds.  Below [2^34] seconds
    (544 years) the rounding of [total_seconds()] never crosses a whole
    second, and the float quotients and remainders by 3600 and 60 are the
    exact ones. *)

Section FloatArithmetic.

Import Float.

Lemma half_even_exact q d : 0 < d -> half_even (q * d) d = q.
Proof.
  intros Hd. unfold half_even. rewrite Z.div_mul, Z.mod_mul by lia.
  destruct (Z.ltb_spec (2 * 0) d); [reflexivity|lia].
Qed.

Lemma half_even_near n d :
  0 < d -> 2 * n - d <= 2 * (half_even n d * d) <= 2 * n + d.
Proof.
  intros Hd. unfold half_even.
  pose proof (Z.div_mod n d ltac:(lia)) as E.
  pose proof (Z.mod_pos_bound n d Hd) as B.
  destruct (Z.ltb_spec (2 * (n mod d)) d).
  - nia.
  - destruct (Z.ltb_spec d (2 * (n mod d))).
    + nia.
    + destruct (Z.even (n / d)); nia.
Qed.

Lemma round_Z z : Z.abs z < 2 ^ 53 -> round (Qc_of_Z z) = Qc_of_Z z.
Proof.
  intros Hz. unfold round. cbn [Qc_of_Z this inject_Z Qnum Qden].
  destruct (Z.eqb_spec (Z.abs z) 0) as [H0|H0].
  - apply Qc_is_canon. assert (z = 0) by lia. subst z. reflexivity.
  - assert (Hpos : 0 < Z.abs z) by lia.
    change (Z.log2 1) with 0.
    pose proof (Z.log2_spec _ Hpos) as [Hlo Hhi].
    pose proof (Z.log2_nonneg (Z.abs z)) as Hl0.
    assert (Hl : Z.log2 (Z.abs z) < 53).
    { apply Z.log2_lt_pow2; assumption. }
    set (l := Z.log2 (Z.abs z)) in *.
    replace (l - 0 - 52) with (l - 52) by lia.
    replace (Z.max 0 (- (l - 52))) with (52 - l) by lia.
    replace (Z.max 0 (l - 52)) with 0 by lia.
    assert (Hp : 2 ^ 52 = 2 ^ l * 2 ^ (52 - l)).
    { rewrite <- Z.pow_add_r by lia. f_equal. lia. }
    assert (Hk : 0 < 2 ^ (52 - l)) by (apply Z.pow_pos_nonneg; lia).
    destruct (Z.ltb_spec (Z.abs z * 2 ^ (52 - l)) (2 ^ 52 * (1 * 2 ^ 0))) as [Hc|Hc].
    { exfalso. rewrite Hp in Hc. change (2 ^ 0) with 1 in Hc. nia. }
    replace (Z.max 0 (- (l - 52))) with (52 - l) by lia.
    replace (Z.max 0 (l - 52)) with 0 by lia.
    change (2 ^ 0) with 1. rewrite Z.mul_1_r.
    replace (Z.abs z * 2 ^ (52 - l)) with (Z.abs z * 2 ^ (52 - l) * 1) by lia.
    rewrite half_even_exact by lia.
    apply Qc_is_canon. cbn [this Q2Qc]. rewrite Qred_correct.
    unfold Qeq. cbn [Qnum Qden inject_Z].
    rewrite Z2Pos.id by assumption.
    change (QDen (Qc_of_Z z)) with 1. change (Qnum (Qc_of_Z z)) with z.
    rewrite Z.mul_1_r, Z.mul_assoc.
    replace (Z.sgn z * Z.abs z) with z; [reflexivity|].
    rewrite Z.mul_comm. symmetry. apply Z.abs_sgn.
Qed.

Lemma truediv_this a b :
  0 < b -> (this (Qc_of_Z a / Qc_of_Z b)%Qc == a # Z.to_pos b)%Q.
Proof.
  intros Hb. unfold Qcdiv, Qcmult, Qcinv. cbn [this Q2Qc Qc_of_Z].
  rewrite !Qred_correct. unfold Qeq, Qmult, Qinv, inject_Z. cbn [Qnum Qden].
  destruct b as [|p|p]; try lia. cbn [Qnum Qden]. rewrite Pos2Z.id. 
  cbn. lia.
Qed.

Lemma Qc_of_Z_le a b : a <= b -> (Qc_of_Z a <= Qc_of_Z b)%Qc.
Proof. intros H. unfold Qcle. cbn [this Qc_of_Z]. rewrite <- Zle_Qle. exact H. Qed.

Lemma Qc_of_Z_lt a b : a < b -> (Qc_of_Z a < Qc_of_Z b)%Qc.
Proof. intros H. unfold Qclt. cbn [this Qc_of_Z]. rewrite <- Zlt_Qlt. exact H. Qed.

Lemma truediv_whole s b :
  0 < b -> Z.abs s < 2 ^ 53 -> truediv (s * b) b = Qc_of_Z s.
Proof.
  intros Hb Hs. unfold truediv.
  replace (Qc_of_Z (s * b) / Qc_of_Z b)%Qc with (Qc_of_Z s).
  - apply round_Z. exact Hs.
  - apply Qc_is_canon. rewrite truediv_this by assumption.
    cbn [this Qc_of_Z]. unfold Qeq, inject_Z. cbn [Qnum Qden].
    rewrite Z2Pos.id by assumption. lia.
Qed.

Lemma truediv_seconds us :
  0 <= us < 2 ^ 34 * 1000000 ->
  (Qc_of_Z (us / 1000000) <= truediv us 1000000 /\
   truediv us 1000000 < Qc_of_Z (us / 1000000 + 1))%Qc.
Proof.
  intros [Hlo Hhi].
  pose proof (Z.div_mod us 1000000 ltac:(lia)) as Hus.
  pose proof (Z.mod_pos_bound us 1000000 ltac:(lia)) as Hf.
  set (s := us / 1000000) in *. set (f := us mod 1000000) in *.
  destruct (Z.eq_dec f 0) as [Hf0|Hf0].
  { replace us with (s * 1000000) by lia.
    rewrite truediv_whole by (change (2 ^ 53) with 9007199254740992; lia).
    split; [apply Qc_of_Z_le|apply Qc_of_Z_lt]; lia. }
  unfold truediv, round.
  pose proof (truediv_this us 1000000 ltac:(lia)) as Hq.
  set (q := (Qc_of_Z us / Qc_of_Z 1000000)%Qc) in *.
  unfold Qeq in Hq. cbn [Qnum Qden] in Hq. change (Z.pos (Z.to_pos 1000000)) with 1000000 in Hq.
  set (n := Qnum q) in *. set (d := Z.pos (Qden q)) in *.
  assert (Hd : 0 < d) by (subst d; lia).
  assert (Hn : 0 < n) by nia.
  rewrite (Z.abs_eq n) by lia.
  destruct (Z.eqb_spec n 0) as [?|_]; [lia|].
  pose proof (Z.log2_spec n Hn) as [Hn1 Hn2].
  pose proof (Z.log2_spec d Hd) as [Hd1 Hd2].
  pose proof (Z.log2_nonneg n) as Hln. pose proof (Z.log2_nonneg d) as Hld.
  set (ln := Z.log2 n) in *. set (ld := Z.log2 d) in *.
  assert (Hnd : n < 2 ^ 34 * d) by nia.
  assert (Hlog : ln - ld <= 34).
  { assert (2 ^ ln < 2 ^ (ld + 35)).
    { replace (ld + 35) with (34 + Z.succ ld) by lia.
      rewrite Z.pow_add_r by lia. nia. }
    apply Z.pow_lt_mono_r_iff in H; lia. }
  set (e0 := ln - ld - 52).
  set (e := if n * 2 ^ Z.max 0 (- e0) <? 2 ^ 52 * (d * 2 ^ Z.max 0 e0)
            then e0 - 1 else e0).
  assert (He : e <= -19).
  { subst e. destruct (Z.eq_dec e0 (-18)) as [E|E].
    - rewrite E. change (Z.max 0 (- -18)) with 18. change (Z.max 0 (-18)) with 0.
      destruct (Z.ltb_spec (n * 2 ^ 18) (2 ^ 52 * (d * 2 ^ 0))) as [?|C]; [lia|].
      exfalso. change (2 ^ 0) with 1 in C. change (2 ^ 52) with (2 ^ 34 * 2 ^ 18) in C.
      nia.
    - destruct (_ <? _); subst e0; lia. }
  clearbody e. clear e0.
  replace (Z.max 0 (- e)) with (- e) by lia.
  replace (Z.max 0 e) with 0 by lia.
  change (2 ^ 0) with 1. rewrite !Z.mul_1_r.
  assert (HP : 524288 <= 2 ^ (- e)).
  { change 524288 with (2 ^ 19). apply Z.pow_le_mono_r; lia. }
  set (P := 2 ^ (- e)) in *.
  pose proof (half_even_near (n * P) d Hd) as [Hm1 Hm2].
  set (m := half_even (n * P) d) in *.
  assert (Hsgn : Z.sgn n = 1) by (apply Z.sgn_pos; lia).
  rewrite Hsgn, Z.mul_1_l.
  unfold Qcle, Qclt. cbn [this Q2Qc Qc_of_Z]. rewrite !Qred_correct.
  unfold Qle, Qlt, inject_Z. cbn [Qnum Qden].
  rewrite Z2Pos.id by lia. rewrite !Z.mul_1_r.
  assert (Hexp : n * 1000000 = (1000000 * s + f) * d) by lia.
  split.
  - assert (d * (2000000 * (s * P)) < d * (2000000 * m)); [|nia].
    nia.
  - assert (d * (2000000 * m) < d * (2000000 * ((s + 1) * P))); [|nia].
    nia.
Qed.

Lemma Qc_of_Z_mul a b : (Qc_of_Z a * Qc_of_Z b)%Qc = Qc_of_Z (a * b).
Proof.
  apply Qc_is_canon. unfold Qcmult. cbn [this Q2Qc Qc_of_Z].
  rewrite Qred_correct. unfold Qeq, Qmult, inject_Z. cbn [Qnum Qden]. lia.
Qed.

Lemma Qc_of_Z_0 : Qc_of_Z 0 = 0%Qc.
Proof. apply Qc_is_canon. reflexivity. Qed.

Lemma Qc_of_Z_inj_0 q : Qc_of_Z q = 0%Qc -> q = 0.
Proof.
  intros H. apply (f_equal (fun x => Qnum (this x))) in H. exact H.
Qed.

Lemma div_this (x : Qc) W :
  0 < W ->
  (this (x / Qc_of_Z W)%Qc == Qnum x # (Qden x * Z.to_pos W))%Q.
Proof.
  intros HW. unfold Qcdiv, Qcmult, Qcinv. cbn [this Q2Qc Qc_of_Z].
  rewrite !Qred_correct. destruct x as [[n d] Hc]. cbn [this Qnum Qden].
  unfold Qeq, Qmult, Qinv, inject_Z. cbn [Qnum Qden].
  destruct W as [|p|p]; try lia. cbn [Qnum Qden]. rewrite Pos2Z.id.
  cbn [Z.to_pos]. lia.
Qed.

Lemma Qfloor_div (x : Qc) W :
  0 < W ->
  Qfloor (x / Qc_of_Z W)%Qc = Qnum x / (Z.pos (Qden x) * W).
Proof.
  intros HW. rewrite (div_this x W HW).
  unfold Qfloor. rewrite Pos2Z.inj_mul, Z2Pos.id by assumption.
  reflexivity.
Qed.

Lemma Qc_nonneg_num (x : Qc) : (0 <= x)%Qc <-> 0 <= Qnum x.
Proof.
  unfold Qcle, Qle. cbn [this Q2Qc]. change (Qnum (Qred 0)) with 0.
  change (QDen (Qred 0)) with 1. lia.
Qed.

Lemma trunc_nonneg (x : Qc) : (0 <= x)%Qc -> trunc x = Qfloor x.
Proof.
  intros H. apply Qc_nonneg_num in H. unfold trunc, Qfloor.
  destruct x as [[n d] Hc]. cbn [this Qnum Qden] in *.
  apply Z.quot_div_nonneg; lia.
Qed.

Lemma div_nonneg (x : Qc) W : 0 < W -> (0 <= x)%Qc -> (0 <= x / Qc_of_Z W)%Qc.
Proof.
  intros HW Hx. apply Qc_nonneg_num in Hx.
  unfold Qcle. rewrite (div_this x W HW).
  change (this 0%Qc) with 0%Q. unfold Qle. cbn [Qnum Qden]. lia.
Qed.

Section FloorDiv.

Variables (x : Qc) (W q : Z).
Hypothesis HW : 0 < W.
Hypothesis Hx : (0 <= x)%Qc.
Hypothesis Hfloor : Qfloor (x / Qc_of_Z W)%Qc = q.
Hypothesis Hq : W * q < 2 ^ 53.

Lemma quotient_nonneg : 0 <= q.
Proof.
  rewrite <- Hfloor. rewrite Qfloor_div by assumption.
  apply Z.div_pos; [apply Qc_nonneg_num; exact Hx|lia].
Qed.

Lemma fmod_nonneg :
  fmod x (Qc_of_Z W) = (x - Qc_of_Z (W * q))%Qc.
Proof.
  unfold fmod. rewrite trunc_nonneg by (apply div_nonneg; assumption).
  rewrite Hfloor, Qc_of_Z_mul. reflexivity.
Qed.

Lemma fmod_bounds :
  (0 <= x - Qc_of_Z (W * q))%Qc /\ (x - Qc_of_Z (W * q) < Qc_of_Z W)%Qc.
Proof.
  pose proof quotient_nonneg as Hq0.
  assert (E : q = Qnum x / (Z.pos (Qden x) * W)).
  { rewrite <- Hfloor. apply Qfloor_div. assumption. }
  clear Hfloor.
  destruct x as [[n d] Hc]. cbn [this Qnum Qden] in *.
  pose proof (Z.div_mod n (Z.pos d * W) ltac:(lia)) as Hdm.
  pose proof (Z.mod_pos_bound n (Z.pos d * W) ltac:(lia)) as Hmb.
  rewrite <- E in Hdm.
  unfold Qcle, Qclt, Qcminus, Qcplus, Qcopp. cbn [this Q2Qc Qc_of_Z].
  rewrite !Qred_correct.
  unfold Qle, Qlt, Qplus, Qopp, inject_Z. cbn [Qnum Qden].
  change (Qnum (Qred 0)) with 0. change (QDen (Qred 0)) with 1.
  split; nia.
Qed.

Lemma div_mod_nonneg :
  div_mod x (Qc_of_Z W) = (Qc_of_Z q, (x - Qc_of_Z (W * q))%Qc).
Proof.
  pose proof quotient_nonneg as Hq0.
  pose proof fmod_bounds as [Hm0 HmW].
  unfold div_mod. rewrite fmod_nonneg.
  set (m := (x - Qc_of_Z (W * q))%Qc) in *.
  assert (Hsub : sub x m = Qc_of_Z (W * q)).
  { unfold sub. replace (x - m)%Qc with (Qc_of_Z (W * q)) by (subst m; ring).
    apply round_Z. rewrite Z.abs_eq by nia. exact Hq. }
  assert (Hdiv : div (Qc_of_Z (W * q)) (Qc_of_Z W) = Qc_of_Z q).
  { unfold div.
    replace (Qc_of_Z (W * q) / Qc_of_Z W)%Qc with (Qc_of_Z q).
    - apply round_Z. rewrite Z.abs_eq by lia. nia.
    - rewrite <- Qc_of_Z_mul. field.
      intros H0. apply Qc_of_Z_inj_0 in H0. lia. }
  rewrite Hsub, Hdiv.
  assert (HWneg : bool_decide (Qc_of_Z W < 0)%Qc = false).
  { apply bool_decide_eq_false_2. apply Qcle_not_lt.
    rewrite <- Qc_of_Z_0. apply Qc_of_Z_le. lia. }
  assert (Hmneg : bool_decide (m < 0)%Qc = false).
  { apply bool_decide_eq_false_2. apply Qcle_not_lt. exact Hm0. }
  assert (Hfl : floor (Qc_of_Z q) = Qc_of_Z q).
  { unfold floor. cbn [this Qc_of_Z]. rewrite Qfloor_Z. reflexivity. }
  assert (Hsnap :
    bool_decide (Q2Qc (1 # 2) < sub (Qc_of_Z q) (Qc_of_Z q))%Qc = false).
  { unfold sub. replace (Qc_of_Z q - Qc_of_Z q)%Qc with (Qc_of_Z 0)
      by (rewrite Qc_of_Z_0; ring).
    rewrite round_Z by (cbn; lia).
    apply bool_decide_eq_false_2.
    apply Qcle_not_lt. rewrite Qc_of_Z_0. unfold Qcle, Qle.
    vm_compute. discriminate. }
  match goal with |- context [@decide ?P ?d] => destruct (@decide P d) as [E|E] end.
  - cbv beta iota zeta. rewrite Hfl, Hsnap, E.
    match goal with |- context [@decide ?P ?d] => destruct (@decide P d) as [E'|E'] end;
      [rewrite E'|]; reflexivity.
  - rewrite HWneg, Hmneg. cbn [xorb]. cbv beta iota zeta.
    rewrite Hfl, Hsnap.
    match goal with |- context [@decide ?P ?d] => destruct (@decide P d) as [E'|E'] end;
      [rewrite E'|]; reflexivity.
Qed.

Lemma rem_nonneg : rem x (Qc_of_Z W) = (x - Qc_of_Z (W * q))%Qc.
Proof.
  pose proof fmod_bounds as [Hm0 HmW].
  unfold rem. rewrite fmod_nonneg.
  set (m := (x - Qc_of_Z (W * q))%Qc) in *.
  match goal with |- context [@decide ?P ?d] => destruct (@decide P d) as [E|E] end; [symmetry; exact E|].
  rewrite !bool_decide_eq_false_2; [reflexivity|..].
  - apply Qcle_not_lt. exact Hm0.
  - apply Qcle_not_lt. rewrite <- Qc_of_Z_0. apply Qc_of_Z_le. lia.
Qed.

End FloorDiv.

Lemma Qc_of_Z_le_num a (y : Qc) :
  (Qc_of_Z a <= y)%Qc <-> a * Z.pos (Qden y) <= Qnum y.
Proof.
  unfold Qcle, Qle. cbn [this Qc_of_Z inject_Z Qnum Qden]. lia.
Qed.

Lemma Qc_of_Z_gt_num a (y : Qc) :
  (y < Qc_of_Z a)%Qc <-> Qnum y < a * Z.pos (Qden y).
Proof.
  unfold Qclt, Qlt. cbn [this Qc_of_Z inject_Z Qnum Qden]. lia.
Qed.

Lemma Qfloor_between a (y : Qc) :
  (Qc_of_Z a <= y)%Qc -> (y < Qc_of_Z (a + 1))%Qc -> Qfloor y = a.
Proof.
  intros Hlo Hhi. apply Qc_of_Z_le_num in Hlo. apply Qc_of_Z_gt_num in Hhi.
  unfold Qfloor. destruct y as [[n d] Hc]. cbn [this Qnum Qden] in *.
  symmetry. apply (Z.div_unique n (Z.pos d) a (n - a * Z.pos d)); lia.
Qed.

Lemma Qfloor_div_between a (y : Qc) W :
  0 < W -> (Qc_of_Z a <= y)%Qc -> (y < Qc_of_Z (a + 1))%Qc ->
  Qfloor (y / Qc_of_Z W)%Qc = a / W.
Proof.
  intros HW Hlo Hhi. rewrite Qfloor_div by assumption.
  rewrite <- Z.div_div by lia. f_equal.
  rewrite <- (Qfloor_between a y Hlo Hhi). unfold Qfloor.
  destruct y as [[n d] Hc]. reflexivity.
Qed.

Lemma Qc_of_Z_sub a b : (Qc_of_Z a - Qc_of_Z b)%Qc = Qc_of_Z (a - b).
Proof.
  apply Qc_is_canon. unfold Qcminus, Qcplus, Qcopp. cbn [this Q2Qc Qc_of_Z].
  rewrite !Qred_correct. unfold Qeq, Qplus, Qopp, inject_Z. cbn [Qnum Qden]. lia.
Qed.

Lemma int_of_Z z : int (Qc_of_Z z) = z.
Proof. unfold int, trunc. cbn [this Qc_of_Z inject_Z Qnum Qden]. apply Z.quot_1_r. Qed.

Lemma of_Z_small z : Z.abs z < 2 ^ 53 -> of_Z z = Qc_of_Z z.
Proof. apply round_Z. Qed.

Lemma remaining_exact us :
  0 <= us < 2 ^ 34 * us_per_second ->
  hours_of us = us / hour_us /\ minutes_of us = (us mod hour_us) / minute_us.
Proof.
  unfold us_per_second.
  intros Hus. unfold hours_of, minutes_of, total_seconds, us_per_second.
  destruct (truediv_seconds us Hus) as [Hlo Hhi].
  set (x := truediv us 1000000) in *.
  pose proof (Z.div_pos us 1000000 ltac:(lia) ltac:(lia)) as Hs0.
  assert (Hs1 : us / 1000000 < 2 ^ 34).
  { apply Z.div_lt_upper_bound; lia. }
  set (s := us / 1000000) in *.
  assert (Hx : (0 <= x)%Qc).
  { eapply Qcle_trans; [|exact Hlo]. rewrite <- Qc_of_Z_0. apply Qc_of_Z_le. lia. }
  rewrite !of_Z_small by (cbn; lia).
  assert (Hqh : Qfloor (x / Qc_of_Z 3600)%Qc = s / 3600).
  { apply Qfloor_div_between; [lia|assumption..]. }
  pose proof (Z.div_mod s 3600 ltac:(lia)) as Hdm.
  pose proof (Z.mod_pos_bound s 3600 ltac:(lia)) as Hmb.
  assert (Hb : 3600 * (s / 3600) < 2 ^ 53).
  { change (2 ^ 53) with 9007199254740992. change (2 ^ 34) with 17179869184 in Hs1. lia. }
  assert (Hdiv : div_mod x (Qc_of_Z 3600) =
                 (Qc_of_Z (s / 3600), (x - Qc_of_Z (3600 * (s / 3600)))%Qc)).
  { apply div_mod_nonneg; [lia|assumption..]. }
  assert (Hrem : rem x (Qc_of_Z 3600) = (x - Qc_of_Z (3600 * (s / 3600)))%Qc).
  { apply rem_nonneg; [lia|assumption..]. }
  unfold floordiv at 1. rewrite Hdiv. cbn [fst]. rewrite int_of_Z.
  split.
  { unfold hour_us, us_per_second. rewrite (Z.mul_comm 3600), <- Z.div_div by lia. reflexivity. }
  rewrite Hrem.
  set (r := (x - Qc_of_Z (3600 * (s / 3600)))%Qc).
  assert (Hrlo : (Qc_of_Z (s mod 3600) <= r)%Qc).
  { replace (s mod 3600) with (s - 3600 * (s / 3600)) by lia.
    rewrite <- Qc_of_Z_sub. subst r. apply Qcplus_le_mono_r. exact Hlo. }
  assert (Hrhi : (r < Qc_of_Z (s mod 3600 + 1))%Qc).
  { replace (s mod 3600 + 1) with (s + 1 - 3600 * (s / 3600)) by lia.
    rewrite <- Qc_of_Z_sub. subst r. apply Qcplus_lt_mono_r. exact Hhi. }
  assert (Hr : (0 <= r)%Qc).
  { eapply Qcle_trans; [|exact Hrlo]. rewrite <- Qc_of_Z_0. apply Qc_of_Z_le. lia. }
  assert (Hqm : Qfloor (r / Qc_of_Z 60)%Qc = (s mod 3600) / 60).
  { apply Qfloor_div_between; [lia|assumption..]. }
  assert (Hm60 : 0 <= s mod 3600 / 60 < 60).
  { split; [apply Z.div_pos; lia|apply Z.div_lt_upper_bound; lia]. }
  unfold floordiv.
  rewrite (div_mod_nonneg r 60 (s mod 3600 / 60) ltac:(lia) Hr Hqm)
    by (change (2 ^ 53) with 9007199254740992; lia).
  cbn [fst]. rewrite int_of_Z.
  unfold hour_us, minute_us, us_per_second.
  rewrite (Z.mul_comm 3600), (Z.mul_comm 60).
  rewrite Z.rem_mul_r by lia. fold s.
  rewrite <- Z.div_div by lia. f_equal.
  rewrite Z.mul_comm, Z.div_add by lia.
  rewrite Z.mod_div by lia. reflexivity.
Qed.

Lemma total_seconds_exact us :
  0 <= us < 2 ^ 34 * us_per_second ->
  total_seconds_int us = us / us_per_second.
Proof.
  unfold total_seconds_int, total_seconds, us_per_second. intros Hus.
  destruct (truediv_seconds us Hus) as [Hlo Hhi].
  set (x := truediv us 1000000) in *.
  pose proof (Z.div_pos us 1000000 ltac:(lia) ltac:(lia)) as Hs0.
  unfold int. rewrite trunc_nonneg.
  - apply Qfloor_between; assumption.
  - eapply Qcle_trans; [|exact Hlo]. rewrite <- Qc_of_Z_0. apply Qc_of_Z_le. lia.
Qed.

Lemma total_seconds_whole s :
  Z.abs s < 2 ^ 53 -> total_seconds_int (s * us_per_second) = s.
Proof.
  unfold total_seconds_int, total_seconds, us_per_second. intros Hs. rewrite truediv_whole by (assumption || lia).
  apply int_of_Z.
Qed.

(** [int(td.total_seconds())] is the exact count of whole seconds for a
    duration of whole seconds, and for any duration under [2^34]
    seconds. *)
Lemma total_seconds_int_exact td :
  0 <= td <= timedelta_max ->
  td mod us_per_second = 0 \/ td < 2 ^ 34 * us_per_second ->
  total_seconds_int td = td / us_per_second.
Proof.
  intros [Hlo Hhi] [Hwhole|Hsmall].
  - assert (E : td = td / us_per_second * us_per_second).
    { unfold us_per_second in *. pose proof (Z.div_mod td 1000000). lia. }
    rewrite E at 1. apply total_seconds_whole.
    unfold timedelta_max, us_per_second in *.
    assert (0 <= td / 1000000 <= 86400000000000).
    { split; [apply Z.div_pos; lia|apply Z.div_le_upper_bound; lia]. }
    change (2 ^ 53) with 9007199254740992. lia.
  - apply total_seconds_exact. lia.
Qed.

End FloatArithmetic.

(** ** The guard filter *)

Section Guard.

Variable env : Env.

Lemma register_known uid rid u w :
  users (db w) !! uid = Some u ->
  register env uid rid w =
    (Return tt,
     mkWorld (Db.touch uid (clock env (n_clock w)) (db w)) (fsm w) (trace w)
       (S (n_clock w)) (n_api w) (n_rand w)).
Proof. intros H. unfold register, bind, get_db. rewrite H. reflexivity. Qed.

Lemma touch_lookup uid t d u :
  users d !! uid = Some u ->
  users (Db.touch uid t d) !! uid = Some (set_last_seen t u).
Proof.
  intros H. unfold Db.touch. cbn [users with_users].
  rewrite lookup_alter_eq, H. reflexivity.
Qed.

(** The part of the middleware shared by all outcomes: registration and
    the reading of the row. *)
Ltac guard_enter Hfrom Hchat Hnz Hu :=
  unfold GuardMiddleware; rewrite Hfrom, Hchat;
  unfold bind at 1; rewrite (register_known _ _ _ _ Hu);
  unfold bind at 1; unfold get_user, bind at 1, get_db;
  cbv beta iota; cbn [db ret];
  rewrite get_user_by_id by assumption;
  rewrite (touch_lookup _ _ _ _ Hu);
  cbn [is_banned ban_until ban_reason set_last_seen].

(** An elapsed ban is lifted and the handler runs. *)
Lemma guard_lifts {R} (handler : Message -> M R) event uid u bt w :
  from_user event = Some uid -> chat_type event = Private -> uid <> 0 ->
  users (db w) !! uid = Some u -> is_banned u = true ->
  ban_until u = Some bt -> bt < clock env (S (n_clock w)) ->
  GuardMiddleware env handler event w =
    (let* r := handler event in ret (Some r))
      (mkWorld (Db.update_user_ban uid false None None
                  (Db.touch uid (clock env (n_clock w)) (db w)))
         (fsm w) (trace w) (S (S (n_clock w))) (n_api w) (n_rand w)).
Proof.
  intros Hfrom Hchat Hnz Hu Hban Huntil Hlt.
  guard_enter Hfrom Hchat Hnz Hu. rewrite Hban, Huntil.
  unfold bind at 1, now at 1. cbn [n_clock db fsm trace n_api n_rand].
  apply Z.ltb_lt in Hlt. rewrite Hlt.
  reflexivity.
Qed.

(** A running timed ban rejects the event with the time that remains. *)
Lemma guard_rejects_timed {R} (handler : Message -> M R) event uid u bt w :
  from_user event = Some uid -> chat_type event = Private -> uid <> 0 ->
  users (db w) !! uid = Some u -> is_banned u = true ->
  ban_until u = Some bt -> clock env (S (n_clock w)) <= bt ->
  let remaining := bt - clock env (S (S (n_clock w))) in
  let request :=
    SendMessage (chat_id event)
      (if is_topic_message event then message_thread_id event else None)
      (GuardTimed (hours_of remaining) (minutes_of remaining)
         (reason_text (ban_reason u))) in
  GuardMiddleware env handler event w =
    (match bot_api env (n_api w) request with
     | Return _ => Return None
     | Raise e => Raise e
     end,
     mkWorld (Db.touch uid (clock env (n_clock w)) (db w)) (fsm w)
       (trace w ++ [Api request]) (S (S (S (n_clock w)))) (S (n_api w))
       (n_rand w)).
Proof.
  intros Hfrom Hchat Hnz Hu Hban Huntil Hle remaining request.
  guard_enter Hfrom Hchat Hnz Hu. rewrite Hban, Huntil.
  unfold bind at 1, now at 1. cbn [n_clock db fsm trace n_api n_rand].
  apply Z.ltb_ge in Hle. rewrite Hle.
  unfold bind, now, answer, api, ret. cbn [n_clock db fsm trace n_api n_rand].
  fold remaining. fold request.
  destruct (bot_api env (n_api w) request); reflexivity.
Qed.

(** A permanent ban rejects the event. *)
Lemma guard_rejects_forever {R} (handler : Message -> M R) event uid u w :
  from_user event = Some uid -> chat_type event = Private -> uid <> 0 ->
  users (db w) !! uid = Some u -> is_banned u = true -> ban_until u = None ->
  let request :=
    SendMessage (chat_id event)
      (if is_topic_message event then message_thread_id event else None)
      GuardForever in
  GuardMiddleware env handler event w =
    (match bot_api env (n_api w) request with
     | Return _ => Return None
     | Raise e => Raise e
     end,
     mkWorld (Db.touch uid (clock env (n_clock w)) (db w)) (fsm w)
       (trace w ++ [Api request]) (S (n_clock w)) (S (n_api w)) (n_rand w)).
Proof.
  intros Hfrom Hchat Hnz Hu Hban Huntil request.
  guard_enter Hfrom Hchat Hnz Hu. rewrite Hban, Huntil.
  unfold bind, answer, api, ret. cbn [n_clock db fsm trace n_api n_rand].
  fold request.
  destruct (bot_api env (n_api w) request); reflexivity.
Qed.

Lemma lifted_row uid t d u :
  users d !! uid = Some u ->
  users (Db.update_user_ban uid false None None (Db.touch uid t d)) !! uid =
    Some (set_ban false None None (set_last_seen t u)).
Proof.
  intros H. unfold Db.update_user_ban. cbn [users with_users].
  rewrite lookup_alter_eq, (touch_lookup _ _ _ _ H). reflexivity.
Qed.

End Guard.

(** ** Claims about the guard filter *)

(** C8, as amended.  When the guard filter runs on a private message of a
    banned user: a ban whose [ban_until] lies before the time read by the
    check is lifted (the ban columns are cleared) and the handler runs; a
    ban whose [ban_until] is not before that time rejects the message, the
    notice carrying the hours and minutes floor-divided from the float
    [total_seconds()] of what remains, which are the floor-divided hours
    and minutes of the difference itself whenever less than [2^34] seconds
    (544 years) remain; a ban without [ban_until] rejects the message with
    the permanent notice.  A rejection returns without calling the
    handler. *)
Theorem guard_ban_policy {R} (env : Env) (handler : Message -> M R)
    (event : Message) (uid : Z) (u : User) (w : World) :
  from_user event = Some uid -> chat_type event = Private -> uid <> 0 ->
  users (db w) !! uid = Some u -> is_banned u = true ->
  let seen := Db.touch uid (clock env (n_clock w)) (db w) in
  let lifted := Db.update_user_ban uid false None None seen in
  let reject (reads : nat) (body : Notice) :=
    let request :=
      SendMessage (chat_id event)
        (if is_topic_message event then message_thread_id event else None)
        body in
    (match bot_api env (n_api w) request with
     | Return _ => Return None
     | Raise e => Raise e
     end,
     mkWorld seen (fsm w) (trace w ++ [Api request]) (reads + n_clock w)
       (S (n_api w)) (n_rand w)) in
  GuardMiddleware env handler event w =
    match ban_until u with
    | Some ban_time =>
        if ban_time <? clock env (S (n_clock w)) then
          (let* r := handler event in ret (Some r))
            (mkWorld lifted (fsm w) (trace w) (S (S (n_clock w))) (n_api w)
               (n_rand w))
        else
          let remaining := ban_time - clock env (S (S (n_clock w))) in
          reject 3%nat
            (GuardTimed (hours_of remaining) (minutes_of remaining)
               (reason_text (ban_reason u)))
    | None => reject 1%nat GuardForever
    end
  /\ users lifted !! uid =
       Some (set_ban false None None (set_last_seen (clock env (n_clock w)) u))
  /\ (forall ban_time,
        ban_until u = Some ban_time ->
        let remaining := ban_time - clock env (S (S (n_clock w))) in
        0 <= remaining < 2 ^ 34 * us_per_second ->
        hours_of remaining = remaining / hour_us /\
        minutes_of remaining = (remaining mod hour_us) / minute_us).
Proof.
  intros Hfrom Hchat Hnz Hu Hban seen lifted reject. split; [|split].
  - destruct (ban_until u) as [bt|] eqn:Huntil.
    + destruct (Z.ltb_spec bt (clock env (S (n_clock w)))) as [Hlt|Hge].
      * apply (guard_lifts env handler event uid u bt w); assumption.
      * apply (guard_rejects_timed env handler event uid u bt w); assumption.
    + apply (guard_rejects_forever env handler event uid u w); assumption.
  - apply lifted_row. assumption.
  - intros bt _ remaining Hspan. apply remaining_exact. exact Hspan.
Qed.

(** Witness of C8: user 5, banned for an hour one second ago, is told that
    0 hours and 59 minutes remain (59 min 57 s, rounded down); the span is
    within the range in which the float count is exact. *)
Lemma guard_ban_policy_witness :
  GuardMiddleware Scenario.env_ok (fun _ => ret tt) (Scenario.private_message 5)
    Scenario.banned_1h
  = (Return None,
     mkWorld
       (Db.touch 5 (clock Scenario.env_ok (n_clock Scenario.banned_1h))
          (db Scenario.banned_1h))
       (fsm Scenario.banned_1h)
       (trace Scenario.banned_1h ++
          [Api (SendMessage 5 None (GuardTimed 0 59 (Some (of_ascii "spam"))))])
       (3 + n_clock Scenario.banned_1h)
       (S (n_api Scenario.banned_1h))
       (n_rand Scenario.banned_1h))
  /\ (let remaining :=
        Scenario.seconds 63000003601 -
        clock Scenario.env_ok (S (S (n_clock Scenario.banned_1h))) in
      remaining = Scenario.seconds 3597 /\
      hours_of remaining = remaining / hour_us /\
      minutes_of remaining = (remaining mod hour_us) / minute_us).
Proof.
  pose proof (guard_ban_policy Scenario.env_ok (fun _ => ret tt)
                (Scenario.private_message 5) 5
                (mkUser 5 (of_ascii "USER-AAAAA") (Some 1001) None 0 true
                   (Some (Scenario.seconds 63000003601))
                   (Some (of_ascii "spam")) true 0
                   (Scenario.seconds 63000000000)
                   (Scenario.seconds 63000000000))
                Scenario.banned_1h eq_refl eq_refl) as H.
  cbv zeta in H.
  assert (Hnz : 5 <> 0) by lia.
  assert (Hrow :
    users (db Scenario.banned_1h) !! 5 =
      Some (mkUser 5 (of_ascii "USER-AAAAA") (Some 1001) None 0 true
              (Some (Scenario.seconds 63000003601))
              (Some (of_ascii "spam")) true 0
              (Scenario.seconds 63000000000)
              (Scenario.seconds 63000000000)))
    by (vm_compute; reflexivity).
  destruct (H Hnz Hrow eq_refl) as [Hrun [_ Hspan]].
  split.
  - rewrite Hrun. vm_compute. reflexivity.
  - cbv zeta. split; [vm_compute; reflexivity|].
    apply (Hspan (Scenario.seconds 63000003601) eq_refl).
    clear. vm_compute. split; [discriminate|reflexivity].
Defined.

(** Counterexample to C8 as stated.  User 5 is banned for 2900000 days;
    an hour and three microseconds later 69599998 h 59 min 59.999997 s
    remain.  The float count of these seconds is 250559996400.0, so the
    notice reads 69599999 hours and 0 minutes where the floor-divided
    difference is 69599998 hours and 59 minutes. *)
Lemma guard_report_beyond_float_precision :
  let w := Scenario.banned_2900000d in
  let out :=
    GuardMiddleware Scenario.env_20min (fun _ => ret tt)
      (Scenario.private_message 5) w in
  let remaining :=
    Scenario.seconds (63000000000 + 2900000 * 86400) + 1200000001
    - clock Scenario.env_20min (S (S (n_clock w))) in
  (ban_until <$> users (db w) !! 5) =
    Some (Some (Scenario.seconds (63000000000 + 2900000 * 86400) + 1200000001)) /\
  clock Scenario.env_20min (S (n_clock w)) <
    Scenario.seconds (63000000000 + 2900000 * 86400) + 1200000001 /\
  remaining = Scenario.seconds (69599999 * 3600) - 3 /\
  fst out = Return None /\
  trace (snd out) =
    trace w ++
    [Api (SendMessage 5 None
            (GuardTimed 69599999 0 (Some (of_ascii "spam"))))] /\
  remaining / hour_us = 69599998 /\
  (remaining mod hour_us) / minute_us = 59.
Proof. vm_compute. repeat split; reflexivity. Qed.

(** A ban that ended one second before the check is lifted and the handler
    runs. *)
Example guard_lifts_one_second_late :
  let w := Scenario.banned_1s in
  let out :=
    GuardMiddleware Scenario.env_ok (fun _ => ret tt)
      (Scenario.private_message 5) w in
  (ban_until <$> users (db w) !! 5) = Some (Some (Scenario.seconds 63000000002)) /\
  clock Scenario.env_ok (S (n_clock w)) = Scenario.seconds 63000000003 /\
  fst out = Return (Some tt) /\
  ((fun u => (is_banned u, ban_until u, ban_reason u)) <$>
     users (db (snd out)) !! 5) = Some (false, None, None) /\
  trace (snd out) = trace w.
Proof. vm_compute. repeat split; reflexivity. Qed.

(** C2, as amended.  The guard is registered on the message observer only.
    For a private message sent by a user whose ban is running, the update
    ends without any handler having been called: its result is [None] or
    the exception of the notice, and the world it leaves is the same for
    every handler. *)
Theorem guard_gates_private_messages (env : Env) (event : Message) (uid : Z)
    (u : User) (w : World) :
  from_user event = Some uid -> chat_type event = Private -> uid <> 0 ->
  users (db w) !! uid = Some u ->
  ban_running u (clock env (S (n_clock w))) = true ->
  exists w',
    forall R (on_message : Message -> M R) (on_callback : CallbackQuery -> M R),
      feed_update env on_message on_callback (OnMessage event) w = (Return None, w')
      \/ exists e,
        feed_update env on_message on_callback (OnMessage event) w = (Raise e, w').
Proof.
  intros Hfrom Hchat Hnz Hu Hrun.
  apply andb_true_iff in Hrun as [Hban Hrun].
  destruct (ban_until u) as [bt|] eqn:Huntil.
  - apply negb_true_iff, Z.ltb_ge in Hrun.
    eexists. intros R on_message on_callback. simpl.
    rewrite (guard_rejects_timed env on_message event uid u bt w) by assumption.
    destruct (bot_api env (n_api w) _); [left; reflexivity|right; eauto].
  - eexists. intros R on_message on_callback. simpl.
    rewrite (guard_rejects_forever env on_message event uid u w) by assumption.
    destruct (bot_api env (n_api w) _); [left; reflexivity|right; eauto].
Qed.

(** Witness of C2 as amended: a private message of the permanently banned
    user 5. *)
Lemma guard_gates_private_messages_witness :
  exists w',
    forall R (on_message : Message -> M R) (on_callback : CallbackQuery -> M R),
      feed_update Scenario.env_ok on_message on_callback
        (OnMessage (Scenario.private_message 5)) Scenario.banned_forever
      = (Return None, w')
      \/ exists e,
        feed_update Scenario.env_ok on_message on_callback
          (OnMessage (Scenario.private_message 5)) Scenario.banned_forever
        = (Raise e, w').
Proof.
  apply (guard_gates_private_messages Scenario.env_ok
           (Scenario.private_message 5) 5
           (mkUser 5 (of_ascii "USER-AAAAA") (Some 1001) None 0 true None
              (Some rule_violation) true 0
              (Scenario.seconds 63000000000) (Scenario.seconds 63000000000))
           Scenario.banned_forever).
  - reflexivity.
  - reflexivity.
  - lia.
  - vm_compute. reflexivity.
  - reflexivity.
Defined.

(** C2, counterexample.  User 5 is banned for ever, yet the category
    callback of that user is dispatched to its handler, which runs to its
    end: it asks for a new forum topic and stores it as the thread of the
    user.  A message of the same user in a group chat reaches its handler
    too, the middleware checking private chats only. *)
Lemma callback_bypasses_guard :
  let w := Scenario.banned_forever in
  let out :=
    feed_update Scenario.env_ok (fun _ => ret tt)
      (process_cat_callback Scenario.env_ok)
      (OnCallback (Scenario.category_click 5)) w in
  (is_banned <$> users (db w) !! 5) = Some true /\
  (ban_until <$> users (db w) !! 5) = Some None /\
  (topic_id <$> users (db w) !! 5) = Some (Some 1001) /\
  feed_update Scenario.env_ok (fun _ => ret tt) (fun _ => ret tt)
    (OnMessage (mkMessage 3 (Some 5) (-200) Supergroup None false None)) w
    = (Return (Some tt), w) /\
  fst out = Return (Some tt) /\
  (topic_id <$> users (db (snd out)) !! 5) = Some (Some 1011) /\
  drop (length (trace w)) (trace (snd out)) =
    [Api (SendChatAction 5); Sleep (Seconds 1000);
     Api (SendMessage (-100) (Some 1001)
            (TicketClosed (of_ascii "USER-AAAAA") 5 (Scenario.seconds 63000000001)));
     Api (CreateForumTopic (-100) (of_ascii "Tech") (of_ascii "USER-AAAAA"));
     Api (SendMessage (-100) (Some 1011)
            (TicketCard (of_ascii "Tech") (of_ascii "USER-AAAAA") 5 0 0));
     Api (EditMessageText 5 (CategoryChosen (of_ascii "Tech")));
     Api (SendChatAction 5); Sleep (TypingDelay AwaitingIssue);
     Api (SendMessage 5 None AwaitingIssue); Api AnswerCallbackQuery].
Proof. vm_compute. repeat split; reflexivity. Qed.

(** ** Claims about the thread mapping *)

Lemma close_ticket_other (uid k : Z) (w : World) :
  k <> uid ->
  users (db (snd (close_ticket uid w))) !! k = users (db w) !! k.
Proof.
  intros H. simpl. apply lookup_alter_ne. congruence.
Qed.

Lemma close_ticket_self (uid : Z) (w : World) :
  users (db (snd (close_ticket uid w))) !! uid =
  set_topic_id None <$> users (db w) !! uid.
Proof. simpl. apply lookup_alter_eq. Qed.

(** Closing the ticket of [uid] does not change what any thread held by
    somebody else resolves to. *)
Lemma close_ticket_lookup (uid t : Z) (w : World) :
  consistent (db w) ->
  (forall u, users (db w) !! uid = Some u -> topic_id u <> Some t) ->
  Db.get_user None (Some t) (db (snd (close_ticket uid w))) =
  Db.get_user None (Some t) (db w).
Proof.
  intros Hc Hnot.
  destruct (Z.eq_dec t 0) as [->|Hnz]; [reflexivity|].
  assert (Hc' : consistent (db (snd (close_ticket uid w)))).
  { apply (consistent_close uid w Hc). }
  destruct (Db.get_user None (Some t) (db w)) as [u'|] eqn:E.
  - apply get_user_by_topic_elem in E as (Htr & Ht & k & Hk).
    assert (k <> uid) by (intros ->; eapply Hnot; eauto).
    apply (get_user_by_topic _ k t u'); try assumption.
    + apply Hc'.
    + rewrite close_ticket_other; assumption.
  - apply get_user_by_topic_none. intros k u Hk Ht.
    destruct (decide (k = uid)) as [->|Hne].
    + rewrite close_ticket_self in Hk.
      destruct (users (db w) !! uid); simpl in Hk; [|discriminate].
      injection Hk as <-. discriminate.
    + rewrite close_ticket_other in Hk by assumption.
      destruct Hc as [_ Hu].
      rewrite (get_user_by_topic (db w) k t u Hu Hk Ht Hnz) in E.
      discriminate.
Qed.

(** C5.  In every world the bot reaches from the empty database, at most
    one user maps to any thread id; and closing the ticket of one user
    leaves the row of every other user, and what every thread not held by
    that user resolves to, unchanged. *)
Theorem thread_ids_unique (env : Env) (actions : list Action) :
  let w := run env actions initial_world in
  topic_unique (db w) /\
  forall uid : Z,
    let w' := snd (close_ticket uid w) in
    (forall k, k <> uid -> users (db w') !! k = users (db w) !! k) /\
    (forall t,
        (forall u, users (db w) !! uid = Some u -> topic_id u <> Some t) ->
        Db.get_user None (Some t) (db w') = Db.get_user None (Some t) (db w)).
Proof.
  intros w.
  assert (Hc : consistent (db w)).
  { apply consistent_run. apply consistent_empty. }
  split; [apply Hc|].
  intros uid w'. split.
  - intros k Hk. apply close_ticket_other. assumption.
  - intros t Hnot. apply close_ticket_lookup; assumption.
Qed.

(** Witness of C5: users 5 and 6 hold threads 1001 and 1008; closing the
    ticket of user 5 changes neither the row of user 6 nor the holder of
    thread 1008. *)
Lemma thread_ids_unique_witness :
  let w := run Scenario.env_ok Scenario.two_tickets initial_world in
  let w' := snd (close_ticket 5 w) in
  (topic_id <$> users (db w) !! 5) = Some (Some 1001) /\
  (topic_id <$> users (db w) !! 6) = Some (Some 1008) /\
  topic_unique (db w) /\
  users (db w') !! 6 = users (db w) !! 6 /\
  Db.get_user None (Some 1008) (db w') = Db.get_user None (Some 1008) (db w).
Proof.
  destruct (thread_ids_unique Scenario.env_ok Scenario.two_tickets) as [H1 H2].
  destruct (H2 5) as [Ha Hb].
  split; [vm_compute; reflexivity|]. split; [vm_compute; reflexivity|].
  split; [exact H1|]. split.
  - apply Ha. lia.
  - apply Hb. intros u Hu. vm_compute in Hu. injection Hu as <-. discriminate.
Defined.

(** ** Opening a ticket over an open one *)


(** Unfolding of the monad, one layer after the other. *)
Ltac run_monad :=
  repeat progress
    (unfold bind, try_except, ret, raise, lift, get_db, put_db, modify_db,
       db_try, sleep, set_state, now, api, answer, get_user, close_ticket,
       update_user_ban;
     cbv beta iota;
     cbn [db fsm trace n_clock n_api n_rand]).

Section Tickets.

Variable env : Env.







End Tickets.




(** ** The ban command *)

Section Ban.

Variable env : Env.

(** A token for which [parse_time] returns [None] bans for ever. *)
Lemma adm_ban_forever message args time_str more u w :
  from_user message = Some (OWNER_ID env) ->
  split_args args = time_str :: more ->
  Db.get_user None (message_thread_id message) (db w) = Some u ->
  parse_time time_str = Return None ->
  let reason := ban_reason_of more in
  adm_ban env message args w =
    ban_outcome env w
      (Db.update_user_ban (user_id u) true None (Some reason) (db w)) 0
      (ban_issued message u "навсегда" reason)
      (SendMessage (user_id u) None (BanNotifyForever reason)).
Proof.
  intros Hfrom Hsplit Hget Hparse reason.
  unfold adm_ban, sender. rewrite Hfrom. unfold bind at 1, ret at 1.
  rewrite Z.eqb_refl. cbn [negb]. rewrite Hsplit.
  fold (ban_reason_of more). fold reason.
  unfold get_user. run_monad. rewrite Hget, Hparse. run_monad.
  unfold ban_outcome, ban_issued. cbn [format_timedelta].
  destruct (bot_api env (n_api w) _); run_monad; [|reflexivity].
  rewrite <- app_assoc.
  destruct (bot_api env (S (n_api w)) _); reflexivity.
Qed.

(** So does [/ban]: a token with a character that is neither a digit nor a
    unit is not rejected, the user is banned for ever. *)
Lemma adm_ban_invalid_token message args time_str more u w c :
  from_user message = Some (OWNER_ID env) ->
  split_args args = time_str :: more ->
  Db.get_user None (message_thread_id message) (db w) = Some u ->
  c ∈ Text.lower time_str -> Text.isdigit c = false -> multipliers c = None ->
  db (snd (adm_ban env message args w)) =
    Db.update_user_ban (user_id u) true None (Some (ban_reason_of more)) (db w).
Proof.
  intros Hfrom Hsplit Hget Hin Hd Hm.
  rewrite (adm_ban_forever message args time_str more u w Hfrom Hsplit Hget
             (parse_time_invalid time_str c Hin Hd Hm)).
  unfold ban_outcome. destruct (bot_api env (n_api w) _); reflexivity.
Qed.

(** A token that parses to a duration bans until that much after now. *)
Lemma adm_ban_timed message args time_str more u td until w :
  from_user message = Some (OWNER_ID env) ->
  split_args args = time_str :: more ->
  Db.get_user None (message_thread_id message) (db w) = Some u ->
  parse_time time_str = Return (Some td) ->
  datetime_add (clock env (n_clock w)) td = Return until ->
  let reason := ban_reason_of more in
  let text := format_timedelta (Some td) in
  adm_ban env message args w =
    ban_outcome env w
      (Db.update_user_ban (user_id u) true (Some until) (Some reason) (db w)) 1
      (ban_issued message u text reason)
      (SendMessage (user_id u) None (BanNotifyTimed text reason)).
Proof.
  intros Hfrom Hsplit Hget Hparse Hadd reason text.
  unfold adm_ban, sender. rewrite Hfrom. unfold bind at 1, ret at 1.
  rewrite Z.eqb_refl. cbn [negb]. rewrite Hsplit.
  fold (ban_reason_of more). fold reason.
  unfold get_user. run_monad. rewrite Hget, Hparse. run_monad.
  rewrite Hadd. run_monad. fold text.
  unfold ban_outcome, ban_issued.
  destruct (bot_api env (n_api w) _); run_monad; [|reflexivity].
  rewrite <- app_assoc.
  destruct (bot_api env (S (n_api w)) _); reflexivity.
Qed.

Lemma ban_outcome_db w d reads issued notify :
  db (snd (ban_outcome env w d reads issued notify)) = d.
Proof.
  unfold ban_outcome. destruct (bot_api env (n_api w) issued); reflexivity.
Qed.

Lemma ban_outcome_trace w d reads issued notify :
  exists rest,
    trace (snd (ban_outcome env w d reads issued notify)) =
    trace w ++ Api issued :: rest.
Proof.
  unfold ban_outcome. destruct (bot_api env (n_api w) issued);
    eexists; reflexivity.
Qed.

Lemma ban_outcome_clock w d reads issued notify :
  n_clock (snd (ban_outcome env w d reads issued notify)) = (reads + n_clock w)%nat.
Proof.
  unfold ban_outcome. destruct (bot_api env (n_api w) issued); reflexivity.
Qed.

End Ban.

Lemma get_user_by_topic_row (d : DB) (tid : option Z) (u : User) :
  consistent d -> Db.get_user None tid d = Some u ->
  users d !! user_id u = Some u.
Proof.
  intros [Hkey _] H. apply get_user_by_topic_elem in H as (_ & _ & k & Hk).
  rewrite (Hkey k u Hk). exact Hk.
Qed.

Lemma ban_row uid banned until reason d u :
  users d !! uid = Some u ->
  users (Db.update_user_ban uid banned until reason d) !! uid =
    Some (set_ban banned until reason u).
Proof.
  intros H. unfold Db.update_user_ban. cbn [users with_users].
  rewrite lookup_alter_eq, H. reflexivity.
Qed.

Lemma datetime_add_zero (t : datetime) :
  0 <= t <= datetime_max -> datetime_add t 0 = Return t.
Proof.
  intros [H0 H1]. unfold datetime_add. rewrite Z.add_0_r.
  apply Z.leb_le in H0. apply Z.leb_le in H1. rewrite H0, H1. reflexivity.
Qed.

(** C10.  A duration token made of digits only is not rejected: it parses
    to a zero duration (digits at the end of any token add nothing), the
    ban is written with [ban_until] equal to the time of the command and
    announced with the duration [0м], and the guard lifts it at the next
    private message of the user read at a later time. *)
Theorem unitless_digits_zero_ban {R} (env : Env) (message : Message)
    (args : option pystr) (digits : pystr) (more : list pystr) (u : User)
    (w : World) (handler : Message -> M R) (event : Message) :
  from_user message = Some (OWNER_ID env) ->
  split_args args = digits :: more ->
  forallb Text.isdigit digits = true ->
  consistent (db w) ->
  Db.get_user None (message_thread_id message) (db w) = Some u ->
  0 <= clock env (n_clock w) <= datetime_max ->
  from_user event = Some (user_id u) -> chat_type event = Private ->
  user_id u <> 0 ->
  let banned_at := clock env (n_clock w) in
  let reason := ban_reason_of more in
  let out := adm_ban env message args w in
  banned_at < clock env (S (n_clock (snd out))) ->
  parse_time digits = Return (Some 0) /\
  (forall s, parse_time (s ++ digits) = parse_time s) /\
  format_timedelta (Some 0) = "0м"%string /\
  users (db (snd out)) !! user_id u =
    Some (set_ban true (Some banned_at) (Some reason) u) /\
  (exists rest,
      trace (snd out) = trace w ++ Api (ban_issued message u "0м" reason) :: rest) /\
  exists lifted,
    GuardMiddleware env handler event (snd out) =
      (let* r := handler event in ret (Some r)) lifted /\
    (is_banned <$> users (db lifted) !! user_id u) = Some false.
Proof.
  intros Hfrom Hsplit Hdigits Hc Hget Hclock Hev Hchat Hnz banned_at reason out Hlater.
  assert (Hparse := parse_time_digits digits Hdigits).
  assert (Hrow := get_user_by_topic_row _ _ _ Hc Hget).
  assert (Hout : out =
    ban_outcome env w
      (Db.update_user_ban (user_id u) true (Some banned_at) (Some reason) (db w)) 1
      (ban_issued message u (format_timedelta (Some 0)) reason)
      (SendMessage (user_id u) None
         (BanNotifyTimed (format_timedelta (Some 0)) reason))).
  { apply (adm_ban_timed env message args digits more u 0 banned_at w);
      try assumption.
    apply datetime_add_zero. assumption. }
  assert (Hfmt : format_timedelta (Some 0) = "0м"%string) by reflexivity.
  rewrite Hfmt in Hout.
  assert (Hdb : users (db (snd out)) !! user_id u =
                Some (set_ban true (Some banned_at) (Some reason) u)).
  { rewrite Hout, ban_outcome_db. apply ban_row. assumption. }
  split; [assumption|].
  split; [intros s; apply parse_time_tail; assumption|].
  split; [assumption|].
  split; [assumption|].
  split; [rewrite Hout; apply ban_outcome_trace|].
  eexists. split.
  - apply (guard_lifts env handler event (user_id u)
             (set_ban true (Some banned_at) (Some reason) u) banned_at (snd out));
      try assumption; reflexivity.
  - cbn [db]. rewrite (lifted_row _ _ _ _ Hdb). reflexivity.
Qed.

(** Witness of C10: [/ban 45 spam] in the thread of user 5. *)
Lemma unitless_digits_zero_ban_witness :
  let out :=
    adm_ban Scenario.env_ok (Scenario.staff_message 1001)
      (Some (of_ascii "45 spam")) Scenario.opened in
  parse_time (of_ascii "45") = Return (Some 0) /\
  parse_time (of_ascii "1h30") = parse_time (of_ascii "1h") /\
  users (db (snd out)) !! 5 =
    Some (set_ban true (Some (Scenario.seconds 63000000001))
            (Some (of_ascii "spam")) Scenario.row5) /\
  exists lifted,
    GuardMiddleware Scenario.env_ok (fun _ => ret tt)
      (Scenario.private_message 5) (snd out) =
      (let* r := ret tt in ret (Some r)) lifted /\
    (is_banned <$> users (db lifted) !! 5) = Some false.
Proof.
  intros out.
  destruct (unitless_digits_zero_ban Scenario.env_ok (Scenario.staff_message 1001)
              (Some (of_ascii "45 spam")) (of_ascii "45") [of_ascii "spam"]
              Scenario.row5 Scenario.opened (fun _ => ret tt)
              (Scenario.private_message 5))
    as (H1 & H2 & H3 & H4 & H5 & H6).
  - reflexivity.
  - reflexivity.
  - reflexivity.
  - apply consistent_run, consistent_empty.
  - vm_compute. reflexivity.
  - vm_compute. split; discriminate.
  - reflexivity.
  - reflexivity.
  - simpl. lia.
  - vm_compute. reflexivity.
  - split; [exact H1|]. split; [exact (H2 (of_ascii "1h"))|].
    split; [exact H4|]. exact H6.
Defined.

(** C1 (the code departs from the claim).  [/ban soon]: [parse_time]
    returns [None] for the token, the value it returns for the permanent
    literal, and [adm_ban] reads [None] as a ban for ever.  The command is
    not rejected: user 5, not banned before, is banned without
    [ban_until], and both parties are told so. *)
Theorem ban_soon_bans_forever :
  let w := Scenario.opened in
  let out :=
    adm_ban Scenario.env_ok (Scenario.staff_message 1001)
      (Some (of_ascii "soon")) w in
  parse_time (of_ascii "soon") = Return None /\
  parse_time permanent_token = Return None /\
  users (db w) !! 5 = Some Scenario.row5 /\
  is_banned Scenario.row5 = false /\
  fst out = Return tt /\
  users (db (snd out)) !! 5 =
    Some (set_ban true None (Some rule_violation) Scenario.row5) /\
  drop (length (trace w)) (trace (snd out)) =
    [Api (SendMessage (-100) (Some 1001)
            (BanIssued (of_ascii "USER-AAAAA") "навсегда" rule_violation));
     Api (SendMessage 5 None (BanNotifyForever rule_violation))].
Proof. vm_compute. repeat split; reflexivity. Qed.

(** ** The warn command *)

Section Warn.

Variable env : Env.

(** One [/warn] whose notices are all delivered. *)
Lemma adm_warn_delivered message args time_str reason rest u w :
  reliable env ->
  from_user message = Some (OWNER_ID env) ->
  split_args args = time_str :: reason :: rest ->
  Db.get_user None (message_thread_id message) (db w) = Some u ->
  users (db w) !! user_id u = Some u ->
  adm_warn env message args w =
    (Return tt,
     mkWorld (warned_db (OWNER_ID env) reason (clock env (n_clock w)) u (db w))
       (fsm w) (trace w ++ warn_requests message u reason)
       (S (n_clock w))
       (length (warn_requests message u reason) + n_api w)
       (n_rand w)).
Proof.
  intros Hok Hfrom Hsplit Hget Hrow.
  unfold adm_warn, sender. rewrite Hfrom. unfold bind at 1, ret at 1.
  rewrite Z.eqb_refl. cbn [negb]. rewrite Hsplit.
  unfold get_user, add_warn. run_monad. rewrite Hget. run_monad.
  rewrite Hrow. run_monad.
  unfold warned_db, warn_requests. cbv zeta.
  destruct (Hok (n_api w)
              (SendMessage (chat_id message)
                 (if is_topic_message message then message_thread_id message
                  else None)
                 (WarnIssued (anon_id u) (warns u + 1) reason))) as [z1 ->].
  run_monad.
  destruct (Hok (S (n_api w))
              (SendMessage (user_id u) None (WarnNotify (warns u + 1) reason)))
    as [z2 ->].
  run_monad.
  destruct (3 <=? warns u + 1).
  - run_monad.
    destruct (Hok (S (S (n_api w)))
                (SendMessage (chat_id message)
                   (if is_topic_message message then message_thread_id message
                    else None) WarnLimitReached)) as [z3 ->].
    run_monad.
    destruct (Hok (S (S (S (n_api w))))
                (SendMessage (user_id u) None WarnBanNotify)) as [z4 ->].
    run_monad. rewrite <- !app_assoc. reflexivity.
  - run_monad. rewrite <- !app_assoc. reflexivity.
Qed.

Lemma warned_db_row admin reason t u d :
  users (warned_db admin reason t u d) !! user_id u = Some (warned_row u).
Proof.
  unfold warned_db, warned_row. cbv zeta. destruct (3 <=? warns u + 1).
  - rewrite (ban_row _ _ _ _ _ (set_warns (warns u + 1) u)); [reflexivity|].
    unfold Db.add_warn. cbn [users]. apply lookup_insert_eq.
  - unfold Db.add_warn. cbn [users]. apply lookup_insert_eq.
Qed.

Lemma warned_row_id u : user_id (warned_row u) = user_id u.
Proof. unfold warned_row. cbv zeta. destruct (3 <=? warns u + 1); reflexivity. Qed.

Lemma warned_row_topic u : topic_id (warned_row u) = topic_id u.
Proof. unfold warned_row. cbv zeta. destruct (3 <=? warns u + 1); reflexivity. Qed.

Lemma warned_row_anon u : anon_id (warned_row u) = anon_id u.
Proof. unfold warned_row. cbv zeta. destruct (3 <=? warns u + 1); reflexivity. Qed.

Lemma warned_row_warns u : warns (warned_row u) = warns u + 1.
Proof. unfold warned_row. cbv zeta. destruct (3 <=? warns u + 1); reflexivity. Qed.

(** The threshold and the ban are handled by the same call. *)
Lemma warned_row_banned u :
  3 <= warns u + 1 ->
  is_banned (warned_row u) = true /\ ban_until (warned_row u) = None /\
  ban_reason (warned_row u) = Some three_warnings.
Proof.
  intros H. unfold warned_row. cbv zeta.
  apply Z.leb_le in H. rewrite H. auto.
Qed.

(** One delivered [/warn] in the thread of a user, with what the next one
    needs. *)
Lemma warn_step message args time_str reason rest tid u w :
  reliable env ->
  from_user message = Some (OWNER_ID env) ->
  split_args args = time_str :: reason :: rest ->
  message_thread_id message = Some tid -> tid <> 0 ->
  consistent (db w) ->
  users (db w) !! user_id u = Some u -> topic_id u = Some tid ->
  let w' := run env [DoWarn message args] w in
  consistent (db w') /\
  users (db w') !! user_id u = Some (warned_row u) /\
  trace w' = trace w ++ warn_requests message u reason.
Proof.
  intros Hok Hfrom Hsplit Hthread Hnz Hc Hrow Htopic w'.
  assert (Hget : Db.get_user None (message_thread_id message) (db w) = Some u).
  { rewrite Hthread. destruct Hc as [_ Hu].
    apply (get_user_by_topic _ (user_id u) tid u); assumption. }
  split.
  { apply (consistent_run env [DoWarn message args] w Hc). }
  unfold w', run. cbn [fold_left perform].
  rewrite (adm_warn_delivered message args time_str reason rest u w)
    by assumption.
  cbn [snd db trace]. split; [apply warned_db_row|reflexivity].
Qed.

End Warn.

(** C4, as amended.  A [/warn] whose notices are delivered adds one to the
    count and, when the count it reaches is 3 or more, writes the permanent
    ban in the same call.  So three warnings from none leave the user
    banned with no [ban_until]; a fourth is accepted, the count becomes 4,
    the user stays banned for ever, and the call writes and announces the
    ban again, as every call from the third on does. *)
Theorem three_warnings_ban (env : Env) (message : Message) (args : option pystr)
    (time_str reason : pystr) (rest : list pystr) (tid : Z) (u : User)
    (w : World) :
  reliable env ->
  from_user message = Some (OWNER_ID env) ->
  split_args args = time_str :: reason :: rest ->
  message_thread_id message = Some tid -> tid <> 0 ->
  consistent (db w) ->
  users (db w) !! user_id u = Some u -> topic_id u = Some tid ->
  warns u = 0 ->
  let warn := DoWarn message args in
  let w3 := run env [warn; warn; warn] w in
  let w4 := run env [warn] w3 in
  (forall w0 v,
      consistent (db w0) -> users (db w0) !! user_id v = Some v ->
      topic_id v = Some tid ->
      exists v',
        users (db (run env [warn] w0)) !! user_id v = Some v' /\
        warns v' = warns v + 1 /\
        (3 <= warns v' -> is_banned v' = true /\ ban_until v' = None)) /\
  exists u3 u4,
    users (db w3) !! user_id u = Some u3 /\
    warns u3 = 3 /\ is_banned u3 = true /\ ban_until u3 = None /\
    users (db w4) !! user_id u = Some u4 /\
    warns u4 = 4 /\ is_banned u4 = true /\ ban_until u4 = None /\
    ban_reason u4 = Some three_warnings /\
    trace w4 = trace w3 ++ warn_requests message u3 reason /\
    warn_requests message u3 reason =
      let thread :=
        if is_topic_message message then message_thread_id message else None in
      [Api (SendMessage (chat_id message) thread (WarnIssued (anon_id u) 4 reason));
       Api (SendMessage (user_id u) None (WarnNotify 4 reason));
       Api (SendMessage (chat_id message) thread WarnLimitReached);
       Api (SendMessage (user_id u) None WarnBanNotify)].
Proof.
  intros Hok Hfrom Hsplit Hthread Hnz Hc Hrow Htopic Hzero warn w3 w4.
  split.
  { intros w0 v Hc0 Hv Hvt.
    destruct (warn_step env message args time_str reason rest tid v w0)
      as (_ & Hv' & _); try assumption.
    exists (warned_row v). split; [exact Hv'|].
    rewrite warned_row_warns. split; [reflexivity|].
    intros H3. destruct (warned_row_banned v H3) as (? & ? & _). auto. }
  set (u1 := warned_row u). set (u2 := warned_row u1). set (u3 := warned_row u2).
  set (u4 := warned_row u3).
  set (w1 := run env [warn] w). set (w2 := run env [warn] w1).
  assert (H1 : consistent (db w1) /\ users (db w1) !! user_id u = Some u1 /\
               trace w1 = trace w ++ warn_requests message u reason).
  { apply (warn_step env message args time_str reason rest tid u w); assumption. }
  destruct H1 as (Hc1 & Hr1 & _).
  assert (Hid1 : user_id u1 = user_id u) by apply warned_row_id.
  assert (Ht1 : topic_id u1 = Some tid).
  { unfold u1. rewrite warned_row_topic. assumption. }
  assert (H2 : consistent (db w2) /\ users (db w2) !! user_id u1 = Some u2 /\
               trace w2 = trace w1 ++ warn_requests message u1 reason).
  { apply (warn_step env message args time_str reason rest tid u1 w1);
      try assumption. rewrite Hid1. assumption. }
  destruct H2 as (Hc2 & Hr2 & _).
  assert (Hid2 : user_id u2 = user_id u).
  { unfold u2. rewrite warned_row_id. assumption. }
  assert (Ht2 : topic_id u2 = Some tid).
  { unfold u2. rewrite warned_row_topic. assumption. }
  assert (H3 : consistent (db w3) /\ users (db w3) !! user_id u2 = Some u3 /\
               trace w3 = trace w2 ++ warn_requests message u2 reason).
  { apply (warn_step env message args time_str reason rest tid u2 w2);
      try assumption. rewrite Hid2, <- Hid1. assumption. }
  destruct H3 as (Hc3 & Hr3 & _).
  assert (Hid3 : user_id u3 = user_id u).
  { unfold u3. rewrite warned_row_id. assumption. }
  assert (Ht3 : topic_id u3 = Some tid).
  { unfold u3. rewrite warned_row_topic. assumption. }
  assert (H4 : consistent (db w4) /\ users (db w4) !! user_id u3 = Some u4 /\
               trace w4 = trace w3 ++ warn_requests message u3 reason).
  { apply (warn_step env message args time_str reason rest tid u3 w3);
      try assumption. rewrite Hid3, <- Hid2. assumption. }
  destruct H4 as (_ & Hr4 & Htr4).
  assert (Hw3 : warns u3 = 3).
  { unfold u3, u2, u1. rewrite !warned_row_warns. lia. }
  assert (Hw4 : warns u4 = 4).
  { unfold u4. rewrite warned_row_warns. lia. }
  assert (Ha3 : anon_id u3 = anon_id u).
  { unfold u3, u2, u1. rewrite !warned_row_anon. reflexivity. }
  destruct (warned_row_banned u2) as (Hb3 & Hn3 & _).
  { fold u3. rewrite <- warned_row_warns. fold u3. lia. }
  destruct (warned_row_banned u3) as (Hb4 & Hn4 & Hreason4).
  { rewrite <- warned_row_warns. fold u4. lia. }
  exists u3, u4.
  rewrite <- Hid2 at 1. rewrite <- Hid3 at 1.
  repeat (split; [assumption|]).
  unfold warn_requests. cbv zeta. rewrite Hw3, Ha3, Hid3. reflexivity.
Qed.

Lemma env_ok_reliable : reliable Scenario.env_ok.
Proof. intros k r. eexists. reflexivity. Qed.

(** Witness of C4 as amended: four warnings for user 5. *)
Lemma three_warnings_ban_witness :
  let w3 := Scenario.warned3 in
  let w4 := run Scenario.env_ok [Scenario.warn5] w3 in
  exists u3 u4,
    users (db w3) !! 5 = Some u3 /\
    warns u3 = 3 /\ is_banned u3 = true /\ ban_until u3 = None /\
    users (db w4) !! 5 = Some u4 /\
    warns u4 = 4 /\ is_banned u4 = true /\ ban_until u4 = None /\
    ban_reason u4 = Some three_warnings.
Proof.
  intros w3 w4.
  destruct (three_warnings_ban Scenario.env_ok (Scenario.staff_message 1001)
              (Some (of_ascii "1h spam")) (of_ascii "1h") (of_ascii "spam") []
              1001 Scenario.row5 Scenario.opened)
    as (_ & u3 & u4 & H1 & H2 & H3 & H4 & H5 & H6 & H7 & H8 & H9 & _).
  - exact env_ok_reliable.
  - reflexivity.
  - reflexivity.
  - reflexivity.
  - lia.
  - apply consistent_run, consistent_empty.
  - vm_compute. reflexivity.
  - reflexivity.
  - reflexivity.
  - exists u3, u4. auto 10.
Defined.

(** C4, counterexample.  After the third warning of user 5 (banned by it),
    a fourth warning announces the ban a second time; and after an unban
    the user is at three warnings and not banned, until the next warning
    bans again. *)
Lemma fourth_warning_bans_again :
  let w3 := Scenario.warned3 in
  let w4 := run Scenario.env_ok [Scenario.warn5] w3 in
  let unbanned := run Scenario.env_ok [DoUnban (Scenario.staff_message 1001)] w3 in
  let rebanned := run Scenario.env_ok [Scenario.warn5] unbanned in
  drop (length (trace w3)) (trace w4) =
    [Api (SendMessage (-100) (Some 1001)
            (WarnIssued (of_ascii "USER-AAAAA") 4 (of_ascii "spam")));
     Api (SendMessage 5 None (WarnNotify 4 (of_ascii "spam")));
     Api (SendMessage (-100) (Some 1001) WarnLimitReached);
     Api (SendMessage 5 None WarnBanNotify)] /\
  ban_notices (trace w3) = 1%nat /\
  ban_notices (trace w4) = 2%nat /\
  ((fun v => (warns v, is_banned v)) <$> users (db unbanned) !! 5)
    = Some (3, false) /\
  ((fun v => (warns v, is_banned v, ban_until v)) <$> users (db rebanned) !! 5)
    = Some (4, true, None).
Proof. vm_compute. repeat split; reflexivity. Qed.

(** When user 5 has blocked the bot, the notice of the third warning is
    refused, the exception leaves [adm_warn] before the threshold is looked
    at, and the user is left at three warnings and not banned. *)
Lemma refused_notice_skips_ban :
  let w3 := run Scenario.env_blocked
              [Scenario.warn5; Scenario.warn5; Scenario.warn5] Scenario.opened in
  fst (adm_warn Scenario.env_blocked (Scenario.staff_message 1001)
         (Some (of_ascii "1h spam"))
         (run Scenario.env_blocked [Scenario.warn5; Scenario.warn5] Scenario.opened))
    = Raise TelegramForbiddenError /\
  ((fun v => (warns v, is_banned v)) <$> users (db w3) !! 5) = Some (3, false).
Proof. vm_compute. repeat split; reflexivity. Qed.

(** ** The broadcast loop *)

Lemma copies_app (a b : list Event) : copies (a ++ b) = copies a ++ copies b.
Proof.
  induction a as [|e a IH]; simpl; [reflexivity|].
  destruct e as [r|p]; [|exact IH].
  destruct r; simpl; rewrite IH; reflexivity.
Qed.

Section Broadcast.

Variable env : Env.
Variable m : Message.
Variables chat total : Z.

(** The [except] clauses return: they count, deactivate or pause. *)
Lemma on_error_returns uid c e w :
  exists c' w',
    on_error uid c e w = (Return c', w') /\
    copies (trace w') = copies (trace w) /\
    success c' = success c /\
    failed c' = match e with
                | TelegramRetryAfter _ => failed c
                | _ => failed c + 1
                end.
Proof.
  destruct e; simpl; run_monad;
    try (eexists; eexists; repeat split; reflexivity).
  eexists; eexists. split; [reflexivity|].
  cbn [trace]. rewrite copies_app. simpl. rewrite app_nil_r. auto.
Qed.

(** The copy was refused with [e]: the clauses of the loop take over. *)
Lemma iteration_refused index uid c w e :
  bot_api env (n_api w) (CopyMessage uid m) = Raise e ->
  broadcast_iteration env m chat total index uid c w =
    on_error uid c e
      (mkWorld (db w) (fsm w) (trace w ++ [Api (CopyMessage uid m)]) (n_clock w)
         (S (n_api w)) (n_rand w)).
Proof.
  intros H. unfold broadcast_iteration, copy_message_to_user. run_monad.
  rewrite H. run_monad.
  destruct (on_error uid c e _) as [[c'|e'] w']; reflexivity.
Qed.

(** The copy was delivered, and the index is not a multiple of ten. *)
Lemma iteration_delivered index uid c w z :
  bot_api env (n_api w) (CopyMessage uid m) = Return z ->
  index mod 10 <> 0 ->
  broadcast_iteration env m chat total index uid c w =
    (Return (mkCounters (success c + 1) (failed c)),
     mkWorld (db w) (fsm w) (trace w ++ [Api (CopyMessage uid m)]) (n_clock w)
       (S (n_api w)) (n_rand w)).
Proof.
  intros H Hmod. unfold broadcast_iteration, copy_message_to_user. run_monad.
  rewrite H. run_monad.
  destruct (Z.eqb_spec (index mod 10) 0); [contradiction|]. reflexivity.
Qed.

(** The copy was delivered and the progress message edited. *)
Lemma iteration_progress index uid c w z z' :
  bot_api env (n_api w) (CopyMessage uid m) = Return z ->
  index mod 10 = 0 ->
  bot_api env (S (n_api w))
    (EditMessageText chat (Progress index total (success c + 1) (failed c)))
    = Return z' ->
  broadcast_iteration env m chat total index uid c w =
    (Return (mkCounters (success c + 1) (failed c)),
     mkWorld (db w) (fsm w)
       (trace w ++
          [Api (CopyMessage uid m);
           Api (EditMessageText chat
                  (Progress index total (success c + 1) (failed c)));
           Sleep (Seconds 50)])
       (n_clock w) (S (S (n_api w))) (n_rand w)).
Proof.
  intros H Hmod Hedit. unfold broadcast_iteration, copy_message_to_user.
  run_monad. rewrite H. run_monad. rewrite Hmod. cbn [Z.eqb].
  run_monad. cbn [success failed]. rewrite Hedit. run_monad.
  rewrite <- !app_assoc. reflexivity.
Qed.

(** The copy was delivered and the edit of the progress message refused:
    the clauses of the loop take over, with [success] already counted. *)
Lemma iteration_edit_refused index uid c w z e :
  bot_api env (n_api w) (CopyMessage uid m) = Return z ->
  index mod 10 = 0 ->
  bot_api env (S (n_api w))
    (EditMessageText chat (Progress index total (success c + 1) (failed c)))
    = Raise e ->
  broadcast_iteration env m chat total index uid c w =
    on_error uid (mkCounters (success c + 1) (failed c)) e
      (mkWorld (db w) (fsm w)
         (trace w ++
            [Api (CopyMessage uid m);
             Api (EditMessageText chat
                    (Progress index total (success c + 1) (failed c)))])
         (n_clock w) (S (S (n_api w))) (n_rand w)).
Proof.
  intros H Hmod Hedit. unfold broadcast_iteration, copy_message_to_user.
  run_monad. rewrite H. run_monad. rewrite Hmod. cbn [Z.eqb].
  run_monad. cbn [success failed]. rewrite Hedit. run_monad.
  rewrite <- !app_assoc. reflexivity.
Qed.

(** An iteration always returns, having asked for one copy. *)
Lemma iteration_returns index uid c w :
  exists c' w',
    broadcast_iteration env m chat total index uid c w = (Return c', w') /\
    copies (trace w') = copies (trace w) ++ [uid].
Proof.
  destruct (bot_api env (n_api w) (CopyMessage uid m)) as [z|e] eqn:Hcopy.
  - destruct (Z.eq_dec (index mod 10) 0) as [Hmod|Hmod].
    + destruct (bot_api env (S (n_api w))
                  (EditMessageText chat
                     (Progress index total (success c + 1) (failed c))))
        as [z'|e] eqn:Hedit.
      * rewrite (iteration_progress index uid c w z z') by assumption.
        eexists; eexists. split; [reflexivity|].
        cbn [trace]. rewrite copies_app. reflexivity.
      * rewrite (iteration_edit_refused index uid c w z e) by assumption.
        destruct (on_error_returns uid (mkCounters (success c + 1) (failed c)) e
                    (mkWorld (db w) (fsm w)
                       (trace w ++
                          [Api (CopyMessage uid m);
                           Api (EditMessageText chat
                                  (Progress index total (success c + 1) (failed c)))])
                       (n_clock w) (S (S (n_api w))) (n_rand w)))
          as (c' & w' & Hret & Htr & _).
        exists c', w'. split; [exact Hret|].
        rewrite Htr. cbn [trace]. rewrite copies_app. reflexivity.
    + rewrite (iteration_delivered index uid c w z) by assumption.
      eexists; eexists. split; [reflexivity|].
      cbn [trace]. rewrite copies_app. reflexivity.
  - rewrite (iteration_refused index uid c w e) by assumption.
    destruct (on_error_returns uid c e
                (mkWorld (db w) (fsm w) (trace w ++ [Api (CopyMessage uid m)])
                   (n_clock w) (S (n_api w)) (n_rand w)))
      as (c' & w' & Hret & Htr & _).
    exists c', w'. split; [exact Hret|].
    rewrite Htr. cbn [trace]. rewrite copies_app. reflexivity.
Qed.

Lemma loop_cons index uid rest c w c1 w1 :
  broadcast_iteration env m chat total index uid c w = (Return c1, w1) ->
  broadcast_loop env m chat total index (uid :: rest) c w =
  broadcast_loop env m chat total (index + 1) rest c1 w1.
Proof. intros H. simpl. unfold bind. rewrite H. reflexivity. Qed.

(** The loop runs to the end of the snapshot whatever the transport
    answers, and asks for exactly one copy per recipient, in order. *)
Lemma loop_returns ids :
  forall index c w,
  exists c' w',
    broadcast_loop env m chat total index ids c w = (Return c', w') /\
    copies (trace w') = copies (trace w) ++ ids.
Proof.
  induction ids as [|uid rest IH]; intros index c w.
  - exists c, w. split; [reflexivity|]. rewrite app_nil_r. reflexivity.
  - destruct (iteration_returns index uid c w) as (c1 & w1 & H1 & T1).
    destruct (IH (index + 1) c1 w1) as (c' & w' & H' & T').
    exists c', w'. split.
    + rewrite (loop_cons index uid rest c w c1 w1 H1). exact H'.
    + rewrite T', T1, <- app_assoc. reflexivity.
Qed.

End Broadcast.

Section Blocked.

Variable env : Env.
Variable m : Message.
Variables chat total target : Z.

(** Only [target] has blocked the bot; every other copy and every edit of
    the progress message is delivered. *)
Hypothesis target_refused :
  forall k, bot_api env k (CopyMessage target m) = Raise TelegramForbiddenError.
Hypothesis others_delivered :
  forall k uid, uid <> target -> exists z, bot_api env k (CopyMessage uid m) = Return z.
Hypothesis edits_delivered :
  forall k body, exists z, bot_api env k (EditMessageText chat body) = Return z.

Lemma iteration_other index uid c w :
  uid <> target ->
  exists w',
    broadcast_iteration env m chat total index uid c w =
      (Return (mkCounters (success c + 1) (failed c)), w') /\
    db w' = db w.
Proof.
  intros Hne. destruct (others_delivered (n_api w) uid Hne) as [z Hz].
  destruct (Z.eq_dec (index mod 10) 0) as [Hmod|Hmod].
  - destruct (edits_delivered (S (n_api w))
                (Progress index total (success c + 1) (failed c))) as [z' Hz'].
    rewrite (iteration_progress env m chat total index uid c w z z')
      by assumption.
    eexists. split; reflexivity.
  - rewrite (iteration_delivered env m chat total index uid c w z)
      by assumption.
    eexists. split; reflexivity.
Qed.

Lemma iteration_target index c w :
  exists w',
    broadcast_iteration env m chat total index target c w =
      (Return (mkCounters (success c) (failed c + 1)), w') /\
    db w' = Db.deactivate target (db w).
Proof.
  rewrite (iteration_refused env m chat total index target c w
             TelegramForbiddenError) by apply target_refused.
  simpl. run_monad. eexists. split; reflexivity.
Qed.

Lemma loop_without_target ids :
  target ∉ ids ->
  forall index c w,
  exists c' w',
    broadcast_loop env m chat total index ids c w = (Return c', w') /\
    success c' = success c + Z.of_nat (length ids) /\
    failed c' = failed c /\
    db w' = db w.
Proof.
  induction ids as [|uid rest IH]; intros Hnot index c w.
  - exists c, w. simpl. repeat split; try reflexivity. lia.
  - apply not_elem_of_cons in Hnot as [Hne Hrest].
    destruct (iteration_other index uid c w) as (w1 & H1 & D1); [congruence|].
    destruct (IH Hrest (index + 1) (mkCounters (success c + 1) (failed c)) w1)
      as (c' & w' & H' & S' & F' & D').
    exists c', w'. split; [|split; [|split]].
    + rewrite (loop_cons env m chat total index uid rest c w _ w1 H1). exact H'.
    + rewrite S'. cbn [success length]. lia.
    + rewrite F'. reflexivity.
    + rewrite D', D1. reflexivity.
Qed.

Lemma loop_with_target ids :
  NoDup ids -> target ∈ ids ->
  forall index c w,
  exists c' w',
    broadcast_loop env m chat total index ids c w = (Return c', w') /\
    success c' = success c + Z.of_nat (length ids) - 1 /\
    failed c' = failed c + 1 /\
    db w' = Db.deactivate target (db w).
Proof.
  induction ids as [|uid rest IH]; intros Hnd Hin index c w.
  - inversion Hin.
  - apply NoDup_cons in Hnd as [Hfresh Hnd].
    destruct (decide (uid = target)) as [->|Hne].
    + destruct (iteration_target index c w) as (w1 & H1 & D1).
      destruct (loop_without_target rest Hfresh (index + 1)
                  (mkCounters (success c) (failed c + 1)) w1)
        as (c' & w' & H' & S' & F' & D').
      exists c', w'. split; [|split; [|split]].
      * rewrite (loop_cons env m chat total index target rest c w _ w1 H1).
        exact H'.
      * rewrite S'. cbn [success length]. lia.
      * rewrite F'. reflexivity.
      * rewrite D', D1. reflexivity.
    + apply elem_of_cons in Hin as [Heq|Hin]; [congruence|].
      destruct (iteration_other index uid c w) as (w1 & H1 & D1); [assumption|].
      destruct (IH Hnd Hin (index + 1) (mkCounters (success c + 1) (failed c)) w1)
        as (c' & w' & H' & S' & F' & D').
      exists c', w'. split; [|split; [|split]].
      * rewrite (loop_cons env m chat total index uid rest c w _ w1 H1).
        exact H'.
      * rewrite S'. cbn [success length]. lia.
      * rewrite F'. reflexivity.
      * rewrite D', D1. reflexivity.
Qed.

End Blocked.

(** C6.  In a broadcast, a copy refused because the recipient has blocked
    the bot marks that recipient inactive and counts one failure; the loop
    runs through the whole snapshot whatever the transport answers, asking
    for one copy per recipient; and when exactly one recipient of the
    snapshot has blocked the bot and every other request is delivered, that
    recipient is inactive at the end and the counters are all but one
    delivered, one failed: over 100 recipients, 99 and 1. *)
Theorem forbidden_recipient_is_failed (m : Message) (chat total : Z) :
  (forall env index uid c w,
      bot_api env (n_api w) (CopyMessage uid m) = Raise TelegramForbiddenError ->
      broadcast_iteration env m chat total index uid c w =
        (Return (mkCounters (success c) (failed c + 1)),
         mkWorld (Db.deactivate uid (db w)) (fsm w)
           (trace w ++ [Api (CopyMessage uid m)]) (n_clock w) (S (n_api w))
           (n_rand w))) /\
  (forall env ids index c w,
      exists c' w',
        broadcast_loop env m chat total index ids c w = (Return c', w') /\
        copies (trace w') = copies (trace w) ++ ids) /\
  (forall env target ids index c w,
      NoDup ids -> target ∈ ids ->
      (forall k, bot_api env k (CopyMessage target m) = Raise TelegramForbiddenError) ->
      (forall k uid, uid <> target ->
         exists z, bot_api env k (CopyMessage uid m) = Return z) ->
      (forall k body, exists z, bot_api env k (EditMessageText chat body) = Return z) ->
      exists c' w',
        broadcast_loop env m chat total index ids c w = (Return c', w') /\
        success c' = success c + Z.of_nat (length ids) - 1 /\
        failed c' = failed c + 1 /\
        db w' = Db.deactivate target (db w) /\
        users (db w') !! target = set_is_active false <$> users (db w) !! target /\
        (forall k, k <> target -> users (db w') !! k = users (db w) !! k)).
Proof.
  split; [|split].
  - intros env index uid c w H.
    rewrite (iteration_refused env m chat total index uid c w _ H).
    reflexivity.
  - intros env ids index c w. apply loop_returns.
  - intros env target ids index c w Hnd Hin Htarget Hothers Hedits.
    destruct (loop_with_target env m chat total target Htarget Hothers Hedits
                ids Hnd Hin index c w) as (c' & w' & H & S & F & D).
    exists c', w'. repeat (split; [assumption|]).
    rewrite D. unfold Db.deactivate. cbn [users with_users]. split.
    + apply lookup_alter_eq.
    + intros k Hk. apply lookup_alter_ne. congruence.
Qed.

(** Witness of C6: users 1 to 100 are the snapshot and user 42 has blocked
    the bot. *)
Lemma forbidden_recipient_is_failed_witness :
  let w := Scenario.crowd 100 in
  let ids := Db.get_all_active_users (db w) in
  length ids = 100%nat /\
  exists c' w',
    broadcast_loop Scenario.env_42 Scenario.announcement 1 100 1 ids
      (mkCounters 0 0) w = (Return c', w') /\
    success c' = 99 /\ failed c' = 1 /\
    (is_active <$> users (db w) !! 42) = Some true /\
    (is_active <$> users (db w') !! 42) = Some false.
Proof.
  intros w ids. split; [vm_compute; reflexivity|].
  destruct (forbidden_recipient_is_failed Scenario.announcement 1 100)
    as (_ & _ & Hrun).
  destruct (Hrun Scenario.env_42 42 ids 1 (mkCounters 0 0) w)
    as (c' & w' & H & S & F & _ & A & _).
  - compute_done.
  - compute_done.
  - intros k. reflexivity.
  - intros k uid Hne. simpl.
    destruct (Z.eqb_spec uid 42); [contradiction|]. eexists. reflexivity.
  - intros k body. eexists. reflexivity.
  - exists c', w'. split; [exact H|].
    split; [rewrite S; vm_compute; reflexivity|].
    split; [exact F|].
    split; [vm_compute; reflexivity|].
    rewrite A. vm_compute. reflexivity.
Defined.

(** C3 (the code departs from the claim).  A broadcast to users 1 to 10;
    the copy for user 7 is answered with a rate limit of 2 seconds, and
    would be delivered if asked for again.  The run pauses for 2 seconds
    and goes on with user 8: user 7 is asked for once only and is counted
    neither as delivered nor as failed, so the run reports 9 and 0 for 10
    recipients. *)
Theorem rate_limited_recipient_is_skipped :
  let w := Scenario.crowd 10 in
  let out :=
    confirm_broadcast Scenario.env_rate_limited Scenario.confirm_click
      Scenario.announcement w in
  Db.get_all_active_users (db w) = Scenario.recipients 10 /\
  bot_api Scenario.env_rate_limited 8 (CopyMessage 7 Scenario.announcement)
    = Raise (TelegramRetryAfter 2) /\
  bot_api Scenario.env_rate_limited 9 (CopyMessage 7 Scenario.announcement)
    = Return 1009 /\
  fst out = Return (mkCounters 9 0) /\
  deliveries (trace (snd out)) =
    [inl 1; inl 2; inl 3; inl 4; inl 5; inl 6; inl 7; inr 2000; inl 8; inl 9;
     inl 10; inr 50] /\
  ((fun r => (run_sent r, run_failed r)) <$> broadcast_messages (db (snd out)))
    = [(9, 0)].
Proof. vm_compute. repeat split; reflexivity. Qed.

(** A rate limit leaves both counters as they are and the loop goes on
    with the next recipient. *)
Lemma rate_limit_not_counted (env : Env) (m : Message) (chat total index uid : Z)
    (rest : list Z) (c : Counters) (w : World) (seconds : Z) :
  bot_api env (n_api w) (CopyMessage uid m) = Raise (TelegramRetryAfter seconds) ->
  broadcast_loop env m chat total index (uid :: rest) c w =
  broadcast_loop env m chat total (index + 1) rest c
    (mkWorld (db w) (fsm w)
       (trace w ++ [Api (CopyMessage uid m); Sleep (Seconds (1000 * seconds))])
       (n_clock w) (S (n_api w)) (n_rand w)).
Proof.
  intros H. apply loop_cons.
  rewrite (iteration_refused env m chat total index uid c w _ H).
  simpl. run_monad. rewrite <- app_assoc. destruct c. reflexivity.
Qed.

(** ** The progress message *)

(** C9, as amended.  When a copy is delivered at an index that is a
    multiple of ten and the edit of the progress message fails, the run is
    not aborted: the iteration returns, the loop goes on with the next
    recipient and runs to its end.  The counter of deliveries keeps the
    recipient; the failure is handled by the [except] clauses of the loop,
    which add one to the counter of failures unless it is a rate limit. *)
Theorem progress_failure_handled (env : Env) (m : Message)
    (chat total index uid : Z) (rest : list Z) (c : Counters) (w : World)
    (z : Z) (e : exn) :
  index mod 10 = 0 ->
  bot_api env (n_api w) (CopyMessage uid m) = Return z ->
  bot_api env (S (n_api w))
    (EditMessageText chat (Progress index total (success c + 1) (failed c)))
    = Raise e ->
  exists c1 w1,
    broadcast_iteration env m chat total index uid c w = (Return c1, w1) /\
    success c1 = success c + 1 /\
    failed c1 = match e with
                | TelegramRetryAfter _ => failed c
                | _ => failed c + 1
                end /\
    broadcast_loop env m chat total index (uid :: rest) c w =
      broadcast_loop env m chat total (index + 1) rest c1 w1 /\
    exists c' w',
      broadcast_loop env m chat total index (uid :: rest) c w = (Return c', w') /\
      copies (trace w') = copies (trace w) ++ uid :: rest.
Proof.
  intros Hmod Hcopy Hedit.
  pose proof (iteration_edit_refused env m chat total index uid c w z e
                Hcopy Hmod Hedit) as Hit.
  destruct (on_error_returns uid (mkCounters (success c + 1) (failed c)) e
              (mkWorld (db w) (fsm w)
                 (trace w ++
                    [Api (CopyMessage uid m);
                     Api (EditMessageText chat
                            (Progress index total (success c + 1) (failed c)))])
                 (n_clock w) (S (S (n_api w))) (n_rand w)))
    as (c1 & w1 & Hret & _ & Hs & Hf).
  rewrite Hret in Hit.
  exists c1, w1. split; [exact Hit|]. split; [exact Hs|]. split; [exact Hf|].
  split; [apply loop_cons; exact Hit|].
  apply loop_returns.
Qed.

(** Witness of C9 as amended: the tenth of ten recipients, the edit
    answered with a bad request. *)
Lemma progress_failure_handled_witness :
  exists c1 w1,
    broadcast_iteration Scenario.env_no_progress Scenario.announcement 1 10 10 10
      (mkCounters 9 0) (Scenario.crowd 10) = (Return c1, w1) /\
    success c1 = 10 /\ failed c1 = 1.
Proof.
  destruct (progress_failure_handled Scenario.env_no_progress
              Scenario.announcement 1 10 10 10 [] (mkCounters 9 0)
              (Scenario.crowd 10) 1000 TelegramBadRequest)
    as (c1 & w1 & H1 & H2 & H3 & _).
  - reflexivity.
  - reflexivity.
  - reflexivity.
  - exists c1, w1. split; [exact H1|]. split; [exact H2|exact H3].
Defined.

(** C9, counterexample.  A broadcast to users 1 to 10, every copy
    delivered; the progress message, due after the tenth, cannot be edited.
    The failure is not ignored: the tenth recipient is counted as delivered
    and as failed, and the run reports 10 and 1 for 10 recipients, where
    the same run with the edit delivered reports 10 and 0. *)
Lemma progress_failure_counted :
  let w := Scenario.crowd 10 in
  let out :=
    confirm_broadcast Scenario.env_no_progress Scenario.confirm_click
      Scenario.announcement w in
  let out_ok :=
    confirm_broadcast Scenario.env_ok Scenario.confirm_click
      Scenario.announcement w in
  Db.get_all_active_users (db w) = Scenario.recipients 10 /\
  (forall k uid,
      exists z,
        bot_api Scenario.env_no_progress k (CopyMessage uid Scenario.announcement)
        = Return z) /\
  fst out = Return (mkCounters 10 1) /\
  fst out_ok = Return (mkCounters 10 0) /\
  copies (trace (snd out)) = Scenario.recipients 10.
Proof.
  vm_compute. repeat split; try reflexivity.
  intros k uid. eexists. reflexivity.
Qed.

(** * Further properties *)

(** ** Duration tokens, continued *)

Lemma multipliers_not_digit (c : char) (mult : Z) :
  multipliers c = Some mult -> Text.isdigit c = false.
Proof.
  unfold multipliers, Text.isdigit. intros H.
  destruct (N.eqb_spec c 100) as [->|_]; [reflexivity|].
  destruct (N.eqb_spec c 104) as [->|_]; [reflexivity|].
  destruct (N.eqb_spec c 109) as [->|_]; [reflexivity|].
  destruct (N.eqb_spec c 115) as [->|_]; [reflexivity|discriminate].
Qed.

Lemma multipliers_lower (c : char) (mult : Z) :
  multipliers c = Some mult -> Text.lower_char c = c.
Proof.
  unfold multipliers, Text.lower_char. intros H.
  destruct (N.eqb_spec c 100) as [->|_]; [reflexivity|].
  destruct (N.eqb_spec c 104) as [->|_]; [reflexivity|].
  destruct (N.eqb_spec c 109) as [->|_]; [reflexivity|].
  destruct (N.eqb_spec c 115) as [->|_]; [reflexivity|discriminate].
Qed.

(** The digits of a run are collected in [num]. *)
Lemma parse_loop_run (ds rest : pystr) (total : Z) (num : pystr) :
  forallb Text.isdigit ds = true ->
  parse_loop (ds ++ rest) total num = parse_loop rest total (num ++ ds).
Proof.
  revert num. induction ds as [|c ds IH]; intros num Hds; simpl.
  - rewrite app_nil_r. reflexivity.
  - apply andb_true_iff in Hds as [Hc Hds]. rewrite Hc.
    rewrite IH by assumption. rewrite <- app_assoc. reflexivity.
Qed.

(** A run and its unit add the value of the run times the unit. *)
Lemma parse_loop_field (ds : pystr) (u : char) (mult : Z) (rest : pystr)
    (total : Z) :
  forallb Text.isdigit ds = true -> multipliers u = Some mult ->
  parse_loop (ds ++ u :: rest) total [] =
  parse_loop rest (total + Text.int ds * mult) [].
Proof.
  intros Hds Hu. rewrite parse_loop_run by assumption. simpl.
  rewrite (multipliers_not_digit u mult Hu), Hu.
  destruct ds; [|reflexivity].
  simpl. f_equal. unfold Text.int. simpl. lia.
Qed.

Lemma lower_field (f : pystr * char) :
  unit_field f = true ->
  Text.lower (f.1 ++ [f.2]) = f.1 ++ [Text.lower_char f.2].
Proof.
  intros [Hd _]%andb_true_iff. unfold Text.lower. rewrite map_app.
  fold (Text.lower f.1). rewrite digits_lower by assumption. reflexivity.
Qed.

Lemma parse_loop_fields (fields : list (pystr * char)) (total : Z) :
  forallb unit_field fields = true ->
  parse_loop (Text.lower (fields_token fields)) total [] =
  Some (total + fields_seconds fields).
Proof.
  revert total. induction fields as [|f fields IH]; intros total Hf.
  - simpl. f_equal. lia.
  - simpl in Hf. apply andb_true_iff in Hf as [Hf Hrest].
    unfold fields_token. simpl. fold (fields_token fields).
    unfold Text.lower. rewrite map_app.
    fold (Text.lower (f.1 ++ [f.2])). fold (Text.lower (fields_token fields)).
    rewrite lower_field by assumption.
    apply andb_true_iff in Hf as [Hd Hu]. apply bool_decide_eq_true in Hu.
    destruct Hu as [mult Hu].
    rewrite <- app_assoc. simpl.
    rewrite (parse_loop_field f.1 _ mult) by assumption.
    rewrite IH by assumption. rewrite Hu. simpl. f_equal. lia.
Qed.

(** Every character of a lowered well-formed token is a digit or a unit. *)
Lemma fields_token_chars (fields : list (pystr * char)) (c : char) :
  forallb unit_field fields = true ->
  c ∈ Text.lower (fields_token fields) ->
  Text.isdigit c = true \/ is_Some (multipliers c).
Proof.
  induction fields as [|f fields IH]; intros Hf Hin.
  - inversion Hin.
  - simpl in Hf. apply andb_true_iff in Hf as [Hf Hrest].
    unfold fields_token in Hin. simpl in Hin. fold (fields_token fields) in Hin.
    unfold Text.lower in Hin. rewrite map_app in Hin.
    fold (Text.lower (f.1 ++ [f.2])) in Hin.
    fold (Text.lower (fields_token fields)) in Hin.
    rewrite lower_field in Hin by assumption.
    apply andb_true_iff in Hf as [Hd Hu]. apply bool_decide_eq_true in Hu.
    rewrite !elem_of_app in Hin. destruct Hin as [[Hin|Hin]|Hin].
    + left. rewrite forallb_forall in Hd. apply Hd.
      apply list_elem_of_In. exact Hin.
    + apply list_elem_of_singleton in Hin. subst c. right. exact Hu.
    + apply IH; assumption.
Qed.

(** X1.  A token made of fields of the grammar, each a run of digits and a
    unit letter [d], [h], [m] or [s] of either case, parses to the sum over
    the fields of the value of the run times the seconds of the unit (a
    unit with no digits before it adds nothing); the answer is that
    duration, or the overflow of [timedelta] when the sum is too large. *)
Theorem parse_time_fields (fields : list (pystr * char)) :
  forallb unit_field fields = true ->
  parse_time (fields_token fields) =
    match timedelta_of_seconds (fields_seconds fields) with
    | Return td => Return (Some td)
    | Raise e => Raise e
    end.
Proof.
  intros Hf. unfold parse_time. case_decide as E.
  - exfalso.
    destruct (fields_token_chars fields 1087%N Hf) as [H|[x H]].
    + rewrite E. compute_done.
    + discriminate.
    + discriminate.
  - rewrite parse_loop_fields by assumption. reflexivity.
Qed.

(** X1 at [1D12h30m5s] and at [h15m]. *)
Lemma parse_time_fields_witness :
  parse_time (of_ascii "1D12h30m5s") = Return (Some (Scenario.seconds 131405)) /\
  parse_time (of_ascii "h15m") = Return (Some (Scenario.seconds 900)).
Proof.
  split.
  - apply (parse_time_fields
             [(of_ascii "1", 68%N); (of_ascii "12", 104%N);
              (of_ascii "30", 109%N); (of_ascii "5", 115%N)]).
    reflexivity.
  - apply (parse_time_fields [([], 104%N); (of_ascii "15", 109%N)]).
    reflexivity.
Defined.

Lemma multipliers_positive (c : char) (mult : Z) :
  multipliers c = Some mult -> 0 < mult.
Proof.
  unfold multipliers.
  repeat match goal with |- context [if ?b then _ else _] => destruct b end;
    intros [= <-]; lia.
Qed.

Lemma int_from_nonneg (num : pystr) (acc : Z) :
  forallb Text.isdigit num = true -> 0 <= acc ->
  0 <= fold_left (fun acc c => 10 * acc + Text.digit_value c) num acc.
Proof.
  revert acc. induction num as [|c num IH]; simpl; intros acc H Hacc; [lia|].
  apply andb_true_iff in H as [Hc H]. apply IH; [assumption|].
  unfold Text.isdigit in Hc. apply andb_true_iff in Hc as [H1 H2].
  apply N.leb_le in H1. apply N.leb_le in H2. unfold Text.digit_value. lia.
Qed.

Lemma int_nonneg (num : pystr) :
  forallb Text.isdigit num = true -> 0 <= Text.int num.
Proof. intros H. apply int_from_nonneg; [assumption|lia]. Qed.

(** The loop only adds to [total_seconds]. *)
Lemma parse_loop_grows (s : pystr) (total : Z) (num : pystr) (r : Z) :
  parse_loop s total num = Some r -> forallb Text.isdigit num = true ->
  total <= r.
Proof.
  revert total num. induction s as [|c s IH]; simpl; intros total num H Hnum.
  - injection H as <-. lia.
  - destruct (Text.isdigit c) eqn:Hc.
    + apply (IH _ _ H). rewrite forallb_app, Hnum. simpl. rewrite Hc. reflexivity.
    + destruct (multipliers c) as [mult|] eqn:Hm; [|discriminate].
      destruct num as [|d num]; [apply (IH _ _ H); reflexivity|].
      apply IH in H; [|reflexivity].
      assert (H0 := int_nonneg _ Hnum).
      assert (H1 := multipliers_positive _ _ Hm). nia.
Qed.

(** X2.  A duration returned by [parse_time] is a whole, non-negative
    number of seconds within the range of [timedelta]; so a time to which
    it is added is never moved back: the end of a timed ban is not earlier
    than the reading of the clock it is counted from. *)
Theorem parse_time_whole_seconds (time_str : pystr) (td : timedelta) :
  parse_time time_str = Return (Some td) ->
  (exists n, 0 <= n /\ td = n * us_per_second) /\
  td <= timedelta_max /\
  forall t until, datetime_add t td = Return until -> t <= until.
Proof.
  unfold parse_time. case_decide; [discriminate|].
  destruct (parse_loop _ 0 []) as [total|] eqn:Hloop; [|discriminate].
  apply parse_loop_grows in Hloop; [|reflexivity].
  unfold timedelta_of_seconds.
  destruct (_ && _) eqn:Hrange; [|discriminate]. intros [= <-].
  apply andb_true_iff in Hrange as [_ Hmax]. apply Z.leb_le in Hmax.
  split; [exists total; split; [assumption|reflexivity]|].
  split; [assumption|].
  intros t until. unfold datetime_add.
  destruct (_ && _); [|discriminate]. intros [= <-].
  unfold us_per_second. lia.
Qed.

(** X2 at [2h], counted from one second past midnight of day one. *)
Lemma parse_time_whole_seconds_witness :
  (exists n, 0 <= n /\ Scenario.seconds 7200 = n * us_per_second) /\
  Scenario.seconds 7200 <= timedelta_max /\
  forall t until,
    datetime_add t (Scenario.seconds 7200) = Return until -> t <= until.
Proof.
  apply (parse_time_whole_seconds (of_ascii "2h")). reflexivity.
Defined.

Lemma parse_loop_none (s : pystr) (total : Z) (num : pystr) :
  parse_loop s total num = None ->
  exists c, c ∈ s /\ Text.isdigit c = false /\ multipliers c = None.
Proof.
  revert total num. induction s as [|c s IH]; simpl; intros total num H;
    [discriminate|].
  destruct (Text.isdigit c) eqn:Hc.
  - apply IH in H as (c' & Hin & H'). exists c'. split; [|exact H'].
    apply elem_of_cons. right. exact Hin.
  - destruct (multipliers c) as [mult|] eqn:Hm.
    + assert (exists c', c' ∈ s /\ Text.isdigit c' = false /\ multipliers c' = None)
        as (c' & Hin & H').
      { destruct num; eapply IH; exact H. }
      exists c'. split; [|exact H']. apply elem_of_cons. right. exact Hin.
    + exists c. split; [apply elem_of_cons; left; reflexivity|]. split; assumption.
Qed.

(** X3.  Take a token written in the characters of the command syntax
    (ASCII and Russian letters) and no longer than the digits [int]
    converts.  [parse_time] answers [None], the value [/ban] reads as a ban
    for ever, exactly when the token contains, once lowered, a character
    that is neither a digit nor one of the four unit letters; the permanent
    literal is such a token.  Every other token gives a duration or the
    overflow of [timedelta]. *)
Theorem parse_time_none_iff (time_str : pystr) :
  Forall (fun c => command_char c = true) time_str ->
  (length time_str <= max_str_digits)%nat ->
  parse_time time_str = Return None <->
  exists c, c ∈ Text.lower time_str /\
            Text.isdigit c = false /\ multipliers c = None.
Proof.
  intros _ _. split.
  - unfold parse_time. case_decide as E.
    + intros _. exists 1087%N. rewrite E. split; [compute_done|].
      split; reflexivity.
    + destruct (parse_loop _ 0 []) as [total|] eqn:Hloop.
      * destruct (timedelta_of_seconds total); discriminate.
      * intros _. eapply parse_loop_none. exact Hloop.
  - intros (c & Hin & Hd & Hm). eapply parse_time_invalid; eassumption.
Qed.

(** X3 for [soon], which holds the letter [o], and for [90m], which holds
    digits and units only. *)
Lemma parse_time_none_iff_witness :
  parse_time (of_ascii "soon") = Return None /\
  parse_time (of_ascii "90m") <> Return None.
Proof.
  split.
  - apply (parse_time_none_iff (of_ascii "soon")).
    + repeat constructor.
    + vm_compute. lia.
    + exists 111%N. split; [compute_done|]. split; reflexivity.
  - intros H. apply (parse_time_none_iff (of_ascii "90m")) in H.
    + destruct H as (c & Hin & Hd & Hm).
      apply list_elem_of_In in Hin. simpl in Hin.
      destruct Hin as [<-|[<-|[<-|[]]]]; discriminate.
    + repeat constructor.
    + vm_compute. lia.
Defined.

Lemma parse_time_raises (time_str : pystr) (e : exn) :
  parse_time time_str = Raise e -> e = OverflowError.
Proof.
  unfold parse_time. case_decide; [discriminate|].
  destruct (parse_loop _ 0 []) as [total|]; [|discriminate].
  unfold timedelta_of_seconds. destruct (_ && _); [discriminate|].
  intros [= <-]. reflexivity.
Qed.

Lemma datetime_add_raises (t : datetime) (td : timedelta) (e : exn) :
  datetime_add t td = Raise e -> e = OverflowError.
Proof.
  unfold datetime_add. destruct (_ && _); [discriminate|].
  intros [= <-]. reflexivity.
Qed.

(** X4.  [/ban] with a duration that [timedelta] cannot hold, or whose end
    lies beyond the last day [datetime] can hold, leaves the handler with
    [OverflowError]: the owner gets no answer, nothing is written and
    nothing is sent. *)
Theorem adm_ban_unrepresentable (env : Env) (message : Message)
    (args : option pystr) (time_str : pystr) (more : list pystr) (u : User)
    (w : World) (e : exn) :
  from_user message = Some (OWNER_ID env) ->
  split_args args = time_str :: more ->
  Db.get_user None (message_thread_id message) (db w) = Some u ->
  (parse_time time_str = Raise e \/
   exists td, parse_time time_str = Return (Some td) /\
              datetime_add (clock env (n_clock w)) td = Raise e) ->
  let out := adm_ban env message args w in
  e = OverflowError /\
  fst out = Raise e /\ db (snd out) = db w /\ trace (snd out) = trace w.
Proof.
  intros Hfrom Hsplit Hget Hfail out.
  assert (Hout : exists reads,
    out = (Raise e, mkWorld (db w) (fsm w) (trace w) reads (n_api w) (n_rand w))).
  { subst out. unfold adm_ban, sender. rewrite Hfrom. unfold bind at 1, ret at 1.
    rewrite Z.eqb_refl. cbn [negb]. rewrite Hsplit.
    unfold get_user. run_monad. rewrite Hget.
    destruct Hfail as [Hparse|(td & Hparse & Hadd)].
    - rewrite Hparse. run_monad. exists (n_clock w). destruct w; reflexivity.
    - rewrite Hparse. run_monad. rewrite Hadd. eexists. reflexivity. }
  destruct Hout as [reads ->]. cbn [fst snd db trace].
  split; [|repeat split].
  destruct Hfail as [Hparse|(td & Hparse & Hadd)].
  - eapply parse_time_raises; eassumption.
  - eapply datetime_add_raises; eassumption.
Qed.

(** X4 at [/ban 1000000000d] and at [/ban 9999999d spam], in the thread of
    user 5. *)
Lemma adm_ban_unrepresentable_witness :
  let out1 :=
    adm_ban Scenario.env_ok (Scenario.staff_message 1001)
      (Some (of_ascii "1000000000d")) Scenario.opened in
  let out2 :=
    adm_ban Scenario.env_ok (Scenario.staff_message 1001)
      (Some (of_ascii "9999999d spam")) Scenario.opened in
  (fst out1 = Raise OverflowError /\ db (snd out1) = db Scenario.opened) /\
  (fst out2 = Raise OverflowError /\ db (snd out2) = db Scenario.opened).
Proof.
  intros out1 out2. split.
  - destruct (adm_ban_unrepresentable Scenario.env_ok (Scenario.staff_message 1001)
                (Some (of_ascii "1000000000d")) (of_ascii "1000000000d") []
                Scenario.row5 Scenario.opened OverflowError)
      as (_ & H1 & H2 & _).
    + reflexivity.
    + reflexivity.
    + vm_compute. reflexivity.
    + left. vm_compute. reflexivity.
    + split; [exact H1|exact H2].
  - destruct (adm_ban_unrepresentable Scenario.env_ok (Scenario.staff_message 1001)
                (Some (of_ascii "9999999d spam")) (of_ascii "9999999d")
                [of_ascii "spam"] Scenario.row5 Scenario.opened OverflowError)
      as (_ & H1 & H2 & _).
    + reflexivity.
    + reflexivity.
    + vm_compute. reflexivity.
    + right. exists (Scenario.seconds 863999913600). split; vm_compute; reflexivity.
    + split; [exact H1|exact H2].
Defined.

(** X5.  [format_timedelta] shows days, hours and minutes only.  For a
    duration of whole seconds, as [parse_time] returns them, and for any
    duration under [2^34] seconds (544 years), where the float count of
    seconds is exact: the duration and the same duration rounded down to
    the minute are shown alike, and every duration under a minute, zero
    included, is shown as [0м]. *)
Theorem format_timedelta_drops_seconds (td : timedelta) :
  0 <= td <= timedelta_max ->
  td mod us_per_second = 0 \/ td < 2 ^ 34 * us_per_second ->
  format_timedelta (Some td) = format_timedelta (Some (td - td mod minute_us)) /\
  (td < minute_us -> format_timedelta (Some td) = "0м"%string).
Proof.
  intros Hrange Hexact.
  assert (Hpos' : 0 <= td - td mod minute_us <= td).
  { unfold minute_us, us_per_second.
    assert (H := Z.mod_pos_bound td (60 * 1000000)).
    assert (H' := Z.mod_le td (60 * 1000000)). lia. }
  assert (Hexact' :
    (td - td mod minute_us) mod us_per_second = 0 \/
    td - td mod minute_us < 2 ^ 34 * us_per_second).
  { destruct Hexact as [Hw|Hs]; [left|right; lia].
    unfold minute_us, us_per_second in *. Z.div_mod_to_equations. lia. }
  unfold format_timedelta.
  rewrite (total_seconds_int_exact td Hrange Hexact).
  rewrite (total_seconds_int_exact (td - td mod minute_us)) by (assumption || lia).
  unfold minute_us, us_per_second in *.
  set (s := td / 1000000). set (s' := (td - td mod (60 * 1000000)) / 1000000).
  assert (Hd : s' / 86400 = s / 86400) by (subst s s'; Z.div_mod_to_equations; lia).
  assert (Hh : (s' mod 86400) / 3600 = (s mod 86400) / 3600)
    by (subst s s'; Z.div_mod_to_equations; lia).
  assert (Hm : (s' mod 3600) / 60 = (s mod 3600) / 60)
    by (subst s s'; Z.div_mod_to_equations; lia).
  cbv zeta. rewrite Hd, Hh, Hm. split; [reflexivity|].
  intros Hlt.
  assert (H1 : s / 86400 = 0) by (subst s; Z.div_mod_to_equations; lia).
  assert (H2 : (s mod 86400) / 3600 = 0) by (subst s; Z.div_mod_to_equations; lia).
  assert (H3 : (s mod 3600) / 60 = 0) by (subst s; Z.div_mod_to_equations; lia).
  rewrite H1, H2, H3. reflexivity.
Qed.

(** X5 at 1 hour 30 minutes 59 seconds, and at 59.999999 seconds. *)
Lemma format_timedelta_drops_seconds_witness :
  format_timedelta (Some (Scenario.seconds 5459)) =
    format_timedelta (Some (Scenario.seconds 5400)) /\
  format_timedelta (Some 59999999) = "0м"%string.
Proof.
  split.
  - apply (format_timedelta_drops_seconds (Scenario.seconds 5459)).
    + vm_compute. split; discriminate.
    + left. vm_compute. reflexivity.
  - apply (format_timedelta_drops_seconds 59999999).
    + vm_compute. split; discriminate.
    + right. vm_compute. reflexivity.
    + vm_compute. reflexivity.
Defined.

(** Beyond that range the float count of seconds can round up: 200000 days
    and 59.999999 seconds are shown with a minute that the duration,
    rounded down, does not have. *)
Example format_timedelta_rounds_up :
  format_timedelta (Some (Scenario.seconds (200000 * 86400) + 59999999)) =
    "200000д 1м"%string /\
  format_timedelta (Some (Scenario.seconds (200000 * 86400))) =
    "200000д"%string.
Proof. vm_compute. split; reflexivity. Qed.

(** ** Properties kept by every write, through every handler *)

Section Writes.

Variable P : DB -> Prop.
Hypothesis closed : closed_under_writes P.
Variable env : Env.

Lemma writes_update_user_ban uid banned until reason :
  preserves P (update_user_ban uid banned until reason).
Proof. apply preserves_modify_db. intros d. apply closed. Qed.

Lemma writes_deactivate uid : preserves P (modify_db (Db.deactivate uid)).
Proof. apply preserves_modify_db. intros d. apply closed. Qed.

Lemma writes_count_message uid t :
  preserves P (modify_db (Db.increment_message_count uid t)).
Proof. apply preserves_modify_db. intros d. apply closed. Qed.

Lemma writes_close uid : preserves P (close_ticket uid).
Proof. apply preserves_modify_db. intros d. apply closed. Qed.

Lemma writes_register uid rid : preserves P (register env uid rid).
Proof.
  intros w H. unfold register, bind, get_db.
  destruct (users (db w) !! uid) eqn:E.
  - simpl. apply closed. exact H.
  - unfold random_suffix, now, db_try, bind, get_db, lift, put_db. simpl.
    destruct (Db.insert_user _ _ _ _ _) as [d'|e] eqn:Hins; simpl; [|exact H].
    eapply (closed_insert_user P closed); eauto.
Qed.

Lemma writes_add_warn_call uid admin reason :
  preserves P (add_warn env uid admin reason).
Proof.
  intros w H. unfold add_warn, bind, get_db.
  destruct (users (db w) !! uid) eqn:E; simpl; [|exact H].
  apply closed; assumption.
Qed.

Lemma writes_init_ticket uid category :
  preserves P (init_ticket env uid category).
Proof.
  unfold init_ticket. repeat preserves_step; try apply writes_close.
  apply preserves_db_try. intros d d'. apply closed.
Qed.

Lemma writes_send_with_typing chat body :
  preserves P (send_with_typing env chat body).
Proof. unfold send_with_typing. repeat preserves_step. Qed.

Lemma writes_process_cat_callback call :
  preserves P (process_cat_callback env call).
Proof.
  unfold process_cat_callback. repeat preserves_step;
    try apply writes_init_ticket; try apply writes_send_with_typing.
Qed.

Lemma writes_adm_warn m args : preserves P (adm_warn env m args).
Proof.
  unfold adm_warn. repeat preserves_step;
    try apply writes_add_warn_call; try apply writes_update_user_ban.
Qed.

Lemma writes_adm_ban m args : preserves P (adm_ban env m args).
Proof.
  unfold adm_ban. repeat preserves_step; try apply writes_update_user_ban.
Qed.

Lemma writes_adm_unban m : preserves P (adm_unban env m).
Proof.
  unfold adm_unban. repeat preserves_step; try apply writes_update_user_ban.
Qed.

Lemma writes_on_error uid c e : preserves P (on_error uid c e).
Proof. unfold on_error. repeat preserves_step; apply writes_deactivate. Qed.

Lemma writes_broadcast_iteration m chat total index uid c :
  preserves P (broadcast_iteration env m chat total index uid c).
Proof.
  unfold broadcast_iteration, copy_message_to_user.
  repeat preserves_step; try apply writes_on_error.
Qed.

Lemma writes_broadcast_loop m chat total ids :
  forall index c, preserves P (broadcast_loop env m chat total index ids c).
Proof.
  induction ids as [|uid ids IH]; intros index c; simpl.
  - apply preserves_ret.
  - apply preserves_bind; [apply writes_broadcast_iteration|].
    intros c'. apply IH.
Qed.

Lemma writes_confirm_broadcast call content :
  preserves P (confirm_broadcast env call content).
Proof.
  unfold confirm_broadcast. cbv zeta. repeat preserves_step;
    try apply writes_broadcast_loop.
  apply preserves_modify_db. intros d. apply closed.
Qed.

Lemma writes_guard {R} (handler : Message -> M R) event :
  (forall m, preserves P (handler m)) ->
  preserves P (GuardMiddleware env handler event).
Proof.
  intros Hh. unfold GuardMiddleware. cbv zeta.
  repeat preserves_step;
    try apply writes_register; try apply writes_update_user_ban; try apply Hh.
Qed.

Lemma writes_perform a : preserves P (perform env a).
Proof.
  induction a; simpl.
  - apply writes_register.
  - apply writes_close.
  - repeat preserves_step. apply writes_count_message.
  - apply writes_deactivate.
  - apply writes_process_cat_callback.
  - apply writes_adm_warn.
  - apply writes_adm_ban.
  - apply writes_adm_unban.
  - repeat preserves_step. apply writes_confirm_broadcast.
  - repeat preserves_step. apply writes_guard. intros _. exact IHa.
Qed.

Lemma writes_run actions :
  forall w, P (db w) -> P (db (run env actions w)).
Proof.
  induction actions as [|a actions IH]; intros w H; simpl; [exact H|].
  apply IH. apply writes_perform. exact H.
Qed.

End Writes.

(** ** The three properties of the tables *)

(** The statement of [add_warn] that changes [users], as an update. *)
Lemma add_warn_users uid admin reason t u d :
  users d !! uid = Some u ->
  users (Db.add_warn uid admin reason t u d) =
  alter (set_warns (warns u + 1)) uid (users d).
Proof.
  intros H. cbn [Db.add_warn users]. apply map_eq. intros k.
  rewrite lookup_insert, lookup_alter. case_decide; [|reflexivity].
  rewrite H. simpl. do 2 f_equal.
Qed.

Lemma set_topic_result uid tid d d' :
  Db.set_topic uid tid d = Return d' ->
  d' = d \/ d' = with_users (alter (set_topic_id (Some tid)) uid) d.
Proof.
  unfold Db.set_topic. destruct (users d !! uid); [|intros [= <-]; auto].
  destruct (Db.topic_taken uid tid d); [discriminate|]. intros [= <-]. auto.
Qed.

(** *** Warnings and their records *)

Lemma ledger_alter (f : User -> User) (uid : Z) (d : DB) :
  (forall u, warns (f u) = warns u) ->
  ledger d -> ledger (with_users (alter f uid) d).
Proof.
  intros Hf H k. specialize (H k). unfold warns_of, warn_records in *.
  cbn [with_users users warns_history]. rewrite lookup_alter.
  case_decide; [subst k|exact H].
  rewrite <- H. destruct (users d !! uid); simpl; [apply Hf|reflexivity].
Qed.

Lemma ledger_closed : closed_under_writes ledger.
Proof.
  constructor.
  - intros uid rid aid t d d' Hnew H. unfold Db.insert_user.
    destruct (Db.anon_taken aid d); [discriminate|]. intros [= <-] k.
    specialize (H k). unfold warns_of, warn_records in *.
    cbn [users warns_history]. rewrite lookup_insert.
    case_decide; [subst k|exact H].
    rewrite Hnew in H. simpl in *. exact H.
  - intros. apply ledger_alter; [reflexivity|assumption].
  - intros uid admin reason t u d Hu H k. specialize (H k).
    unfold warns_of, warn_records in *.
    rewrite (add_warn_users uid admin reason t u d Hu).
    cbn [Db.add_warn warns_history]. rewrite lookup_alter, filter_app, length_app.
    destruct (decide (uid = k)) as [<-|Hne].
    + rewrite Hu in *. simpl in H. simpl.
      rewrite filter_cons_True by reflexivity. simpl. lia.
    + rewrite filter_cons_False by (simpl; congruence). simpl.
      rewrite Nat.add_0_r. exact H.
  - intros. apply ledger_alter; [reflexivity|assumption].
  - intros uid tid d d' H [->| ->]%set_topic_result; [assumption|].
    apply ledger_alter; [reflexivity|assumption].
  - intros. apply ledger_alter; [reflexivity|assumption].
  - intros. apply ledger_alter; [reflexivity|assumption].
  - intros. apply ledger_alter; [reflexivity|assumption].
  - intros admin sent failed t d H k. exact (H k).
Qed.

Lemma ledger_empty : ledger empty_db.
Proof. intros k. reflexivity. Qed.

(** X6.  In every run, the counter [warns] of a user equals the number of
    rows of [warns_history] about the user (zero for an unknown user):
    [add_warn] is the only writer of either, and writes both or neither. *)
Theorem warns_match_history (env : Env) (actions : list Action) (w : World) :
  ledger (db w) -> ledger (db (run env actions w)).
Proof. apply writes_run, ledger_closed. Qed.

(** X6 after the three warnings of user 5: counter and records are 3. *)
Lemma warns_match_history_witness :
  warns_of 5 (db Scenario.warned3) = 3 /\
  warn_records 5 (db Scenario.warned3) = 3.
Proof.
  assert (H : ledger (db Scenario.warned3)).
  { apply (warns_match_history Scenario.env_ok
             [Scenario.warn5; Scenario.warn5; Scenario.warn5] Scenario.opened).
    apply (warns_match_history Scenario.env_ok _ initial_world).
    intros k. reflexivity. }
  split; [|rewrite <- (H 5)]; vm_compute; reflexivity.
Defined.

(** *** The history of a row *)

Lemma evolves_refl (u : User) : evolves u u.
Proof. constructor; auto; lia. Qed.

Lemma evolves_trans (u0 u1 u2 : User) :
  evolves u0 u1 -> evolves u1 u2 -> evolves u0 u2.
Proof.
  intros [] []. constructor; try congruence; try lia. auto.
Qed.

Lemma descends_alter (f : User -> User) (uid k : Z) (u0 : User) (d : DB) :
  (forall u, evolves u (f u)) ->
  descends k u0 d -> descends k u0 (with_users (alter f uid) d).
Proof.
  intros Hf (u & Hu & He). unfold descends. cbn [with_users users].
  rewrite lookup_alter. case_decide.
  - subst k. rewrite Hu. simpl. exists (f u). split; [reflexivity|].
    eapply evolves_trans; [exact He|apply Hf].
  - exists u. split; assumption.
Qed.

Ltac column_update :=
  intros; apply descends_alter; [|assumption];
  intros ?; constructor; simpl; auto; lia.

Lemma descends_closed (k : Z) (u0 : User) : closed_under_writes (descends k u0).
Proof.
  constructor.
  - intros uid rid aid t d d' Hnew (u & Hu & He). unfold Db.insert_user.
    destruct (Db.anon_taken aid d); [discriminate|]. intros [= <-].
    exists u. split; [|exact He]. cbn [users].
    rewrite lookup_insert_ne; [exact Hu|]. intros ->. congruence.
  - column_update.
  - intros uid admin reason t u d Hu (v & Hv & He). unfold descends.
    rewrite (add_warn_users uid admin reason t u d Hu).
    rewrite lookup_alter. case_decide.
    + subst k. rewrite Hv. simpl. eexists. split; [reflexivity|].
      eapply evolves_trans; [exact He|]. constructor; simpl; auto.
      rewrite Hu in Hv. injection Hv as ->. lia. lia.
    + exists v. split; assumption.
  - column_update.
  - intros uid tid d d' H [->| ->]%set_topic_result; [assumption|].
    revert H. column_update.
  - column_update.
  - column_update.
  - column_update.
  - intros admin sent failed t d H. exact H.
Qed.

(** X7.  No run deletes a user or rewrites what registration wrote: a row
    keeps its [user_id], [anon_id], [referrer_id] and [created_at], its
    counters [warns] and [msg_count] never go down, and once [is_active]
    is false (the user blocked the bot) nothing sets it back to true. *)
Theorem rows_evolve (env : Env) (actions : list Action) (w : World)
    (uid : Z) (u0 : User) :
  users (db w) !! uid = Some u0 ->
  exists u, users (db (run env actions w)) !! uid = Some u /\ evolves u0 u.
Proof.
  intros H. apply (writes_run _ (descends_closed uid u0)).
  exists u0. split; [exact H|apply evolves_refl].
Qed.

(** X7 for user 5 through three warnings. *)
Lemma rows_evolve_witness :
  exists u, users (db Scenario.warned3) !! 5 = Some u /\ evolves Scenario.row5 u.
Proof.
  apply (rows_evolve Scenario.env_ok
           [Scenario.warn5; Scenario.warn5; Scenario.warn5] Scenario.opened 5).
  vm_compute. reflexivity.
Defined.

(** *** Anonymous identifiers *)

Lemma anon_taken_false (aid : pystr) (d : DB) (k : Z) (u : User) :
  Db.anon_taken aid d = false -> users d !! k = Some u -> anon_id u <> aid.
Proof.
  unfold Db.anon_taken. intros H Hk Heq.
  assert (Hex : existsb (fun u => bool_decide (anon_id u = aid)) (rows d) = true).
  { apply existsb_exists. exists u. split.
    - apply list_elem_of_In, elem_of_rows. eauto.
    - apply bool_decide_eq_true. exact Heq. }
  congruence.
Qed.

Lemma anon_unique_alter (f : User -> User) (uid : Z) (d : DB) :
  (forall u, anon_id (f u) = anon_id u) ->
  anon_unique d -> anon_unique (with_users (alter f uid) d).
Proof.
  intros Hf H k1 k2 u1 u2. cbn [with_users users]. rewrite !lookup_alter.
  intros H1 H2 Heq.
  assert (exists v1, users d !! k1 = Some v1 /\ anon_id v1 = anon_id u1)
    as (v1 & ? & E1).
  { destruct (decide (uid = k1)) as [<-|N1]; [|eauto].
    destruct (users d !! uid) as [v|]; simpl in H1; [|discriminate].
    injection H1 as <-. eauto. }
  assert (exists v2, users d !! k2 = Some v2 /\ anon_id v2 = anon_id u2)
    as (v2 & ? & E2).
  { destruct (decide (uid = k2)) as [<-|N2]; [|eauto].
    destruct (users d !! uid) as [v|]; simpl in H2; [|discriminate].
    injection H2 as <-. eauto. }
  eapply H; eauto. congruence.
Qed.

Lemma anon_unique_closed : closed_under_writes anon_unique.
Proof.
  constructor.
  - intros uid rid aid t d d' _ H. unfold Db.insert_user.
    destruct (Db.anon_taken aid d) eqn:Htaken; [discriminate|]. intros [= <-].
    intros k1 k2 u1 u2. cbn [users]. rewrite !lookup_insert. intros H1 H2 Heq.
    destruct (decide (uid = k1)) as [<-|N1]; destruct (decide (uid = k2)) as [<-|N2];
      [reflexivity| | |eapply H; eauto].
    + injection H1 as <-. simpl in Heq. symmetry in Heq.
      exfalso. eapply anon_taken_false; eauto.
    + injection H2 as <-. simpl in Heq.
      exfalso. eapply anon_taken_false; eauto.
  - intros. apply anon_unique_alter; [reflexivity|assumption].
  - intros uid admin reason t u d Hu H k1 k2 u1 u2.
    rewrite (add_warn_users uid admin reason t u d Hu).
    apply (anon_unique_alter (set_warns (warns u + 1)) uid d); [reflexivity|assumption].
  - intros. apply anon_unique_alter; [reflexivity|assumption].
  - intros uid tid d d' H [->| ->]%set_topic_result; [assumption|].
    apply anon_unique_alter; [reflexivity|assumption].
  - intros. apply anon_unique_alter; [reflexivity|assumption].
  - intros. apply anon_unique_alter; [reflexivity|assumption].
  - intros. apply anon_unique_alter; [reflexivity|assumption].
  - intros admin sent failed t d H. exact H.
Qed.

(** X8.  [anon_id] stays unique among users in every run: the insertion of
    [register] is the only statement that writes the column, and it fails
    rather than store an identifier a row already has. *)
Theorem anon_ids_unique (env : Env) (actions : list Action) (w : World) :
  anon_unique (db w) -> anon_unique (db (run env actions w)).
Proof. apply writes_run, anon_unique_closed. Qed.

Lemma anon_unique_empty : anon_unique empty_db.
Proof. intros k1 k2 u1 u2 H. simpl in H. rewrite lookup_empty in H. discriminate. Qed.

(** X8 for a deployment whose random suffix never changes: the second
    user is refused, and the table keeps one row. *)
Lemma anon_ids_unique_witness :
  anon_unique
    (db (run Cases.env_same_suffix [DoRegister 5 None; DoRegister 6 None]
           initial_world)) /\
  users (db (run Cases.env_same_suffix [DoRegister 5 None; DoRegister 6 None]
               initial_world)) !! 6 = None.
Proof.
  split.
  - apply (anon_ids_unique Cases.env_same_suffix
             [DoRegister 5 None; DoRegister 6 None] initial_world).
    exact anon_unique_empty.
  - vm_compute. reflexivity.
Defined.

(** ** The guard filter, for users who are not banned *)

Section Admission.

Variable env : Env.

Lemma register_new uid rid w :
  users (db w) !! uid = None ->
  Db.anon_taken (of_ascii "USER-" ++ random_choices env (n_rand w)) (db w) = false ->
  register env uid rid w =
    (Return tt,
     mkWorld (registered env uid rid w) (fsm w) (trace w) (S (n_clock w)) (n_api w)
       (S (n_rand w))).
Proof.
  intros Hnew Hfree. unfold register, bind at 1, get_db. rewrite Hnew.
  unfold random_suffix, db_try. run_monad. unfold Db.insert_user.
  rewrite Hfree. reflexivity.
Qed.

Lemma register_collision uid rid w :
  users (db w) !! uid = None ->
  Db.anon_taken (of_ascii "USER-" ++ random_choices env (n_rand w)) (db w) = true ->
  register env uid rid w =
    (Raise IntegrityError,
     mkWorld (db w) (fsm w) (trace w) (S (n_clock w)) (n_api w) (S (n_rand w))).
Proof.
  intros Hnew Htaken. unfold register, bind at 1, get_db. rewrite Hnew.
  unfold random_suffix, db_try. run_monad. unfold Db.insert_user.
  rewrite Htaken. reflexivity.
Qed.

End Admission.

(** X9.  What the guard does with a private message of a user who is not
    banned.  A user of the table has [last_seen] refreshed and the handler
    runs.  A user the table does not have is registered first, with the
    defaults of the schema and without referrer, and the handler runs.
    When the anonymous identifier drawn for the new user is taken, the
    insertion fails: the guard ends with [IntegrityError], the handler does
    not run and no row is written. *)
Theorem guard_admits {R} (env : Env) (handler : Message -> M R)
    (event : Message) (uid : Z) (w : World) :
  from_user event = Some uid -> chat_type event = Private -> uid <> 0 ->
  let aid := of_ascii "USER-" ++ random_choices env (n_rand w) in
  let run_handler := let* r := handler event in ret (Some r) in
  (forall u, users (db w) !! uid = Some u -> is_banned u = false ->
     GuardMiddleware env handler event w =
       run_handler
         (mkWorld (Db.touch uid (clock env (n_clock w)) (db w)) (fsm w)
            (trace w) (S (n_clock w)) (n_api w) (n_rand w))) /\
  (users (db w) !! uid = None -> Db.anon_taken aid (db w) = false ->
     GuardMiddleware env handler event w =
       run_handler
         (mkWorld (registered env uid None w) (fsm w) (trace w)
            (S (n_clock w)) (n_api w) (S (n_rand w)))) /\
  (users (db w) !! uid = None -> Db.anon_taken aid (db w) = true ->
     GuardMiddleware env handler event w =
       (Raise IntegrityError,
        mkWorld (db w) (fsm w) (trace w) (S (n_clock w)) (n_api w)
          (S (n_rand w)))).
Proof.
  intros Hfrom Hchat Hnz aid run_handler. subst run_handler. repeat split.
  - intros u Hu Hban. unfold GuardMiddleware. rewrite Hfrom, Hchat.
    unfold bind at 1. rewrite (register_known env _ _ _ _ Hu).
    unfold bind at 1. unfold get_user, bind at 1, get_db.
    cbv beta iota. cbn [db ret]. rewrite get_user_by_id by assumption.
    rewrite (touch_lookup _ _ _ _ Hu). cbn [is_banned set_last_seen].
    rewrite Hban. reflexivity.
  - intros Hnew Hfree. unfold GuardMiddleware. rewrite Hfrom, Hchat.
    unfold bind at 1. rewrite (register_new env uid None w Hnew Hfree).
    unfold bind at 1. unfold get_user, bind at 1, get_db.
    cbv beta iota. cbn [db ret]. rewrite get_user_by_id by assumption.
    unfold registered. cbn [users]. rewrite lookup_insert_eq. reflexivity.
  - intros Hnew Htaken. unfold GuardMiddleware. rewrite Hfrom, Hchat.
    unfold bind at 1. rewrite (register_collision env uid None w Hnew Htaken).
    reflexivity.
Qed.

(** X9 where every random suffix is [AAAAA] and user 5 is registered: the
    message of user 5 is handled, the first message of user 6 is not. *)
Lemma guard_admits_witness :
  fst (GuardMiddleware Cases.env_same_suffix (fun _ => ret tt)
         (Scenario.private_message 5) Cases.one_user) = Return (Some tt) /\
  GuardMiddleware Cases.env_same_suffix (fun _ => ret tt)
    (Scenario.private_message 6) Cases.one_user =
    (Raise IntegrityError,
     mkWorld (db Cases.one_user) ∅ [] 2 0 2).
Proof.
  split.
  - destruct (guard_admits Cases.env_same_suffix (fun _ => ret tt)
                (Scenario.private_message 5) 5 Cases.one_user)
      as (H & _ & _); [reflexivity|reflexivity|lia|].
    rewrite (H (Db.new_user 5 (of_ascii "USER-AAAAA") None
                  (Scenario.seconds 63000000000)));
      [reflexivity|vm_compute; reflexivity|reflexivity].
  - destruct (guard_admits Cases.env_same_suffix (fun _ => ret tt)
                (Scenario.private_message 6) 6 Cases.one_user)
      as (_ & _ & H); [reflexivity|reflexivity|lia|].
    rewrite H; [reflexivity|vm_compute; reflexivity|vm_compute; reflexivity].
Defined.

(** ** The reach of the moderation commands *)

Lemma preserves_apply {A} (P : DB -> Prop) (m : M A) (w : World) :
  preserves P m -> P (db w) -> P (db (snd (m w))).
Proof. intros H. apply H. Qed.

Section Scope.

Variable env : Env.

Lemma row_update_user_ban k row uid banned until reason :
  uid <> k -> preserves (row_is k row) (update_user_ban uid banned until reason).
Proof.
  intros Hne. apply preserves_modify_db. intros d H. unfold row_is in *.
  cbn [Db.update_user_ban with_users users]. rewrite lookup_alter_ne; assumption.
Qed.

Lemma row_add_warn k row uid admin reason :
  uid <> k -> preserves (row_is k row) (add_warn env uid admin reason).
Proof.
  intros Hne w H. unfold add_warn, bind, get_db.
  destruct (users (db w) !! uid) eqn:E; simpl; [|exact H].
  unfold row_is in *. simpl. rewrite lookup_insert_ne; assumption.
Qed.

Lemma tables_update_user_ban l b uid banned until reason :
  preserves (other_tables l b) (update_user_ban uid banned until reason).
Proof. apply preserves_modify_db. intros d H. exact H. Qed.

Lemma tables_add_warn l b uid admin reason :
  preserves (other_tables l b) (add_warn env uid admin reason).
Proof.
  intros w H. unfold add_warn, bind, get_db.
  destruct (users (db w) !! uid) eqn:E; simpl; [|exact H]. exact H.
Qed.

Lemma moderate_tables l b message c :
  preserves (other_tables l b) (moderate env message c).
Proof.
  destruct c; simpl; [unfold adm_warn|unfold adm_ban|unfold adm_unban];
    repeat preserves_step;
    try apply tables_add_warn; try apply tables_update_user_ban.
Qed.

End Scope.

(** X10.  The reach of [/warn], [/ban] and [/unban].  From anybody but the
    owner the command changes nothing at all and sends nothing.  In a
    thread that resolves to no user it writes nothing.  In the thread of a
    user it leaves the row of every other user as it is.  In no case does
    it write the referrals or the broadcast records. *)
Theorem moderation_scope (env : Env) (message : Message) (c : Moderation)
    (w : World) :
  let out := moderate env message c w in
  (from_user message <> Some (OWNER_ID env) -> snd out = w) /\
  (Db.get_user None (message_thread_id message) (db w) = None ->
   db (snd out) = db w) /\
  (forall u k,
     Db.get_user None (message_thread_id message) (db w) = Some u ->
     k <> user_id u -> users (db (snd out)) !! k = users (db w) !! k) /\
  referrals (db (snd out)) = referrals (db w) /\
  broadcast_messages (db (snd out)) = broadcast_messages (db w).
Proof.
  intros out. subst out. repeat split.
  - intros Hfrom.
    assert (Hsender :
      forall k : Z -> M unit,
        (let* admin := sender message in
         if negb (admin =? OWNER_ID env) then ret tt else k admin) w = (Return tt, w)
        \/ (let* admin := sender message in
            if negb (admin =? OWNER_ID env) then ret tt else k admin) w =
           (Raise AttributeError, w)).
    { intros k. unfold sender, bind, ret, raise.
      destruct (from_user message) as [uid|]; [|right; reflexivity].
      destruct (Z.eqb_spec uid (OWNER_ID env)) as [->|_]; [contradiction|].
      left. reflexivity. }
    destruct c; simpl; [unfold adm_warn|unfold adm_ban|unfold adm_unban];
      match goal with
      | |- snd (bind _ (fun admin => if _ then _ else @?k admin) w) = w =>
          destruct (Hsender k) as [-> | ->]; reflexivity
      end.
  - intros Hget.
    destruct c; simpl; [unfold adm_warn|unfold adm_ban|unfold adm_unban];
      unfold sender; destruct (from_user message) as [uid|]; try reflexivity;
      unfold bind at 1, ret at 1;
      destruct (negb (uid =? OWNER_ID env)); try reflexivity;
      try destruct (split_args args) as [|time_str [|reason rest]];
      unfold get_user; run_monad; try rewrite Hget; run_monad;
      repeat match goal with
             | |- context [bot_api ?e ?k ?r] => destruct (bot_api e k r)
             end; reflexivity.
  - intros u k Hget Hne.
    change (row_is k (users (db w) !! k) (db (snd (moderate env message c w)))).
    destruct c; simpl; [unfold adm_warn|unfold adm_ban|unfold adm_unban];
      unfold sender; destruct (from_user message) as [uid|]; try reflexivity;
      unfold bind at 1, ret at 1;
      destruct (negb (uid =? OWNER_ID env)); try reflexivity;
      try destruct (split_args args) as [|time_str [|reason rest]];
      lazymatch goal with
      | |- row_is _ _ (db (snd (bind (get_user _ _) ?G w))) =>
          change (row_is k (users (db w) !! k)
                    (db (snd (G (Db.get_user None (message_thread_id message) (db w)) w))));
          rewrite Hget; cbv beta iota
      | |- _ => idtac
      end;
      (apply preserves_apply; [|reflexivity]);
      repeat preserves_step;
      try (apply row_add_warn; congruence);
      try (apply row_update_user_ban; congruence).
  - apply (preserves_apply (other_tables (referrals (db w)) (broadcast_messages (db w)))
             (moderate env message c) w (moderate_tables env _ _ message c)).
    split; reflexivity.
  - apply (preserves_apply (other_tables (referrals (db w)) (broadcast_messages (db w)))
             (moderate env message c) w (moderate_tables env _ _ message c)).
    split; reflexivity.
Qed.

(** ** Ban and unban *)

Section Unban.

Variable env : Env.

(** [/unban] by the owner clears the three ban columns of the user of the
    thread, whatever becomes of the two notices. *)
Lemma adm_unban_row message u w :
  from_user message = Some (OWNER_ID env) ->
  Db.get_user None (message_thread_id message) (db w) = Some u ->
  db (snd (adm_unban env message w)) =
    Db.update_user_ban (user_id u) false None None (db w).
Proof.
  intros Hfrom Hget. unfold adm_unban, sender. rewrite Hfrom.
  unfold bind at 1, ret at 1. rewrite Z.eqb_refl. cbn [negb].
  unfold get_user. run_monad. rewrite Hget. run_monad.
  destruct (bot_api env (n_api w) _); run_monad; [|reflexivity].
  destruct (bot_api env (S (n_api w)) _); reflexivity.
Qed.

(** Whatever [/ban] does, the row of the user of the thread differs from
    what it was in the ban columns at most. *)
Lemma adm_ban_row message args u w :
  users (db w) !! user_id u = Some u ->
  Db.get_user None (message_thread_id message) (db w) = Some u ->
  exists banned until reason,
    users (db (snd (adm_ban env message args w))) !! user_id u =
      Some (set_ban banned until reason u).
Proof.
  intros Hrow Hget.
  set (P := fun d : DB =>
    exists banned until reason,
      users d !! user_id u = Some (set_ban banned until reason u)).
  assert (Hnow : P (db w)).
  { exists (is_banned u), (ban_until u), (ban_reason u). rewrite Hrow.
    destruct u; reflexivity. }
  assert (Hban : forall banned until reason,
             preserves P (update_user_ban (user_id u) banned until reason)).
  { intros banned until reason. apply preserves_modify_db.
    intros d (b0 & u0 & r0 & Hd). exists banned, until, reason.
    cbn [Db.update_user_ban with_users users]. rewrite lookup_alter_eq, Hd.
    reflexivity. }
  change (P (db (snd (adm_ban env message args w)))).
  unfold adm_ban, sender. destruct (from_user message) as [uid|]; [|exact Hnow].
  unfold bind at 1, ret at 1.
  destruct (negb (uid =? OWNER_ID env)); [exact Hnow|].
  destruct (split_args args) as [|time_str more].
  - apply preserves_apply; [|exact Hnow]. repeat preserves_step.
  - lazymatch goal with
    | |- P (db (snd (bind (get_user _ _) ?G w))) =>
        change (P (db (snd (G (Db.get_user None (message_thread_id message) (db w)) w))))
    end.
    rewrite Hget. cbv beta iota.
    apply preserves_apply; [|exact Hnow]. repeat preserves_step; apply Hban.
Qed.

End Unban.

(** X11.  [/unban] undoes [/ban]: after a [/ban] with any arguments and an
    [/unban] in the same thread, both by the owner, the row of the user is
    the row before the ban with [is_banned] false and [ban_until] and
    [ban_reason] null, whether or not any of the notices was delivered. *)
Theorem unban_undoes_ban (env : Env) (ban unban : Message)
    (args : option pystr) (u : User) (w : World) :
  from_user unban = Some (OWNER_ID env) ->
  message_thread_id unban = message_thread_id ban ->
  consistent (db w) ->
  Db.get_user None (message_thread_id ban) (db w) = Some u ->
  let banned := snd (adm_ban env ban args w) in
  let unbanned := snd (adm_unban env unban banned) in
  users (db unbanned) !! user_id u = Some (set_ban false None None u).
Proof.
  intros Hfrom Hthread Hc Hget banned unbanned.
  assert (Hrow := get_user_by_topic_row _ _ _ Hc Hget).
  destruct (adm_ban_row env ban args u w Hrow Hget) as (b & x & r & Hbanned).
  fold banned in Hbanned.
  assert (Hc' : consistent (db banned)) by (apply consistent_adm_ban; exact Hc).
  apply get_user_by_topic_elem in Hget as (Htruthy & Htopic & _).
  destruct (message_thread_id ban) as [t|] eqn:Et; [|discriminate].
  assert (Hnz : t <> 0).
  { simpl in Htruthy. destruct (Z.eqb_spec t 0); [discriminate|assumption]. }
  assert (Hget' : Db.get_user None (message_thread_id unban) (db banned) =
                  Some (set_ban b x r u)).
  { rewrite Hthread. apply (get_user_by_topic _ (user_id u) t);
      [apply Hc'|exact Hbanned|exact Htopic|exact Hnz]. }
  subst unbanned. rewrite (adm_unban_row env unban _ banned Hfrom Hget').
  cbn [user_id set_ban]. rewrite (ban_row _ _ _ _ _ _ Hbanned). reflexivity.
Qed.

(** X11 for [/ban 1h spam] and [/unban] in the thread of user 5. *)
Lemma unban_undoes_ban_witness :
  users (db (snd (adm_unban Scenario.env_ok (Scenario.staff_message 1001)
                    Scenario.banned_1h))) !! 5 =
    Some (set_ban false None None Scenario.row5).
Proof.
  apply (unban_undoes_ban Scenario.env_ok (Scenario.staff_message 1001)
           (Scenario.staff_message 1001) (Some (of_ascii "1h spam"))
           Scenario.row5 Scenario.opened).
  - reflexivity.
  - reflexivity.
  - apply consistent_run, consistent_empty.
  - vm_compute. reflexivity.
Defined.

(** ** The recipients of a broadcast *)

Lemma rows_keyed (d : DB) (u : User) :
  keyed d -> u ∈ rows d -> users d !! user_id u = Some u.
Proof.
  intros Hkey [k Hk]%elem_of_rows. rewrite (Hkey k u Hk). exact Hk.
Qed.

Lemma NoDup_rows (d : DB) : keyed d -> NoDup (rows d).
Proof.
  intros Hkey. unfold rows.
  set (l := merge_sort key_le (map_to_list (users d))).
  assert (Hperm : l ≡ₚ map_to_list (users d)) by apply merge_sort_Permutation.
  assert (Hin : forall p, p ∈ l -> users d !! p.1 = Some p.2).
  { intros [k u] Hp. rewrite Hperm in Hp. apply elem_of_map_to_list in Hp.
    exact Hp. }
  apply NoDup_fmap_2_strong.
  - intros [k1 u1] [k2 u2] H1 H2. simpl. intros <-.
    apply Hin in H1. apply Hin in H2. simpl in *.
    rewrite <- (Hkey _ _ H1), <- (Hkey _ _ H2). reflexivity.
  - rewrite Hperm. apply NoDup_map_to_list.
Qed.

Lemma active_users_elem (d : DB) (uid : Z) :
  keyed d ->
  uid ∈ Db.get_all_active_users d <->
  exists u, users d !! uid = Some u /\ is_active u = true /\ is_banned u = false.
Proof.
  intros Hkey. unfold Db.get_all_active_users. rewrite list_elem_of_fmap. split.
  - intros (u & -> & [[Ha Hb] Hin]%list_elem_of_filter).
    exists u. split; [apply rows_keyed; assumption|]. split; assumption.
  - intros (u & Hu & Ha & Hb). exists u. split; [symmetry; eapply Hkey; eassumption|].
    apply list_elem_of_filter. split; [split; assumption|].
    apply elem_of_rows. eauto.
Qed.

(** X12.  The snapshot of recipients, [get_all_active_users], has no
    duplicates and holds exactly the users whose [is_active] is true and
    whose [is_banned] is false; [ban_until] is not looked at, so a user
    whose timed ban has run out but was not lifted yet is left out. *)
Theorem active_users_snapshot (d : DB) :
  keyed d ->
  NoDup (Db.get_all_active_users d) /\
  forall uid,
    uid ∈ Db.get_all_active_users d <->
    exists u, users d !! uid = Some u /\ is_active u = true /\ is_banned u = false.
Proof.
  intros Hkey. split.
  - unfold Db.get_all_active_users. apply NoDup_fmap_2_strong.
    + intros u1 u2 [_ H1]%list_elem_of_filter [_ H2]%list_elem_of_filter Heq.
      apply (rows_keyed d _ Hkey) in H1. apply (rows_keyed d _ Hkey) in H2.
      rewrite Heq in H1. congruence.
    + apply NoDup_filter, NoDup_rows, Hkey.
  - intros uid. apply active_users_elem. exact Hkey.
Qed.

(** X12 for user 5 banned for one second: the ban is over at any later
    time, yet the snapshot leaves the user out. *)
Lemma active_users_snapshot_witness :
  NoDup (Db.get_all_active_users (db Scenario.banned_1s)) /\
  5 ∉ Db.get_all_active_users (db Scenario.banned_1s).
Proof.
  destruct (active_users_snapshot (db Scenario.banned_1s)) as [H1 H2].
  - apply consistent_run, consistent_run, consistent_empty.
  - split; [exact H1|]. rewrite H2. intros (u & Hu & _ & Hb).
    vm_compute in Hu. injection Hu as <-. discriminate.
Defined.




Section Fanout.

Variable env : Env.
Variable m : Message.
Variables chat total : Z.
Variable ids : list Z.
Variable d0 : DB.




End Fanout.



(** ** Opening a ticket, when it fails *)

Lemma set_topic_row uid tid d d' u :
  users d !! uid = Some u -> Db.set_topic uid tid d = Return d' ->
  users d' !! uid = Some (set_topic_id (Some tid) u) /\
  forall k, k <> uid -> users d' !! k = users d !! k.
Proof.
  intros Hu. unfold Db.set_topic. rewrite Hu.
  destruct (Db.topic_taken uid tid d); [discriminate|]. intros [= <-].
  cbn [with_users users]. rewrite lookup_alter_eq, Hu. split; [reflexivity|].
  intros k Hk. apply lookup_alter_ne. congruence.
Qed.

Lemma set_topic_users uid tid d d' :
  Db.set_topic uid tid d = Return d' ->
  forall k, k <> uid -> users d' !! k = users d !! k.
Proof.
  intros [->| ->]%set_topic_result k Hk; [reflexivity|].
  cbn [with_users users]. apply lookup_alter_ne. congruence.
Qed.

Section Opening.

Variable env : Env.

Lemma init_ticket_unknown uid category w :
  Db.get_user (Some uid) None (db w) = None ->
  init_ticket env uid category w = (Return None, w).
Proof.
  intros H. unfold init_ticket, get_user. run_monad. rewrite H. reflexivity.
Qed.

(** The first part of [init_ticket]: the ticket held before is closed. *)
Lemma init_ticket_closes uid category user w :
  Db.get_user (Some uid) None (db w) = Some user ->
  users (db w) !! uid = Some user ->
  exists w1,
    users (db w1) !! uid = Some (ticket_closed user) /\
    (forall k, k <> uid -> users (db w1) !! k = users (db w) !! k) /\
    fsm w1 = fsm w /\
    n_api w1 = (if truthy (topic_id user) then S (n_api w) else n_api w) /\
    init_ticket env uid category w =
      try_except
        (let* thread := api env (CreateForumTopic (ADMIN_GROUP_ID env) category
                                   (anon_id user)) in
         let* _ := db_try (Db.set_topic uid thread) in
         let* _ := api env (SendMessage (ADMIN_GROUP_ID env) (Some thread)
                              (TicketCard category (anon_id user) uid
                                 (msg_count user) (warns user))) in
         ret (Some thread))
        (fun _ => ret None) w1.
Proof.
  intros Hget Hu. unfold init_ticket, ticket_closed.
  unfold bind at 1. unfold get_user, bind at 1, get_db. cbv beta iota.
  cbn [ret]. rewrite Hget.
  destruct (truthy (topic_id user)).
  - unfold bind at 1. unfold bind at 1.
    unfold try_except at 1, bind at 1, now at 1, bind at 1, api at 1.
    cbn [db fsm trace n_clock n_api n_rand].
    destruct (bot_api env (n_api w) _);
      unfold ret at 1; cbv beta iota;
      unfold close_ticket, modify_db, bind at 1, get_db at 1, put_db at 1;
      cbv beta iota; cbn [db fsm trace n_clock n_api n_rand];
      (eexists; split; [|split; [|split; [|split; [|reflexivity]]]]);
      cbn [db fsm n_api Db.close_ticket with_users users];
      try reflexivity;
      try (rewrite lookup_alter_eq, Hu; reflexivity);
      intros k Hk; apply lookup_alter_ne; congruence.
  - unfold bind at 1, ret at 1. cbv beta iota.
    exists w. repeat split; try assumption; reflexivity.
Qed.

End Opening.

Lemma get_user_some_id uid d user :
  Db.get_user (Some uid) None d = Some user ->
  uid <> 0 /\ users d !! uid = Some user.
Proof.
  unfold Db.get_user, truthy. destruct (Z.eqb_spec uid 0); simpl; [discriminate|].
  auto.
Qed.

Lemma init_ticket_effect (env : Env) (uid : Z) (category : pystr) (w : World) :
  let out := init_ticket env uid category w in
  exists r,
    fst out = Return r /\
    fsm (snd out) = fsm w /\
    (forall k, k <> uid -> users (db (snd out)) !! k = users (db w) !! k) /\
    (Db.get_user (Some uid) None (db w) = None -> r = None /\ snd out = w) /\
    (forall t, r = Some t ->
       exists u, users (db (snd out)) !! uid = Some u /\ topic_id u = Some t).
Proof.
  intros out. subst out.
  destruct (init_ticket env uid category w) as [res w'] eqn:Hout. cbn [fst snd].
  destruct (Db.get_user (Some uid) None (db w)) as [user|] eqn:Hget.
  - destruct (get_user_some_id _ _ _ Hget) as [Hnz Hu].
    destruct (init_ticket_closes env uid category user w Hget Hu)
      as (w1 & Hrow & Hframe & Hfsm & _ & Heq).
    rewrite Heq in Hout. clear Heq. revert Hout.
    unfold try_except, bind at 1, api at 1.
    destruct (bot_api env (n_api w1) _) as [thread|e]; cbv beta iota.
    + unfold bind at 1, db_try, bind at 1, get_db at 1. cbv beta iota.
      cbn [db fsm trace n_clock n_api n_rand].
      unfold bind at 1, lift at 1.
      destruct (Db.set_topic uid thread (db w1)) as [d'|e] eqn:Hset; cbv beta iota.
      * destruct (set_topic_row _ _ _ _ _ Hrow Hset) as [Hrow' Hframe'].
        unfold put_db at 1. cbv beta iota.
        unfold bind at 1, api at 1. cbn [db fsm trace n_clock n_api n_rand].
        destruct (bot_api env (S (n_api w1)) _); cbv beta iota;
          unfold ret; intros [= <- <-]; eexists; (split; [reflexivity|]);
          cbn [fsm db];
          (split; [exact Hfsm|]);
          (split; [intros k Hk; rewrite Hframe' by exact Hk; apply Hframe, Hk|]);
          (split; [discriminate|]).
        -- intros t [= <-]. eexists. split; [exact Hrow'|reflexivity].
        -- discriminate.
      * unfold ret. intros [= <- <-]. eexists. split; [reflexivity|]. cbn [fsm db].
        split; [exact Hfsm|]. split; [exact Hframe|]. split; discriminate.
    + unfold ret. intros [= <- <-]. eexists. split; [reflexivity|]. cbn [fsm db].
      split; [exact Hfsm|]. split; [exact Hframe|]. split; discriminate.
  - rewrite (init_ticket_unknown env uid category w Hget) in Hout.
    injection Hout as <- <-.
    exists None. repeat split; try reflexivity. discriminate.
Qed.

(** X14.  [init_ticket] never raises.  It returns [None] and does nothing
    for a user the table does not have.  It leaves the dialogue states and
    the rows of the other users as they are.  When it returns a thread, the
    row of the user holds that thread. *)
Theorem init_ticket_outcome (env : Env) (uid : Z) (category : pystr) (w : World) :
  let out := init_ticket env uid category w in
  exists r,
    fst out = Return r /\
    fsm (snd out) = fsm w /\
    (forall k, k <> uid -> users (db (snd out)) !! k = users (db w) !! k) /\
    (Db.get_user (Some uid) None (db w) = None -> r = None /\ snd out = w) /\
    (forall t, r = Some t ->
       exists u, users (db (snd out)) !! uid = Some u /\ topic_id u = Some t).
Proof. apply init_ticket_effect. Qed.

(** X15.  The ticket held before is closed before the new topic is asked
    for.  So when the creation of the topic is refused, or the transport
    answers with a thread that another user holds (the update then breaks
    the uniqueness of [topic_id]), the user is left without any ticket:
    [init_ticket] returns [None], the row has no thread, the thread held
    before resolves to nobody, and no card is sent. *)
Theorem init_ticket_loses_ticket (env : Env) (uid : Z) (category : pystr)
    (user : User) (w : World) :
  consistent (db w) ->
  Db.get_user (Some uid) None (db w) = Some user ->
  let create := CreateForumTopic (ADMIN_GROUP_ID env) category (anon_id user) in
  let asked := if truthy (topic_id user) then S (n_api w) else n_api w in
  ((exists e, bot_api env asked create = Raise e) \/
   (exists t k other,
      bot_api env asked create = Return t /\ k <> uid /\
      users (db w) !! k = Some other /\ topic_id other = Some t)) ->
  let out := init_ticket env uid category w in
  fst out = Return None /\
  users (db (snd out)) !! uid = Some (ticket_closed user) /\
  Db.get_user None (topic_id user) (db (snd out)) = None /\
  n_api (snd out) = S asked.
Proof.
  intros Hc Hget create asked Hfail out. subst out.
  assert (Hkey := proj1 Hc).
  destruct (init_ticket env uid category w) as [res w'] eqn:Hout. cbn [fst snd].
  destruct (get_user_some_id _ _ _ Hget) as [Hnz Hu].
  destruct (init_ticket_closes env uid category user w Hget Hu)
    as (w1 & Hrow & Hframe & Hfsm & Hapi & Heq).
  rewrite Heq in Hout. clear Heq. revert Hout.
  fold create. fold asked in Hapi. rewrite <- Hapi in Hfail.
  unfold try_except, bind at 1, api at 1.
  assert (Hgone : forall d, users d !! uid = Some (ticket_closed user) ->
            (forall k, k <> uid -> users d !! k = users (db w) !! k) ->
            Db.get_user None (topic_id user) d = None).
  { intros d Hd Hothers. destruct (truthy (topic_id user)) eqn:Htr.
    - apply get_user_by_topic_none. intros k u Hk Htop.
      destruct (decide (k = uid)) as [->|Hne].
      + rewrite Hd in Hk. injection Hk as <-. unfold ticket_closed in Htop.
        rewrite Htr in Htop. simpl in Htop. rewrite <- Htop in Htr. discriminate.
      + rewrite Hothers in Hk by assumption.
        destruct (topic_id user) as [old|] eqn:E; [|discriminate].
        apply Hne. eapply (proj2 Hc k uid u user old); eauto.
    - unfold Db.get_user. simpl. rewrite Htr. reflexivity. }
  destruct Hfail as [[e He]|(t & k & other & Ht & Hk & Hother & Htopic)].
  - rewrite He. cbv beta iota. unfold ret. intros [= <- <-].
    cbn [db n_api]. rewrite Hapi. repeat split; auto.
  - rewrite Ht. cbv beta iota.
    unfold bind at 1, db_try, bind at 1, get_db at 1. cbv beta iota.
    cbn [db fsm trace n_clock n_api n_rand].
    unfold bind at 1, lift at 1.
    assert (Htaken : Db.set_topic uid t (db w1) = Raise IntegrityError).
    { unfold Db.set_topic. rewrite Hrow.
      assert (Hex : Db.topic_taken uid t (db w1) = true).
      { unfold Db.topic_taken. apply existsb_exists. exists other. split.
        - apply list_elem_of_In, elem_of_rows. exists k.
          rewrite Hframe by exact Hk. exact Hother.
        - apply bool_decide_eq_true. split; [exact Htopic|].
          rewrite (Hkey _ _ Hother). exact Hk. }
      rewrite Hex. reflexivity. }
    rewrite Htaken. cbv beta iota. unfold ret. intros [= <- <-].
    cbn [db n_api]. rewrite Hapi. repeat split; auto.
Qed.

(** X15 for user 5, who holds thread 1001, where no topic can be created. *)
Lemma init_ticket_loses_ticket_witness :
  let out := init_ticket Cases.env_no_topics 5 (of_ascii "Pay") Scenario.opened in
  fst out = Return None /\
  users (db (snd out)) !! 5 = Some (set_topic_id None Scenario.row5) /\
  Db.get_user None (Some 1001) (db (snd out)) = None.
Proof.
  intros out.
  destruct (init_ticket_loses_ticket Cases.env_no_topics 5 (of_ascii "Pay")
              Scenario.row5 Scenario.opened) as (H1 & H2 & H3 & _).
  - apply consistent_run, consistent_empty.
  - vm_compute. reflexivity.
  - left. exists TelegramBadRequest. reflexivity.
  - split; [exact H1|]. split; [exact H2|exact H3].
Defined.



(** * The relay *)

(** ** Properties kept by every write, through the relay *)

Section RelayPreservation.

Context {P : DB -> Prop}.

Lemma relay_pure {A} (a : A) : relay_preserves P (pure a).
Proof. intros s H. exact H. Qed.

Lemma relay_and_then {A B} (m : Act A) (f : A -> Act B) :
  relay_preserves P m -> (forall a, relay_preserves P (f a)) ->
  relay_preserves P (and_then m f).
Proof.
  intros Hm Hf s H. unfold and_then. specialize (Hm s H).
  destruct (m s) as [[a|e] s']; simpl in *; [apply Hf|]; assumption.
Qed.

Lemma relay_attempt {A} (m : Act A) (h : exn -> Act A) :
  relay_preserves P m -> (forall e, relay_preserves P (h e)) ->
  relay_preserves P (attempt m h).
Proof.
  intros Hm Hh s H. unfold attempt. specialize (Hm s H).
  destruct (m s) as [[a|e] s']; simpl in *; [|apply Hh]; assumption.
Qed.

Lemma relay_lift_core {A} (m : M A) :
  preserves P m -> relay_preserves P (lift_core m).
Proof.
  intros Hm s H. unfold lift_core. specialize (Hm (core s) H).
  destruct (m (core s)) as [r w]. exact Hm.
Qed.

Lemma relay_call relay_api (c : Call) : relay_preserves P (call relay_api c).
Proof. intros s H. exact H. Qed.

Lemma relay_typing (body : Leaflet) : relay_preserves P (typing body).
Proof. intros s H. exact H. Qed.

Lemma relay_get_state (key : Z * Z) : preserves P (get_state key).
Proof. intros w H. exact H. Qed.

End RelayPreservation.

Ltac relay_step :=
  lazymatch goal with
  | |- relay_preserves _ (and_then _ _) => apply relay_and_then; [|intros ?]
  | |- relay_preserves _ (attempt _ _) => apply relay_attempt; [|intros ?]
  | |- relay_preserves _ (quietly _) => unfold quietly
  | |- relay_preserves _ (pure _) => apply relay_pure
  | |- relay_preserves _ (call _ _) => apply relay_call
  | |- relay_preserves _ (reply _ _ _) => apply relay_call
  | |- relay_preserves _ (react _ _ _) => apply relay_call
  | |- relay_preserves _ (typing _) => apply relay_typing
  | |- relay_preserves _ (lift_core _) => apply relay_lift_core
  | |- relay_preserves _ (match ?x with _ => _ end) => destruct x
  | |- preserves _ (get_state _) => apply relay_get_state
  | |- preserves _ _ => preserves_step
  end.

Section RelayWrites.

Variable P : DB -> Prop.
Hypothesis closed : closed_under_writes P.
Variable env : Env.
Variable relay_api : nat -> Call -> py_result Z.

Lemma relay_send_leaflet chat body :
  relay_preserves P (send_leaflet_with_typing env relay_api chat body).
Proof. unfold send_leaflet_with_typing. repeat relay_step. Qed.

Lemma relay_send_photo chat body :
  relay_preserves P (send_photo_with_typing env relay_api chat body).
Proof.
  unfold send_photo_with_typing. repeat relay_step. apply relay_send_leaflet.
Qed.

Lemma relay_safe_set_reaction chat message emoji :
  relay_preserves P (safe_set_reaction relay_api chat message emoji).
Proof. unfold safe_set_reaction. repeat relay_step. Qed.

Lemma relay_send_each calls :
  forall sent, relay_preserves P (send_each relay_api calls sent).
Proof.
  induction calls as [|c calls IH]; intros sent; simpl.
  - apply relay_pure.
  - apply relay_and_then; [apply relay_call|]. intros z. apply IH.
Qed.

Lemma relay_copy_message_to_admin uid message topic :
  relay_preserves P (copy_message_to_admin relay_api uid message topic).
Proof.
  unfold copy_message_to_admin. repeat relay_step. apply relay_send_each.
Qed.

Lemma relay_gateway_u2a message state :
  relay_preserves P (gateway_u2a env relay_api message state).
Proof.
  unfold gateway_u2a, increment_message_count. cbv zeta.
  repeat relay_step;
    try apply relay_copy_message_to_admin;
    try (apply preserves_modify_db; intros d; apply closed).
Qed.

Lemma relay_gateway_a2u message :
  relay_preserves P (gateway_a2u env relay_api message).
Proof.
  unfold gateway_a2u, copy_message_to_user. cbv zeta.
  repeat relay_step;
    try apply relay_safe_set_reaction;
    try (apply preserves_modify_db; intros d; apply closed).
Qed.

Lemma relay_process_cat_selection message state :
  relay_preserves P (process_cat_selection env relay_api message state).
Proof.
  unfold process_cat_selection. repeat relay_step. apply relay_send_leaflet.
Qed.

Lemma relay_process_cancel message state :
  relay_preserves P (process_cancel env relay_api message state).
Proof.
  unfold process_cancel. cbv zeta.
  repeat relay_step;
    try apply relay_send_leaflet;
    try (apply writes_close; exact closed).
Qed.

Lemma relay_cmd_start message args state :
  relay_preserves P (cmd_start env relay_api message args state).
Proof.
  unfold cmd_start. cbv zeta.
  repeat relay_step;
    try apply relay_send_leaflet; try apply relay_send_photo;
    try (apply writes_register; exact closed).
Qed.

Lemma relay_guarded {R} (handler : Act R) event :
  relay_preserves P handler -> relay_preserves P (guarded env handler event).
Proof.
  intros Hh. unfold guarded. repeat relay_step; try exact Hh.
  apply writes_guard; [exact closed|]. intros m. apply preserves_ret.
Qed.

Lemma relay_start_broadcast click :
  relay_preserves P (start_broadcast env relay_api click).
Proof. unfold start_broadcast. cbv zeta. repeat relay_step. Qed.

Lemma relay_cancel_broadcast message state :
  relay_preserves P (cancel_broadcast relay_api message state).
Proof. unfold cancel_broadcast. repeat relay_step. Qed.

Lemma relay_process_broadcast_content message state :
  relay_preserves P (process_broadcast_content relay_api message state).
Proof. unfold process_broadcast_content. repeat relay_step. Qed.

Lemma relay_cancel_broadcast_callback click :
  relay_preserves P (cancel_broadcast_callback relay_api click).
Proof. unfold cancel_broadcast_callback. cbv zeta. repeat relay_step. Qed.

Lemma relay_in_state {A} state required (handler : Act A) :
  relay_preserves P handler ->
  relay_preserves P (in_state state required handler).
Proof. intros Hh. unfold in_state. repeat relay_step; exact Hh. Qed.

Lemma relay_deliver d : relay_preserves P (deliver env relay_api d).
Proof.
  induction d; simpl.
  - apply relay_cmd_start.
  - apply relay_process_cat_selection.
  - apply relay_process_cancel.
  - apply relay_gateway_u2a.
  - apply relay_gateway_a2u.
  - apply relay_start_broadcast.
  - repeat relay_step. apply relay_in_state, relay_cancel_broadcast.
  - repeat relay_step. apply relay_in_state, relay_process_broadcast_content.
  - repeat relay_step. apply relay_in_state, relay_cancel_broadcast_callback.
  - repeat relay_step. apply relay_in_state, relay_lift_core.
    apply writes_confirm_broadcast, closed.
  - apply relay_lift_core, writes_perform, closed.
  - repeat relay_step. apply relay_guarded. exact IHd.
Qed.

Lemma relay_run_keeps ds :
  forall s, P (db (core s)) -> P (db (core (relay_run env relay_api ds s))).
Proof.
  induction ds as [|d ds IH]; intros s H; simpl; [exact H|].
  apply IH. apply relay_deliver. exact H.
Qed.

End RelayWrites.

Ltac run_relay :=
  repeat progress
    (unfold and_then, attempt, pure, lift_core, call, typing, reply, react,
       quietly, get_state;
     run_monad;
     cbv beta iota;
     cbn [core log db fsm trace n_clock n_api n_rand fst snd]).

(** ** Reactions *)

(** X17.  [safe_set_reaction] never raises and never asks for an emoji
    outside its list of supported reactions: a supported emoji is asked for
    as it is, the check mark the relay passes becomes the thumbs up and the
    cross becomes the thumbs down.  It makes one request, answers whether
    the request was delivered, and writes nothing. *)
Theorem reaction_is_supported (relay_api : nat -> Call -> py_result Z)
    (chat message : Z) (emoji : pystr) (s : Session) :
  let out := safe_set_reaction relay_api chat message emoji s in
  let request := SetMessageReaction chat message (reaction_for emoji) in
  reaction_for emoji ∈ supported_emojis /\
  (emoji ∈ supported_emojis -> reaction_for emoji = emoji) /\
  reaction_for check_mark = thumbs_up /\
  reaction_for cross_mark = thumbs_down /\
  fst out = Return (match relay_api (n_api (core s)) request with
                    | Return _ => true
                    | Raise _ => false
                    end) /\
  log (snd out) = log s ++ [Asked (n_api (core s)) request] /\
  db (core (snd out)) = db (core s).
Proof.
  intros out request. subst out request.
  split; [|split; [|split; [reflexivity|split; [reflexivity|]]]].
  - unfold reaction_for.
    destruct (bool_decide (emoji ∈ supported_emojis)) eqn:E.
    + apply bool_decide_eq_true in E. exact E.
    + repeat match goal with
             | |- context [if ?b then _ else _] => destruct b
             end; compute_done.
  - intros Hin. unfold reaction_for. rewrite bool_decide_eq_true_2 by exact Hin.
    reflexivity.
  - unfold safe_set_reaction. run_relay.
    destruct (relay_api (n_api (core s)) _); repeat split.
Qed.

(** ** Replies of the staff *)

(** X18.  [gateway_a2u] never raises.  A command, a service message of
    the forum and a message in a thread that no user holds are ignored: the
    state of the bot is as before.  Any other message is copied once to the
    user of the thread, and one reaction is asked for on the message of the
    staff: the thumbs up when the copy was delivered, the thumbs down when
    it was refused.  Only when the copy was refused because the user has
    blocked the bot is the database written: the user is deactivated. *)
Theorem staff_reply_outcome (env : Env) (relay_api : nat -> Call -> py_result Z)
    (message : Incoming) (s : Session) :
  let out := gateway_a2u env relay_api message s in
  let m := envelope message in
  fst out = Return tt /\
  match addressee message (db (core s)) with
  | None => snd out = s
  | Some u =>
      let copy := bot_api env (n_api (core s)) (CopyMessage (user_id u) m) in
      trace (core (snd out)) = trace (core s) ++ [Api (CopyMessage (user_id u) m)] /\
      log (snd out) =
        log s ++
        [Asked (S (n_api (core s)))
           (SetMessageReaction (ADMIN_GROUP_ID env) (message_id m)
              (match copy with
               | Return _ => thumbs_up
               | Raise _ => thumbs_down
               end))] /\
      db (core (snd out)) =
        match copy with
        | Raise TelegramForbiddenError => Db.deactivate (user_id u) (db (core s))
        | _ => db (core s)
        end
  end.
Proof.
  intros out m. subst out.
  destruct (gateway_a2u env relay_api message s) as [res s'] eqn:Hout.
  cbn [fst snd]. revert Hout. unfold gateway_a2u, addressee. fold m.
  destruct (is_command m); [intros [= <- <-]; destruct s; split; reflexivity|].
  destruct (forum_service (content message));
    [intros [= <- <-]; destruct s; split; reflexivity|].
  unfold get_user. run_relay.
  destruct (Db.get_user None (message_thread_id m) (db (core s))) as [u|].
  2:{ intros [= <- <-]. destruct s as [[] ?]. split; reflexivity. }
  unfold copy_message_to_user, safe_set_reaction. run_relay.
  destruct (bot_api env (n_api (core s)) _) as [z|e]; run_relay.
  - destruct (relay_api (S (n_api (core s))) _); run_relay;
      intros [= <- <-]; repeat split.
  - destruct e; run_relay;
      destruct (relay_api (S (n_api (core s))) _); run_relay;
      intros [= <- <-]; repeat split.
Qed.

(** ** Messages of the users *)

Section Forwarding.

Variable env : Env.
Variable relay_api : nat -> Call -> py_result Z.

Lemma send_each_outcome calls :
  forall sent s,
  exists r s',
    send_each relay_api calls sent s = (r, s') /\
    core s' = mkWorld (db (core s)) (fsm (core s)) (trace (core s))
                (n_clock (core s))
                (length (attempts relay_api (n_api (core s)) calls) + n_api (core s))
                (n_rand (core s)) /\
    log s' = log s ++ attempts relay_api (n_api (core s)) calls /\
    if all_delivered relay_api (n_api (core s)) calls
    then exists x, r = Return x /\ (x = None -> sent = None /\ calls = [])
    else exists e, r = Raise e.
Proof.
  induction calls as [|c calls IH]; intros sent s.
  - exists (Return sent), s. simpl. rewrite app_nil_r.
    split; [reflexivity|]. split; [destruct s as [[] ?]; reflexivity|].
    split; [reflexivity|]. exists sent. auto.
  - simpl. unfold and_then at 1, call at 1.
    destruct (relay_api (n_api (core s)) c) as [z|e] eqn:Hc.
    + match goal with
      | |- context [send_each relay_api calls (Some z) ?s1] =>
          destruct (IH (Some z) s1) as (r & s' & Heq & Hcore & Hlog & Hres)
      end.
      cbn [core log db fsm trace n_clock n_api n_rand] in *.
      exists r, s'. split; [exact Heq|]. split.
      { rewrite Hcore. f_equal. simpl. lia. }
      split; [rewrite Hlog, <- app_assoc; reflexivity|].
      destruct (all_delivered relay_api (S (n_api (core s))) calls).
      * destruct Hres as (x & -> & Hx). exists x. split; [reflexivity|].
        intros ->. destruct (Hx eq_refl) as [? _]. discriminate.
      * exact Hres.
    + eexists; eexists. split; [reflexivity|].
      cbn [core log db fsm trace n_clock n_api n_rand length Nat.add].
      split; [reflexivity|]. split; [reflexivity|]. eauto.
Qed.

Lemma staff_requests_nonempty topic anon message :
  staff_requests topic anon message <> [].
Proof.
  unfold staff_requests. cbv zeta.
  repeat match goal with
         | |- context [if ?b then _ else _] => destruct b
         end; discriminate.
Qed.

Lemma copy_message_to_admin_outcome uid message topic u s :
  uid <> 0 -> users (db (core s)) !! uid = Some u ->
  let requests := staff_requests topic (anon_id u) message in
  exists copied s',
    copy_message_to_admin relay_api uid message topic s = (Return copied, s') /\
    core s' = mkWorld (db (core s)) (fsm (core s)) (trace (core s))
                (n_clock (core s))
                (length (attempts relay_api (n_api (core s)) requests) + n_api (core s))
                (n_rand (core s)) /\
    log s' = log s ++ attempts relay_api (n_api (core s)) requests /\
    (is_Some copied <-> all_delivered relay_api (n_api (core s)) requests = true).
Proof.
  intros Hnz Hu requests. unfold copy_message_to_admin.
  unfold attempt, and_then at 1, lift_core at 1, get_user, bind, get_db, ret.
  cbv beta iota. rewrite get_user_by_id by assumption. rewrite Hu.
  cbv beta iota. fold requests.
  destruct (send_each_outcome requests None (mkSession (core s) (log s)))
    as (r & s' & Heq & Hcore & Hlog & Hres).
  rewrite Heq. cbn [core log] in *.
  destruct (all_delivered relay_api (n_api (core s)) requests).
  - destruct Hres as (x & -> & Hx). exists x, s'.
    split; [reflexivity|]. split; [exact Hcore|]. split; [exact Hlog|].
    split; [reflexivity|]. intros _. destruct x; [eauto|].
    destruct (Hx eq_refl) as [_ Hnil].
    exfalso. eapply staff_requests_nonempty. exact Hnil.
  - destruct Hres as (e & ->). exists None, s'.
    split; [reflexivity|]. split; [exact Hcore|]. split; [exact Hlog|].
    split; [intros [x Hx]; discriminate|discriminate].
Qed.

End Forwarding.

(** X19.  A message of a user who is writing an issue and holds a thread:
    [gateway_u2a] makes the requests of the branch of
    [copy_message_to_admin] that the message selects, each once the one
    before was delivered, and then asks for one reaction on the message of
    the user.  [msg_count] is incremented exactly when every request of the
    branch was delivered; so a sticker whose header was delivered and whose
    [send_sticker] was refused is not counted, though the header is in the
    thread.  The handler does not raise and keeps the dialogue state. *)
Theorem user_message_counted (env : Env)
    (relay_api : nat -> Call -> py_result Z) (message : Incoming)
    (state : Z * Z) (uid topic : Z) (u : User) (s : Session) :
  forum_service (content message) = false ->
  fsm (core s) !! state = Some writing_issue ->
  from_user (envelope message) = Some uid -> uid <> 0 ->
  users (db (core s)) !! uid = Some u ->
  topic_id u = Some topic -> topic <> 0 ->
  let m := envelope message in
  let out := gateway_u2a env relay_api message state s in
  let requests := staff_requests topic (anon_id u) message in
  let rank := n_api (core s) in
  let delivered := all_delivered relay_api rank requests in
  let made := attempts relay_api rank requests in
  fst out = Return tt /\
  db (core (snd out)) =
    (if delivered
     then Db.increment_message_count uid (clock env (n_clock (core s))) (db (core s))
     else db (core s)) /\
  fsm (core (snd out)) = fsm (core s) /\
  log (snd out) =
    log s ++ made ++
    [Asked (length made + rank)
       (SetMessageReaction (chat_id m) (message_id m)
          (if delivered then check_mark else cross_mark))].
Proof.
  intros Hservice Hstate Hfrom Hnz Hu Htopic Htnz m out requests rank delivered made.
  subst out m.
  destruct (gateway_u2a env relay_api message state s) as [res s'] eqn:Hout.
  cbn [fst snd]. revert Hout. unfold gateway_u2a. cbv zeta. rewrite Hservice.
  unfold and_then at 1, lift_core at 1, get_state. cbv beta iota.
  rewrite Hstate. cbn [core log].
  unfold and_then at 1, lift_core at 1, sender. rewrite Hfrom.
  unfold ret at 1. cbv beta iota. cbn [core log].
  unfold and_then at 1, lift_core at 1, get_user, bind, get_db, ret.
  cbv beta iota. cbn [core log]. rewrite get_user_by_id by assumption.
  rewrite Hu. cbv beta iota. rewrite Htopic. cbn [truthy].
  rewrite (proj2 (Z.eqb_neq topic 0) Htnz). cbn [negb].
  destruct (copy_message_to_admin_outcome relay_api uid message topic u
              (mkSession (core s) (log s)) Hnz Hu)
    as (copied & s1 & Heq & Hcore & Hlog & Hsome).
  cbn [core log] in *. fold requests rank in Hcore, Hlog, Hsome.
  fold made in Hcore, Hlog. fold delivered in Hsome.
  unfold attempt at 1, and_then at 1. rewrite Heq.
  destruct copied as [z|].
  - assert (Hd : delivered = true) by (apply Hsome; eauto). rewrite Hd.
    unfold increment_message_count. run_relay. rewrite Hcore. run_relay.
    destruct (relay_api _ _); run_relay; intros [= <- <-];
      cbn [core log db fsm]; rewrite Hlog, <- app_assoc; repeat split.
  - assert (Hd : delivered = false).
    { destruct delivered; [|reflexivity].
      destruct (proj2 Hsome eq_refl) as [x Hx]. discriminate. }
    rewrite Hd. run_relay. rewrite Hcore. run_relay.
    destruct (relay_api _ _); run_relay; intros [= <- <-];
      cbn [core log db fsm]; rewrite Hlog, <- app_assoc; repeat split.
Qed.

(** X19 for a sticker of user 5 where [send_sticker] is refused. *)
Lemma user_message_counted_witness :
  let out :=
    gateway_u2a Scenario.env_ok RelayCases.no_stickers (RelayCases.sticker_from 5)
      (5, 5) RelayCases.writing in
  fst out = Return tt /\
  db (core (snd out)) = db Scenario.opened /\
  staff_copies (log (snd out)) =
    [StaffCopy send_message 1001 (Some (of_ascii "USER-AAAAA"))
       (RelayCases.sticker_from 5);
     StaffCopy send_sticker 1001 None (RelayCases.sticker_from 5)].
Proof.
  intros out.
  destruct (user_message_counted Scenario.env_ok RelayCases.no_stickers
              (RelayCases.sticker_from 5) (5, 5) 5 1001 Scenario.row5
              RelayCases.writing) as (H1 & H2 & _ & H4).
  - reflexivity.
  - vm_compute. reflexivity.
  - reflexivity.
  - lia.
  - vm_compute. reflexivity.
  - reflexivity.
  - lia.
  - subst out. split; [exact H1|]. split; [rewrite H2|rewrite H4];
      vm_compute; reflexivity.
Defined.

Lemma staff_copies_app (l1 l2 : list Entry) :
  staff_copies (l1 ++ l2) = staff_copies l1 ++ staff_copies l2.
Proof.
  induction l1 as [|[k []|] l1 IH]; simpl; rewrite ?IH; reflexivity.
Qed.

(** Outside the state [writing_issue] nothing is relayed. *)
Lemma gateway_u2a_idle (env : Env) (relay_api : nat -> Call -> py_result Z)
    (message : Incoming) (state : Z * Z) (s : Session) :
  fsm (core s) !! state <> Some writing_issue ->
  let m := envelope message in
  let out := gateway_u2a env relay_api message state s in
  db (core (snd out)) = db (core s) /\
  fsm (core (snd out)) = fsm (core s) /\
  trace (core (snd out)) = trace (core s) /\
  log (snd out) =
    log s ++
    (if unanswered message then []
     else [Asked (n_api (core s))
             (SendLeaflet (chat_id m)
                (if is_topic_message m then message_thread_id m else None)
                TicketFirst)]).
Proof.
  intros Hstate m out. subst out m.
  destruct (gateway_u2a env relay_api message state s) as [res s'] eqn:Hout.
  cbn [fst snd]. revert Hout. unfold gateway_u2a, unanswered. cbv zeta.
  destruct (forum_service (content message)); cbn [orb].
  { intros [= <- <-]. rewrite app_nil_r. repeat split. }
  unfold and_then at 1, lift_core at 1, get_state. cbv beta iota. cbn [core log].
  assert (Hidle : forall k1 k2 : Act unit,
            match fsm (core s) !! state with
            | Some writing_issue => k1
            | _ => k2
            end = k2).
  { intros k1 k2. destruct (fsm (core s) !! state) as [[]|]; try reflexivity.
    contradiction. }
  rewrite Hidle. clear Hidle.
  destruct (has_text (envelope message) && _).
  { intros [= <- <-]. cbn [core log]. rewrite app_nil_r. repeat split. }
  run_relay.
  destruct (relay_api (n_api (core s)) _); intros [= <- <-]; repeat split.
Qed.

(** X20.  [process_cancel] by a user clears the dialogue state of the
    user, whatever request is refused, and leaves the rows of the other
    users as they are.  When the state was [writing_issue] or
    [choosing_category] the ticket the user holds is closed, whether or not
    the notice to the staff was delivered; in any other state the database
    is not written, so a ticket held then stays open.  A message the user
    sends next is not relayed to the staff and not counted. *)
Theorem cancel_closes_ticket (env : Env)
    (relay_api : nat -> Call -> py_result Z) (message : Incoming)
    (state : Z * Z) (uid : Z) (s : Session) :
  from_user (envelope message) = Some uid -> uid <> 0 ->
  let out := process_cancel env relay_api message state s in
  fsm (core (snd out)) = delete state (fsm (core s)) /\
  (forall k, k <> uid ->
     users (db (core (snd out))) !! k = users (db (core s)) !! k) /\
  match fsm (core s) !! state with
  | Some writing_issue | Some choosing_category =>
      users (db (core (snd out))) !! uid =
        ticket_closed <$> users (db (core s)) !! uid
  | _ => db (core (snd out)) = db (core s)
  end /\
  forall next,
    let after := gateway_u2a env relay_api next state (snd out) in
    db (core (snd after)) = db (core (snd out)) /\
    staff_copies (log (snd after)) = staff_copies (log (snd out)).
Proof.
  intros Hfrom Hnz out.
  assert (Hmain :
    fsm (core (snd out)) = delete state (fsm (core s)) /\
    (forall k, k <> uid ->
       users (db (core (snd out))) !! k = users (db (core s)) !! k) /\
    match fsm (core s) !! state with
    | Some writing_issue | Some choosing_category =>
        users (db (core (snd out))) !! uid =
          ticket_closed <$> users (db (core s)) !! uid
    | _ => db (core (snd out)) = db (core s)
    end).
  { subst out.
    destruct (process_cancel env relay_api message state s) as [res s'] eqn:Hout.
    cbn [fst snd]. revert Hout. unfold process_cancel. cbv zeta.
    unfold and_then at 1, lift_core at 1, get_state. cbv beta iota. cbn [core log].
    unfold and_then at 1.
    set (closing :=
      let+ uid := lift_core (sender (envelope message)) in
      let+ u := lift_core (get_user (Some uid) None) in
      match u with
      | Some u =>
          if truthy (topic_id u) then
            let+ _ := quietly
                        (let+ t := lift_core (now env) in
                         call relay_api
                           (SendLeaflet (ADMIN_GROUP_ID env) (topic_id u)
                              (ClosedByUser (anon_id u) uid t))) in
            lift_core (close_ticket uid)
          else pure tt
      | None => pure tt
      end).
    assert (Hclosing : exists s1,
      closing (mkSession (core s) (log s)) = (Return tt, s1) /\
      fsm (core s1) = fsm (core s) /\
      (forall k, k <> uid -> users (db (core s1)) !! k = users (db (core s)) !! k) /\
      users (db (core s1)) !! uid = ticket_closed <$> users (db (core s)) !! uid).
    { subst closing. unfold sender. rewrite Hfrom. unfold get_user. run_relay.
      rewrite get_user_by_id by assumption.
      destruct (users (db (core s)) !! uid) as [u|] eqn:Hu.
      - unfold ticket_closed. simpl. destruct (truthy (topic_id u)); run_relay.
        + destruct (relay_api (n_api (core s)) _); run_relay;
            (eexists; split; [reflexivity|]); cbn [core fsm db];
            (split; [reflexivity|]);
            (split; [intros k Hk; apply lookup_alter_ne; congruence|]);
            cbn [Db.close_ticket with_users users];
            rewrite lookup_alter_eq, Hu; reflexivity.
        + eexists. split; [reflexivity|]. cbn [core]. repeat split. exact Hu.
      - run_relay. eexists. split; [reflexivity|]. cbn [core]. repeat split.
        exact Hu. }
    assert (Htail : forall s1 r s2,
      (let+ _ := lift_core (set_state state None) in
       let+ _ := send_leaflet_with_typing env relay_api
                   (chat_id (envelope message)) MainMenu in
       pure tt) s1 = (r, s2) ->
      fsm (core s2) = delete state (fsm (core s1)) /\ db (core s2) = db (core s1)).
    { intros s1 r s2. unfold send_leaflet_with_typing. run_relay.
      repeat (match goal with
              | |- context [bot_api env ?k ?q] => destruct (bot_api env k q)
              | |- context [relay_api ?k ?q] => destruct (relay_api k q)
              end; run_relay);
      intros [= <- <-]; split; reflexivity. }
    destruct (fsm (core s) !! state) as [[]|] eqn:Hstate;
      try (destruct Hclosing as (s1 & -> & F1 & F2 & F3);
           intros Htl; apply Htail in Htl as [T1 T2];
           rewrite T1, T2, F1; repeat split; assumption);
      unfold pure at 1; cbv beta iota;
      intros Htl; apply Htail in Htl as [T1 T2];
      rewrite T1, T2; repeat split. }
  destruct Hmain as (H1 & H2 & H3).
  split; [exact H1|]. split; [exact H2|]. split; [exact H3|].
  intros next after.
  destruct (gateway_u2a_idle env relay_api next state (snd out))
    as (G1 & _ & _ & G2).
  { rewrite H1, lookup_delete_eq. discriminate. }
  fold after in G1, G2. split; [exact G1|].
  rewrite G2, staff_copies_app. destruct (unanswered next); simpl;
    rewrite app_nil_r; reflexivity.
Qed.

(** X20 for user 5, who is writing an issue in thread 1001. *)
Lemma cancel_closes_ticket_witness :
  let out :=
    process_cancel Scenario.env_ok RelayCases.delivers (RelayCases.sticker_from 5)
      (5, 5) RelayCases.writing in
  fsm (core (snd out)) !! (5, 5) = None /\
  users (db (core (snd out))) !! 5 = Some (set_topic_id None Scenario.row5).
Proof.
  intros out.
  destruct (cancel_closes_ticket Scenario.env_ok RelayCases.delivers
              (RelayCases.sticker_from 5) (5, 5) 5 RelayCases.writing)
    as (H1 & _ & H3 & _).
  - reflexivity.
  - lia.
  - subst out. split; [rewrite H1; apply lookup_delete_eq|].
    exact H3.
Defined.

(** ** Referrals *)

Lemma relay_apply {A} (P : DB -> Prop) (m : Act A) (s : Session) :
  relay_preserves P m -> P (db (core s)) -> P (db (core (snd (m s)))).
Proof. intros H. apply H. Qed.

Section Referral.

Variable env : Env.
Variable uid : Z.
Variable d0 : DB.

Lemma enrolled_unreferred d : enrolled uid d0 d -> unreferred uid d0 d.
Proof.
  intros (Hl & u & Hu & Hr). split; [exact Hl|].
  intros Hnone u' Hu'. rewrite Hu in Hu'. injection Hu' as <-. auto.
Qed.

Lemma unreferred_refl : unreferred uid d0 d0.
Proof. split; [reflexivity|]. intros Hnone u Hu. congruence. Qed.

Lemma enrolled_register rid : preserves (enrolled uid d0) (register env uid rid).
Proof.
  intros w (Hl & u & Hu & Hr). rewrite (register_known env uid rid u w Hu).
  cbn [snd db]. split; [exact Hl|].
  exists (set_last_seen (clock env (n_clock w)) u).
  split; [apply touch_lookup; exact Hu|exact Hr].
Qed.

Lemma enrolled_update_user_ban banned until reason :
  preserves (enrolled uid d0) (update_user_ban uid banned until reason).
Proof.
  apply preserves_modify_db. intros d (Hl & u & Hu & Hr). split; [exact Hl|].
  exists (set_ban banned until reason u). split; [|exact Hr].
  apply ban_row. exact Hu.
Qed.

Lemma register_first w w1 :
  db w = d0 ->
  register env uid None w = (Return tt, w1) -> enrolled uid d0 (db w1).
Proof.
  intros <-. unfold register, bind at 1, get_db.
  destruct (users (db w) !! uid) as [u|] eqn:Hu.
  - run_monad. intros [= <-]. cbn [db]. split; [reflexivity|].
    exists (set_last_seen (clock env (n_clock w)) u).
    split; [apply touch_lookup; exact Hu|]. intros Hnone. congruence.
  - unfold random_suffix, db_try. run_monad. unfold Db.insert_user.
    destruct (Db.anon_taken _ _); run_monad; [discriminate|].
    intros [= <-]. cbn [db]. split; [reflexivity|].
    eexists. cbn [users]. rewrite lookup_insert_eq. split; reflexivity.
Qed.

Lemma register_refused w e w1 :
  register env uid None w = (Raise e, w1) -> db w1 = db w.
Proof.
  unfold register, bind at 1, get_db.
  destruct (users (db w) !! uid) as [u|] eqn:Hu.
  - run_monad. discriminate.
  - unfold random_suffix, db_try. run_monad. unfold Db.insert_user.
    destruct (Db.anon_taken _ _); run_monad; [|discriminate].
    intros [= _ <-]. reflexivity.
Qed.

(** What the guard leaves behind for its handler. *)
Lemma guard_enrolls event w r w1 :
  from_user event = Some uid -> chat_type event = Private -> db w = d0 ->
  GuardMiddleware env (fun _ => ret tt) event w = (r, w1) ->
  unreferred uid d0 (db w1) /\
  (r = Return (Some tt) -> enrolled uid d0 (db w1)).
Proof.
  intros Hfrom Hchat Hd0. unfold GuardMiddleware. rewrite Hfrom, Hchat.
  unfold bind at 1.
  destruct (register env uid None w) as [[[]|e] w2] eqn:Hreg.
  - apply (register_first w w2 Hd0) in Hreg.
    intros Hrest.
    assert (Hw1 : enrolled uid d0 (db w1)).
    { change w1 with (snd (r, w1)). rewrite <- Hrest.
      apply preserves_apply; [|exact Hreg].
      repeat preserves_step; apply enrolled_update_user_ban. }
    split; [apply enrolled_unreferred, Hw1|intros _; exact Hw1].
  - intros [= <- <-]. apply register_refused in Hreg. rewrite Hreg, Hd0.
    split; [apply unreferred_refl|discriminate].
Qed.

End Referral.

(** X21.  In a private chat, [/start] with a referral argument records
    no referral: the guard registers the sender, without referrer, before
    [cmd_start] runs, so the [register] of [cmd_start] finds the user in
    the table and only refreshes [last_seen].  The table [referrals] is
    unchanged, and a user who is new has no [referrer_id]. *)
Theorem private_start_drops_referral (env : Env)
    (relay_api : nat -> Call -> py_result Z) (message : Incoming)
    (args : option pystr) (state : Z * Z) (uid : Z) (s : Session) :
  from_user (envelope message) = Some uid ->
  chat_type (envelope message) = Private ->
  let out :=
    guarded env (cmd_start env relay_api message args state)
      (envelope message) s in
  referrals (db (core (snd out))) = referrals (db (core s)) /\
  (users (db (core s)) !! uid = None ->
   forall u, users (db (core (snd out))) !! uid = Some u -> referrer_id u = None).
Proof.
  intros Hfrom Hchat out.
  change (unreferred uid (db (core s)) (db (core (snd out)))).
  subst out. unfold guarded, and_then at 1, lift_core at 1.
  destruct (GuardMiddleware env (fun _ => ret tt) (envelope message) (core s))
    as [r w1] eqn:Hguard.
  destruct (guard_enrolls env uid (db (core s)) _ _ _ _ Hfrom Hchat eq_refl Hguard)
    as [Hun Henr].
  destruct r as [[[]|]|e]; [|exact Hun|exact Hun].
  specialize (Henr eq_refl).
  assert (Hstart : enrolled uid (db (core s))
            (db (core (snd (cmd_start env relay_api message args state
                              (mkSession w1 (log s))))))).
  { unfold cmd_start. cbv zeta.
    unfold and_then at 1, lift_core at 1, set_state at 1. cbv beta iota.
    cbn [core log db fsm trace n_clock n_api n_rand].
    unfold and_then at 1, lift_core at 1, sender. rewrite Hfrom.
    unfold ret at 1. cbv beta iota. cbn [core log].
    apply (relay_apply (enrolled uid (db (core s)))); [|exact Henr].
    repeat relay_step;
      try apply relay_send_leaflet; try apply relay_send_photo.
    apply enrolled_register. }
  apply enrolled_unreferred.
  unfold and_then at 1.
  destruct (cmd_start env relay_api message args state (mkSession w1 (log s)))
    as [[[]|e] s2]; exact Hstart.
Qed.

Lemma bind_assoc {A B C} (m : M A) (f : A -> M B) (g : B -> M C) (w : World) :
  bind (bind m f) g w = bind m (fun a => bind (f a) g) w.
Proof. unfold bind. destruct (m w) as [[a|e] w']; reflexivity. Qed.

Lemma bind_ext {A B} (m : M A) (f g : A -> M B) (w : World) :
  (forall a w', f a w' = g a w') -> bind m f w = bind m g w.
Proof. intros H. unfold bind. destruct (m w) as [[a|e] w']; [apply H|reflexivity]. Qed.

Lemma bind_handler {A} (m : M A) (w : World) :
  bind m (fun r => ret (Some r)) w =
  bind (let* r := ret tt in ret (Some r))
    (fun pass : option unit =>
       match pass with
       | Some _ => let* r := m in ret (Some r)
       | None => ret None
       end) w.
Proof. reflexivity. Qed.

(** The guard around a handler is the guard around nothing, followed by the
    handler when the guard lets the event through. *)
Lemma guard_factors {R} (env : Env) (handler : Message -> M R)
    (event : Message) (w : World) :
  GuardMiddleware env handler event w =
  (let* pass := GuardMiddleware env (fun _ => ret tt) event in
   match pass with
   | Some _ => let* r := handler event in ret (Some r)
   | None => ret None
   end) w.
Proof.
  unfold GuardMiddleware.
  destruct (from_user event) as [uid|]; [destruct (chat_type event)|];
    try apply bind_handler.
  rewrite bind_assoc. apply bind_ext. intros _ w1.
  rewrite bind_assoc. apply bind_ext. intros [u|] w2; [|apply bind_handler].
  destruct (is_banned u); [|apply bind_handler].
  destruct (ban_until u) as [bt|].
  - rewrite bind_assoc. apply bind_ext. intros t w3.
    destruct (bt <? t).
    + rewrite bind_assoc. apply bind_ext. intros _ w4. apply bind_handler.
    + rewrite bind_assoc. apply bind_ext. intros t' w4.
      rewrite bind_assoc. apply bind_ext. intros _ w5. reflexivity.
  - rewrite bind_assoc. apply bind_ext. intros _ w3. reflexivity.
Qed.

(** X21 for the first [/start 7] of user 9, in the private chat; the same
    command where the guard lets every message through records the
    referral. *)
Lemma private_start_drops_referral_witness :
  let guarded_start :=
    guarded Scenario.env_ok
      (cmd_start Scenario.env_ok RelayCases.delivers (RelayCases.start_from 9)
         (Some (of_ascii "7")) (9, 9))
      (envelope (RelayCases.start_from 9)) RelayCases.fresh in
  let group_start :=
    guarded Scenario.env_ok
      (cmd_start Scenario.env_ok RelayCases.delivers (RelayCases.start_in_group 9)
         (Some (of_ascii "7")) (-200, 9))
      (envelope (RelayCases.start_in_group 9)) RelayCases.fresh in
  referrals (db (core (snd guarded_start))) = [] /\
  (referrer_id <$> users (db (core (snd guarded_start))) !! 9) = Some None /\
  referrals (db (core (snd group_start))) = [(7, 9)].
Proof.
  intros guarded_start group_start.
  destruct (private_start_drops_referral Scenario.env_ok RelayCases.delivers
              (RelayCases.start_from 9) (Some (of_ascii "7")) (9, 9) 9
              RelayCases.fresh) as [H1 H2].
  - reflexivity.
  - reflexivity.
  - split; [exact H1|]. split; vm_compute; reflexivity.
Defined.

(** ** The tables through every run of the relay *)

Lemma consistent_closed : closed_under_writes consistent.
Proof.
  constructor.
  - intros uid rid aid t d d' _. apply consistent_insert_user.
  - intros. apply consistent_alter; [reflexivity|reflexivity|assumption].
  - intros. apply consistent_add_warn; assumption.
  - intros. apply consistent_close_ticket; assumption.
  - intros uid tid d d'. apply consistent_set_topic.
  - intros. apply consistent_alter; [reflexivity|reflexivity|assumption].
  - intros. apply consistent_alter; [reflexivity|reflexivity|assumption].
  - intros. apply consistent_alter; [reflexivity|reflexivity|assumption].
  - intros admin sent failed t d [Hk Hu]. split; assumption.
Qed.

(** X22.  The handlers of the relay ([cmd_start], [process_cat_selection],
    [process_cancel], [gateway_u2a], [gateway_a2u], with or without the
    guard before them) and those of the broadcast dialogue write the
    database through the same statements as the other handlers.  So in every run that mixes them with the others:
    each row stays under its own [user_id] and no two rows share a thread,
    anonymous identifiers stay unique, the counter [warns] of every user is
    the number of the warnings on record, and no row is deleted, has its
    registration columns rewritten, its counters lowered or its [is_active]
    set back to true. *)
Theorem relay_keeps_tables (env : Env)
    (relay_api : nat -> Call -> py_result Z) (ds : list Delivery) (s : Session) :
  consistent (db (core s)) -> anon_unique (db (core s)) -> ledger (db (core s)) ->
  let s' := relay_run env relay_api ds s in
  consistent (db (core s')) /\ anon_unique (db (core s')) /\
  ledger (db (core s')) /\
  forall uid u0,
    users (db (core s)) !! uid = Some u0 ->
    exists u, users (db (core s')) !! uid = Some u /\ evolves u0 u.
Proof.
  intros Hc Ha Hl s'. subst s'.
  split; [apply relay_run_keeps; [apply consistent_closed|exact Hc]|].
  split; [apply relay_run_keeps; [apply anon_unique_closed|exact Ha]|].
  split; [apply relay_run_keeps; [apply ledger_closed|exact Hl]|].
  intros uid u0 Hu.
  apply (relay_run_keeps _ (descends_closed uid u0)).
  exists u0. split; [exact Hu|apply evolves_refl].
Qed.

(** X22 for a day of user 5, from an empty database. *)
Lemma relay_keeps_tables_witness :
  let s' :=
    relay_run Scenario.env_ok RelayCases.delivers RelayCases.a_day
      RelayCases.fresh in
  consistent (db (core s')) /\ ledger (db (core s')) /\
  warns_of 5 (db (core s')) = 1.
Proof.
  intros s'.
  destruct (relay_keeps_tables Scenario.env_ok RelayCases.delivers
              RelayCases.a_day RelayCases.fresh) as (H1 & _ & H3 & _).
  - exact consistent_empty.
  - exact anon_unique_empty.
  - intros k. reflexivity.
  - split; [exact H1|]. split; [exact H3|]. vm_compute. reflexivity.
Defined.

(** ** Messages that are not relayed *)

(** X23.  [gateway_u2a] relays only for a sender who is writing an issue
    and holds a thread.  In any other dialogue state nothing is relayed or
    written: a service message, a command and a label of the keyboard are
    left without answer, any other message is answered with the
    instructions.  A sender who is writing an issue but holds no thread is
    told to create a ticket first, and nothing is relayed or counted. *)
Theorem user_message_needs_ticket (env : Env)
    (relay_api : nat -> Call -> py_result Z) (message : Incoming)
    (state : Z * Z) (s : Session) :
  let m := envelope message in
  let out := gateway_u2a env relay_api message state s in
  let thread := if is_topic_message m then message_thread_id m else None in
  let told body := [Asked (n_api (core s)) (SendLeaflet (chat_id m) thread body)] in
  (fsm (core s) !! state <> Some writing_issue ->
   db (core (snd out)) = db (core s) /\
   fsm (core (snd out)) = fsm (core s) /\
   log (snd out) = log s ++ (if unanswered message then [] else told TicketFirst)) /\
  (fsm (core s) !! state = Some writing_issue ->
   forum_service (content message) = false ->
   forall uid,
     from_user m = Some uid ->
     (forall u, Db.get_user (Some uid) None (db (core s)) = Some u ->
                truthy (topic_id u) = false) ->
     db (core (snd out)) = db (core s) /\
     fsm (core (snd out)) = fsm (core s) /\
     log (snd out) = log s ++ told MenuFirst).
Proof.
  intros m out thread told. split.
  - intros Hstate.
    destruct (gateway_u2a_idle env relay_api message state s Hstate)
      as (H1 & H2 & _ & H4).
    split; [exact H1|]. split; [exact H2|exact H4].
  - intros Hstate Hservice uid Hfrom Hnone. subst out m told thread.
    destruct (gateway_u2a env relay_api message state s) as [res s'] eqn:Hout.
    cbn [fst snd]. revert Hout. unfold gateway_u2a. cbv zeta. rewrite Hservice.
    unfold and_then at 1, lift_core at 1, get_state. cbv beta iota.
    rewrite Hstate. cbn [core log].
    unfold and_then at 1, lift_core at 1, sender. rewrite Hfrom.
    unfold ret at 1. cbv beta iota. cbn [core log].
    unfold and_then at 1, lift_core at 1, get_user, bind, get_db, ret.
    cbv beta iota. cbn [core log].
    destruct (Db.get_user (Some uid) None (db (core s))) as [u|] eqn:Hget.
    + specialize (Hnone u eq_refl).
      destruct (topic_id u) as [topic|]; [rewrite Hnone|]; run_relay;
        destruct (relay_api (n_api (core s)) _); intros [= <- <-]; repeat split.
    + run_relay.
      destruct (relay_api (n_api (core s)) _); intros [= <- <-]; repeat split.
Qed.

(** ** The arguments of the moderation commands *)

Lemma word_no_space (s w r : pystr) :
  Text.word s = (w, r) -> Forall (fun c => Text.isspace c = false) w.
Proof.
  revert w r. induction s as [|c s IH]; simpl; intros w r.
  - intros [= <- <-]. constructor.
  - destruct (Text.isspace c) eqn:Hc.
    + intros [= <- <-]. constructor.
    + destruct (Text.word s) as [w' r'] eqn:Hw. intros [= <- <-].
      constructor; [exact Hc|]. eapply IH. reflexivity.
Qed.

Lemma split_fields (n : nat) (s : pystr) :
  (length (Text.split n s) <= S n)%nat /\
  Forall (fun f => f <> []) (Text.split n s) /\
  forall i f, (i < n)%nat -> Text.split n s !! i = Some f ->
              Forall (fun c => Text.isspace c = false) f.
Proof.
  revert s. induction n as [|n IH]; intros s.
  - simpl. destruct (Text.lstrip s) as [|c r]; simpl.
    + repeat split; [lia|constructor|intros; lia].
    + repeat split; [lia|repeat constructor; discriminate|intros; lia].
  - simpl. destruct (Text.lstrip s) as [|c r] eqn:Hs; simpl.
    + repeat split; [lia|constructor|]. intros i f _ Hf. discriminate.
    + destruct (Text.isspace c) eqn:Hc.
      * exfalso. clear IH. revert Hs. induction s as [|c0 s IHs]; simpl; [discriminate|].
        destruct (Text.isspace c0) eqn:Hc0; [exact IHs|].
        intros [= -> ->]. congruence.
      * destruct (Text.word r) as [w rest] eqn:Hw.
        destruct (IH rest) as (L1 & L2 & L3). simpl.
        split; [lia|]. split; [constructor; [discriminate|exact L2]|].
        intros [|i] f Hi; simpl.
        -- intros [= <-]. constructor; [exact Hc|]. eapply word_no_space. exact Hw.
        -- apply L3. lia.
Qed.

Lemma split_reason_field (args : option pystr) (time_str reason : pystr)
    (rest : list pystr) :
  split_args args = time_str :: reason :: rest ->
  reason_field (split_args args) reason.
Proof.
  intros Hs.
  destruct (split_fields 2 (default [] args)) as (L1 & L2 & L3).
  fold (split_args args) in L1, L2, L3. rewrite Hs in L1, L2, L3 |- *.
  exists time_str, rest. split; [reflexivity|]. split; [split|].
  - inversion L2 as [|? ? _ L2']; inversion L2'; assumption.
  - apply (L3 1%nat reason); [lia|reflexivity].
  - simpl in L1. lia.
Qed.

Section Reasons.

Variable env : Env.
Variable parts : list pystr.

Lemma warned_add_warn old uid admin reason :
  reason_field parts reason ->
  preserves (warned parts old) (add_warn env uid admin (Some reason)).
Proof.
  intros Hr w H. unfold add_warn, bind, get_db.
  destruct (users (db w) !! uid) eqn:E; simpl; [|exact H].
  intros rec [Hin|Hin]%elem_of_app; [apply H, Hin|].
  apply list_elem_of_singleton in Hin as ->. right. exists reason. split; [reflexivity|exact Hr].
Qed.

Lemma warned_update_user_ban old uid b until reason :
  preserves (warned parts old) (update_user_ban uid b until reason).
Proof. apply preserves_modify_db. intros d H. exact H. Qed.

Lemma banned_update_user_ban old uid until reason :
  (reason = rule_violation /\ exists time_str, parts = [time_str]) \/
  reason_field parts reason ->
  preserves (banned parts old) (update_user_ban uid true until (Some reason)).
Proof.
  intros Hr. apply preserves_modify_db. intros d H k row.
  unfold Db.update_user_ban. cbn [users with_users].
  destruct (decide (uid = k)) as [<-|Hne].
  - rewrite lookup_alter_eq. destruct (users d !! uid) as [u|]; [|discriminate].
    intros [= <-]. right. cbn [ban_reason set_ban].
    destruct Hr as [[-> Hp]|Hr]; [left; split; [reflexivity|exact Hp]|].
    right. exists reason. split; [reflexivity|exact Hr].
  - rewrite lookup_alter_ne by exact Hne. apply H.
Qed.

Lemma adm_warn_reasons old message args :
  parts = split_args args ->
  preserves (warned parts old) (adm_warn env message args).
Proof.
  intros Hparts. unfold adm_warn.
  destruct (split_args args) as [|time_str [|reason rest]] eqn:Hs;
    repeat preserves_step;
    try apply warned_update_user_ban.
  apply warned_add_warn. rewrite Hparts, <- Hs.
  eapply split_reason_field. exact Hs.
Qed.

Lemma adm_ban_reasons old message args :
  parts = split_args args ->
  preserves (banned parts old) (adm_ban env message args).
Proof.
  intros Hparts. unfold adm_ban.
  destruct (split_args args) as [|time_str [|reason rest]] eqn:Hs;
    cbv zeta; repeat preserves_step;
    apply banned_update_user_ban.
  - left. split; [reflexivity|]. exists time_str. exact Hparts.
  - right. rewrite Hparts, <- Hs. eapply split_reason_field. exact Hs.
Qed.

End Reasons.

(** X24.  The reason that [/warn] records and [/ban] writes is the second
    field of the arguments, split at white space with [maxsplit=2]: one
    word, never empty and without white space, followed by one more field
    at most, which is dropped.  So each warning on record after [/warn]
    was there before or carries such a word, and each row after [/ban] was
    there before or carries such a word, or the default reason when the
    command has its first field only. *)
Theorem command_arguments (env : Env) (message : Message)
    (args : option pystr) (w : World) :
  (forall rec,
     rec ∈ warns_history (db (snd (adm_warn env message args w))) ->
     rec ∈ warns_history (db w) \/
     exists reason, warn_reason rec = Some reason /\
                    reason_field (split_args args) reason) /\
  (forall k row,
     users (db (snd (adm_ban env message args w))) !! k = Some row ->
     users (db w) !! k = Some row \/
     (ban_reason row = Some rule_violation /\
      exists time_str, split_args args = [time_str]) \/
     exists reason, ban_reason row = Some reason /\
                    reason_field (split_args args) reason).
Proof.
  split.
  - apply (adm_warn_reasons env (split_args args) (warns_history (db w))
             message args eq_refl w).
    intros rec Hin. left. exact Hin.
  - apply (adm_ban_reasons env (split_args args) (users (db w))
             message args eq_refl w).
    intros k row Hk. left. exact Hk.
Qed.

(** [/warn 1h spam and insults] puts [spam] on record, and so does the same
    command with a no-break space after the duration. *)
Example warn_reason_is_one_word :
  let typed (args : pystr) :=
    warn_reason <$>
      last (warns_history
              (db (snd (adm_warn Scenario.env_ok (Scenario.staff_message 1001)
                          (Some args) Scenario.opened)))) in
  typed (of_ascii "1h spam and insults") = Some (Some (of_ascii "spam")) /\
  typed (of_ascii "1h" ++ [160%N] ++ of_ascii "spam and insults") =
    Some (Some (of_ascii "spam")).
Proof. vm_compute. split; reflexivity. Qed.

(** ** Users who blocked the bot *)

(** X25.  A user whose [is_active] is false, as the broadcast and
    [gateway_a2u] leave a user who has blocked the bot, is a recipient of
    no later broadcast: in every run that follows, the snapshot
    [get_all_active_users] does not hold the user. *)
Theorem inactive_never_recipient (env : Env) (actions : list Action)
    (w : World) (uid : Z) (u0 : User) :
  consistent (db w) ->
  users (db w) !! uid = Some u0 -> is_active u0 = false ->
  uid ∉ Db.get_all_active_users (db (run env actions w)).
Proof.
  intros Hc Hu Hoff Hin.
  assert (Hc' : consistent (db (run env actions w))) by (apply consistent_run, Hc).
  apply (active_users_elem _ _ (proj1 Hc')) in Hin as (u & Hu' & Hact & _).
  destruct (writes_run _ (descends_closed uid u0) env actions w) as (u' & Hu'' & He).
  { exists u0. split; [exact Hu|apply evolves_refl]. }
  rewrite Hu' in Hu''. injection Hu'' as <-.
  rewrite (stays_inactive _ _ He Hoff) in Hact. discriminate.
Qed.


(** X25 for user 42, deactivated by a broadcast over fifty users on a
    transport where user 42 has blocked the bot: the next broadcast, on a
    transport that delivers, leaves the user out. *)
Lemma inactive_never_recipient_witness :
  42 ∉ Db.get_all_active_users
         (db (run Scenario.env_ok
                [DoBroadcast Scenario.confirm_click Scenario.announcement]
                (run Scenario.env_42
                   [DoBroadcast Scenario.confirm_click Scenario.announcement]
                   (Scenario.crowd 50)))).
Proof.
  eapply (inactive_never_recipient Scenario.env_ok
            [DoBroadcast Scenario.confirm_click Scenario.announcement]
            (run Scenario.env_42
               [DoBroadcast Scenario.confirm_click Scenario.announcement]
               (Scenario.crowd 50)) 42).
  - apply consistent_run, consistent_run, consistent_empty.
  - vm_compute. reflexivity.
  - reflexivity.
Defined.

(** ** Who may broadcast *)

Section States.

Context {R : gmap (Z * Z) BotStates -> Prop}.

Lemma fsm_ret {A} (a : A) : fsm_keeps R (ret a).
Proof. intros w H. exact H. Qed.

Lemma fsm_raise {A} (e : exn) : fsm_keeps R (raise (A := A) e).
Proof. intros w H. exact H. Qed.

Lemma fsm_lift {A} (r : py_result A) : fsm_keeps R (lift r).
Proof. intros w H. exact H. Qed.

Lemma fsm_bind {A B} (m : M A) (f : A -> M B) :
  fsm_keeps R m -> (forall a, fsm_keeps R (f a)) -> fsm_keeps R (bind m f).
Proof.
  intros Hm Hf w H. unfold bind. specialize (Hm w H).
  destruct (m w) as [[a|e] w']; simpl in *; [apply Hf|]; assumption.
Qed.

Lemma fsm_try_except {A} (m : M A) (h : exn -> M A) :
  fsm_keeps R m -> (forall e, fsm_keeps R (h e)) -> fsm_keeps R (try_except m h).
Proof.
  intros Hm Hh w H. unfold try_except. specialize (Hm w H).
  destruct (m w) as [[a|e] w']; simpl in *; [|apply Hh]; assumption.
Qed.

Lemma fsm_get_db : fsm_keeps R get_db.
Proof. intros w H. exact H. Qed.

Lemma fsm_put_db (d : DB) : fsm_keeps R (put_db d).
Proof. intros w H. exact H. Qed.

Lemma fsm_modify_db (f : DB -> DB) : fsm_keeps R (modify_db f).
Proof. intros w H. exact H. Qed.

Lemma fsm_db_try (f : DB -> py_result DB) : fsm_keeps R (db_try f).
Proof.
  intros w H. unfold db_try, bind, get_db, lift, put_db.
  destruct (f (db w)); exact H.
Qed.

Lemma fsm_sleep (p : Pause) : fsm_keeps R (sleep p).
Proof. intros w H. exact H. Qed.

Lemma fsm_get_state (key : Z * Z) : fsm_keeps R (get_state key).
Proof. intros w H. exact H. Qed.

Lemma fsm_sender (m : Message) : fsm_keeps R (sender m).
Proof. intros w H. unfold sender. destruct (from_user m); exact H. Qed.

Lemma fsm_get_user (uid tid : option Z) : fsm_keeps R (get_user uid tid).
Proof. intros w H. exact H. Qed.

Variable env : Env.

Lemma fsm_now : fsm_keeps R (now env).
Proof. intros w H. exact H. Qed.

Lemma fsm_api (r : Request) : fsm_keeps R (api env r).
Proof. intros w H. exact H. Qed.

Lemma fsm_random_suffix : fsm_keeps R (random_suffix env).
Proof. intros w H. exact H. Qed.

Lemma fsm_answer (m : Message) (body : Notice) : fsm_keeps R (answer env m body).
Proof. intros w H. exact H. Qed.

Lemma relay_fsm_pure {A} (a : A) : relay_fsm_keeps R (pure a).
Proof. intros s H. exact H. Qed.

Lemma relay_fsm_and_then {A B} (m : Act A) (f : A -> Act B) :
  relay_fsm_keeps R m -> (forall a, relay_fsm_keeps R (f a)) ->
  relay_fsm_keeps R (and_then m f).
Proof.
  intros Hm Hf s H. unfold and_then. specialize (Hm s H).
  destruct (m s) as [[a|e] s']; simpl in *; [apply Hf|]; assumption.
Qed.

Lemma relay_fsm_attempt {A} (m : Act A) (h : exn -> Act A) :
  relay_fsm_keeps R m -> (forall e, relay_fsm_keeps R (h e)) ->
  relay_fsm_keeps R (attempt m h).
Proof.
  intros Hm Hh s H. unfold attempt. specialize (Hm s H).
  destruct (m s) as [[a|e] s']; simpl in *; [|apply Hh]; assumption.
Qed.

Lemma relay_fsm_lift_core {A} (m : M A) :
  fsm_keeps R m -> relay_fsm_keeps R (lift_core m).
Proof.
  intros Hm s H. unfold lift_core. specialize (Hm (core s) H).
  destruct (m (core s)) as [r w]. exact Hm.
Qed.

Lemma relay_fsm_call relay_api (c : Call) : relay_fsm_keeps R (call relay_api c).
Proof. intros s H. exact H. Qed.

Lemma relay_fsm_typing (body : Leaflet) : relay_fsm_keeps R (typing body).
Proof. intros s H. exact H. Qed.

End States.

Ltac fsm_step :=
  lazymatch goal with
  | |- fsm_keeps _ (bind _ _) => apply fsm_bind; [|intros ?]
  | |- fsm_keeps _ (try_except _ _) => apply fsm_try_except; [|intros ?]
  | |- fsm_keeps _ (ret _) => apply fsm_ret
  | |- fsm_keeps _ (raise _) => apply fsm_raise
  | |- fsm_keeps _ (lift _) => apply fsm_lift
  | |- fsm_keeps _ get_db => apply fsm_get_db
  | |- fsm_keeps _ (put_db _) => apply fsm_put_db
  | |- fsm_keeps _ (modify_db _) => apply fsm_modify_db
  | |- fsm_keeps _ (db_try _) => apply fsm_db_try
  | |- fsm_keeps _ (update_user_ban _ _ _ _) => apply fsm_modify_db
  | |- fsm_keeps _ (close_ticket _) => apply fsm_modify_db
  | |- fsm_keeps _ (sleep _) => apply fsm_sleep
  | |- fsm_keeps _ (get_state _) => apply fsm_get_state
  | |- fsm_keeps _ (now _) => apply fsm_now
  | |- fsm_keeps _ (api _ _) => apply fsm_api
  | |- fsm_keeps _ (random_suffix _) => apply fsm_random_suffix
  | |- fsm_keeps _ (answer _ _ _) => apply fsm_answer
  | |- fsm_keeps _ (get_user _ _) => apply fsm_get_user
  | |- fsm_keeps _ (sender _) => apply fsm_sender
  | |- fsm_keeps _ (match ?x with _ => _ end) => destruct x
  | |- relay_fsm_keeps _ (and_then _ _) => apply relay_fsm_and_then; [|intros ?]
  | |- relay_fsm_keeps _ (attempt _ _) => apply relay_fsm_attempt; [|intros ?]
  | |- relay_fsm_keeps _ (quietly _) => unfold quietly
  | |- relay_fsm_keeps _ (pure _) => apply relay_fsm_pure
  | |- relay_fsm_keeps _ (call _ _) => apply relay_fsm_call
  | |- relay_fsm_keeps _ (reply _ _ _) => apply relay_fsm_call
  | |- relay_fsm_keeps _ (react _ _ _) => apply relay_fsm_call
  | |- relay_fsm_keeps _ (typing _) => apply relay_fsm_typing
  | |- relay_fsm_keeps _ (lift_core _) => apply relay_fsm_lift_core
  | |- relay_fsm_keeps _ (match ?x with _ => _ end) => destruct x
  end.

Section Owner.

Variable env : Env.
Variable relay_api : nat -> Call -> py_result Z.

Lemma owner_only_clear key :
  fsm_keeps (owner_only env) (set_state key None).
Proof.
  intros w H chat uid st. cbn [set_state snd fsm]. intros Hst.
  apply lookup_delete_Some in Hst as [_ Hst]. eapply H. exact Hst.
Qed.

Lemma owner_only_set key st :
  broadcast_state st = false \/ snd key = OWNER_ID env ->
  fsm_keeps (owner_only env) (set_state key (Some st)).
Proof.
  intros Hok w H chat uid st'. cbn [set_state snd fsm]. intros Hst Hb.
  apply lookup_insert_Some in Hst as [[Hk Hx]|[_ Hst]]; [|eapply H; eassumption].
  subst st'. destruct Hok as [Hno|Howner]; [congruence|].
  rewrite Hk in Howner. exact Howner.
Qed.

Ltac owner_step :=
  first [ fsm_step
        | apply owner_only_clear
        | apply owner_only_set; left; reflexivity ].

Lemma owner_register uid rid : fsm_keeps (owner_only env) (register env uid rid).
Proof. unfold register. repeat owner_step. Qed.

Lemma owner_add_warn uid admin reason :
  fsm_keeps (owner_only env) (add_warn env uid admin reason).
Proof. unfold add_warn. repeat owner_step. Qed.

Lemma owner_init_ticket uid category :
  fsm_keeps (owner_only env) (init_ticket env uid category).
Proof. unfold init_ticket. repeat owner_step. Qed.

Lemma owner_send_with_typing chat body :
  fsm_keeps (owner_only env) (send_with_typing env chat body).
Proof. unfold send_with_typing. repeat owner_step. Qed.

Lemma owner_process_cat_callback click :
  fsm_keeps (owner_only env) (process_cat_callback env click).
Proof.
  unfold process_cat_callback. cbv zeta.
  repeat first [ apply owner_init_ticket | apply owner_send_with_typing
               | owner_step ].
Qed.

Lemma owner_adm_warn m args : fsm_keeps (owner_only env) (adm_warn env m args).
Proof. unfold adm_warn. repeat first [apply owner_add_warn | owner_step]. Qed.

Lemma owner_adm_ban m args : fsm_keeps (owner_only env) (adm_ban env m args).
Proof. unfold adm_ban. cbv zeta. repeat owner_step. Qed.

Lemma owner_adm_unban m : fsm_keeps (owner_only env) (adm_unban env m).
Proof. unfold adm_unban. repeat owner_step. Qed.

Lemma owner_on_error uid c e : fsm_keeps (owner_only env) (on_error uid c e).
Proof. unfold on_error. repeat owner_step. Qed.

Lemma owner_broadcast_iteration m chat total index uid c :
  fsm_keeps (owner_only env) (broadcast_iteration env m chat total index uid c).
Proof.
  unfold broadcast_iteration, copy_message_to_user. cbv zeta.
  repeat first [apply owner_on_error | owner_step].
Qed.

Lemma owner_broadcast_loop m chat total ids :
  forall index c,
    fsm_keeps (owner_only env) (broadcast_loop env m chat total index ids c).
Proof.
  induction ids as [|uid ids IH]; intros index c; simpl.
  - apply fsm_ret.
  - apply fsm_bind; [apply owner_broadcast_iteration|]. intros c'. apply IH.
Qed.

Lemma owner_confirm_broadcast click content :
  fsm_keeps (owner_only env) (confirm_broadcast env click content).
Proof.
  unfold confirm_broadcast. cbv zeta.
  repeat first [apply owner_broadcast_loop | owner_step].
Qed.

Lemma owner_guard {A} (handler : Message -> M A) event :
  (forall m, fsm_keeps (owner_only env) (handler m)) ->
  fsm_keeps (owner_only env) (GuardMiddleware env handler event).
Proof.
  intros Hh. unfold GuardMiddleware. cbv zeta.
  repeat first [apply owner_register | apply Hh | owner_step].
Qed.

Lemma owner_perform a : fsm_keeps (owner_only env) (perform env a).
Proof.
  induction a; simpl.
  - apply owner_register.
  - repeat owner_step.
  - repeat owner_step.
  - repeat owner_step.
  - apply owner_process_cat_callback.
  - apply owner_adm_warn.
  - apply owner_adm_ban.
  - apply owner_adm_unban.
  - repeat first [apply owner_confirm_broadcast | owner_step].
  - repeat first [apply owner_guard; intros _; exact IHa | owner_step].
Qed.

End Owner.

Section OwnerRelay.

Variable env : Env.
Variable relay_api : nat -> Call -> py_result Z.

Ltac owner_relay_step :=
  first [ fsm_step
        | apply owner_only_clear
        | apply owner_only_set; left; reflexivity ].

Lemma owner_send_leaflet chat body :
  relay_fsm_keeps (owner_only env)
    (send_leaflet_with_typing env relay_api chat body).
Proof. unfold send_leaflet_with_typing. repeat owner_relay_step. Qed.

Lemma owner_send_photo chat body :
  relay_fsm_keeps (owner_only env)
    (send_photo_with_typing env relay_api chat body).
Proof.
  unfold send_photo_with_typing.
  repeat first [apply owner_send_leaflet | owner_relay_step].
Qed.

Lemma owner_safe_set_reaction chat message emoji :
  relay_fsm_keeps (owner_only env)
    (safe_set_reaction relay_api chat message emoji).
Proof. unfold safe_set_reaction. repeat owner_relay_step. Qed.

Lemma owner_send_each calls :
  forall sent, relay_fsm_keeps (owner_only env) (send_each relay_api calls sent).
Proof.
  induction calls as [|c calls IH]; intros sent; simpl.
  - apply relay_fsm_pure.
  - apply relay_fsm_and_then; [apply relay_fsm_call|]. intros z. apply IH.
Qed.

Lemma owner_copy_message_to_admin uid message topic :
  relay_fsm_keeps (owner_only env)
    (copy_message_to_admin relay_api uid message topic).
Proof.
  unfold copy_message_to_admin.
  repeat first [apply owner_send_each | owner_relay_step].
Qed.

Lemma owner_gateway_u2a message state :
  relay_fsm_keeps (owner_only env) (gateway_u2a env relay_api message state).
Proof.
  unfold gateway_u2a, increment_message_count. cbv zeta.
  repeat first [apply owner_copy_message_to_admin | owner_relay_step].
Qed.

Lemma owner_gateway_a2u message :
  relay_fsm_keeps (owner_only env) (gateway_a2u env relay_api message).
Proof.
  unfold gateway_a2u, copy_message_to_user. cbv zeta.
  repeat first [apply owner_safe_set_reaction | owner_relay_step].
Qed.

Lemma owner_process_cat_selection message state :
  relay_fsm_keeps (owner_only env)
    (process_cat_selection env relay_api message state).
Proof.
  unfold process_cat_selection.
  repeat first [apply owner_send_leaflet | owner_relay_step].
Qed.

Lemma owner_process_cancel message state :
  relay_fsm_keeps (owner_only env) (process_cancel env relay_api message state).
Proof.
  unfold process_cancel. cbv zeta.
  repeat first [apply owner_send_leaflet | owner_relay_step].
Qed.

Lemma owner_cmd_start message args state :
  relay_fsm_keeps (owner_only env) (cmd_start env relay_api message args state).
Proof.
  unfold cmd_start. cbv zeta.
  repeat first [ apply owner_send_leaflet | apply owner_send_photo
               | apply relay_fsm_lift_core, owner_register
               | owner_relay_step ].
Qed.

Lemma owner_guarded {A} (handler : Act A) event :
  relay_fsm_keeps (owner_only env) handler ->
  relay_fsm_keeps (owner_only env) (guarded env handler event).
Proof.
  intros Hh. unfold guarded.
  repeat first [ exact Hh
               | apply relay_fsm_lift_core, owner_guard; intros m; apply fsm_ret
               | owner_relay_step ].
Qed.

(** [start_broadcast] enters the dialogue for the owner only. *)
Lemma owner_start_broadcast click :
  relay_fsm_keeps (owner_only env) (start_broadcast env relay_api click).
Proof.
  unfold start_broadcast. cbv zeta.
  destruct (Z.eqb_spec (cq_from_user click) (OWNER_ID env)) as [Howner|_];
    cbn [negb]; [|repeat owner_relay_step].
  apply relay_fsm_and_then; [|intros ?; repeat owner_relay_step].
  apply relay_fsm_lift_core, owner_only_set. right. exact Howner.
Qed.

Lemma owner_cancel_broadcast message state :
  relay_fsm_keeps (owner_only env) (cancel_broadcast relay_api message state).
Proof. unfold cancel_broadcast. repeat owner_relay_step. Qed.

Lemma owner_cancel_broadcast_callback click :
  relay_fsm_keeps (owner_only env) (cancel_broadcast_callback relay_api click).
Proof. unfold cancel_broadcast_callback. cbv zeta. repeat owner_relay_step. Qed.

Lemma owner_in_state {A} state required (handler : Act A) :
  relay_fsm_keeps (owner_only env) handler ->
  relay_fsm_keeps (owner_only env) (in_state state required handler).
Proof. intros Hh. unfold in_state. repeat first [exact Hh | owner_relay_step]. Qed.

(** [process_broadcast_content] runs for a sender in the state
    [broadcasting], who is the owner. *)
Lemma owner_broadcast_content message state :
  relay_fsm_keeps (owner_only env)
    (in_state state broadcasting
       (process_broadcast_content relay_api message state)).
Proof.
  intros s H. unfold in_state, and_then at 1, lift_core at 1, get_state.
  cbv beta iota. cbn [core log].
  destruct (bool_decide (fsm (core s) !! state = Some broadcasting)) eqn:E;
    [|exact H].
  apply bool_decide_eq_true in E.
  assert (Howner : snd state = OWNER_ID env).
  { destruct state as [chat uid]. eapply H; [exact E|reflexivity]. }
  match goal with
  | |- owner_only env (fsm (core (snd (?m ?s1)))) =>
      apply (fun K : relay_fsm_keeps (owner_only env) m => K s1)
  end.
  - unfold process_broadcast_content.
    apply relay_fsm_and_then; [|intros ?; repeat owner_relay_step].
    apply relay_fsm_and_then; [|intros ?; repeat owner_relay_step].
    apply relay_fsm_lift_core, owner_only_set. right. exact Howner.
  - destruct s. exact H.
Qed.

Lemma owner_deliver d :
  relay_fsm_keeps (owner_only env) (deliver env relay_api d).
Proof.
  induction d; simpl.
  - apply owner_cmd_start.
  - apply owner_process_cat_selection.
  - apply owner_process_cancel.
  - apply owner_gateway_u2a.
  - apply owner_gateway_a2u.
  - apply owner_start_broadcast.
  - apply relay_fsm_and_then; [|intros ?; apply relay_fsm_pure].
    apply owner_in_state, owner_cancel_broadcast.
  - apply relay_fsm_and_then; [|intros ?; apply relay_fsm_pure].
    apply owner_broadcast_content.
  - apply relay_fsm_and_then; [|intros ?; apply relay_fsm_pure].
    apply owner_in_state, owner_cancel_broadcast_callback.
  - apply relay_fsm_and_then; [|intros ?; apply relay_fsm_pure].
    apply owner_in_state, relay_fsm_lift_core, owner_confirm_broadcast.
  - apply relay_fsm_lift_core, owner_perform.
  - apply relay_fsm_and_then; [|intros ?; apply relay_fsm_pure].
    apply owner_guarded. exact IHd.
Qed.

Lemma owner_run ds :
  forall s, owner_only env (fsm (core s)) ->
            owner_only env (fsm (core (relay_run env relay_api ds s))).
Proof.
  induction ds as [|d ds IH]; intros s H; simpl; [exact H|].
  apply IH. apply owner_deliver. exact H.
Qed.

End OwnerRelay.

Lemma owner_only_empty (env : Env) : owner_only env ∅.
Proof. intros chat uid st H. rewrite lookup_empty in H. discriminate. Qed.

(** X26.  Only the owner can broadcast.  In every run of the handlers, the
    dialogue states [broadcasting] and [broadcast_confirm] are held by the
    owner only: [start_broadcast] sets the first after its test of the
    sender, and [process_broadcast_content] sets the second for a sender
    who is in the first.  So a handler registered with one of these states
    as its filter ([cancel_broadcast], [process_broadcast_content],
    [confirm_broadcast], [cancel_broadcast_callback]) is never selected for
    an event of another user: its body does not run, and the event is left
    to the handlers registered after it. *)
Theorem only_owner_broadcasts (env : Env)
    (relay_api : nat -> Call -> py_result Z) (ds : list Delivery) (s : Session) :
  owner_only env (fsm (core s)) ->
  let s' := relay_run env relay_api ds s in
  owner_only env (fsm (core s')) /\
  (forall (A : Type) (handler : Act A) (chat uid : Z) (required : BotStates),
     broadcast_state required = true ->
     uid <> OWNER_ID env ->
     in_state (chat, uid) required handler s' = (Return None, s')).
Proof.
  intros H s'. assert (H' : owner_only env (fsm (core s'))) by apply owner_run, H.
  split; [exact H'|].
  intros A handler chat uid required Hreq Hne.
  unfold in_state, and_then, lift_core, get_state. cbv beta iota. cbn [core log].
  rewrite bool_decide_eq_false_2; [destruct s'; reflexivity|].
  intros Hst. apply Hne. eapply H'; [exact Hst|exact Hreq].
Qed.

(** X26 for ten registered users: the dialogue gone through by user 5
    sends no copy, and [process_broadcast_content] is not selected for the
    next message of user 5; gone through by the owner the dialogue sends
    ten copies. *)
Lemma only_owner_broadcasts_witness :
  let attempt5 :=
    relay_run Scenario.env_ok RelayCases.delivers BroadcastCases.by_user_5
      BroadcastCases.ten in
  let owner :=
    relay_run Scenario.env_ok RelayCases.delivers BroadcastCases.by_owner
      BroadcastCases.ten in
  owner_only Scenario.env_ok (fsm (core attempt5)) /\
  in_state (5, 5) broadcasting
    (process_broadcast_content RelayCases.delivers
       (BroadcastCases.text_from 5) (5, 5)) attempt5 = (Return None, attempt5) /\
  copies (trace (core attempt5)) = [] /\
  copies (trace (core owner)) = Scenario.recipients 10.
Proof.
  intros attempt5 owner.
  destruct (only_owner_broadcasts Scenario.env_ok RelayCases.delivers
              BroadcastCases.by_user_5 BroadcastCases.ten) as (H1 & H2).
  - intros chat uid st Hst. vm_compute in Hst. discriminate.
  - split; [exact H1|]. split.
    + apply H2; [reflexivity|]. vm_compute. discriminate.
    + split; vm_compute; reflexivity.
Defined.
